(** * StockControl: stock costing, table filters and date helpers

  A shallow embedding of the parts of the StockControl repository that the
  specification of the point-in-time costing engine talks about:

  - [stock_control_frontend/src/utils/date.ts]: the date-format helpers;
  - [useTable.ts]: [applyFilters], the substring filters of a table;
  - [inventory/api.py]: [StockCostViewSet.list], the costing engine itself.
    The repository carries it in compiled form only (CPython 3.10 byte
    code, the second module stored in
    [stock_control_backend/inventory/migrations/__pycache__/0014_recreate_usuario_table.cpython-312.pyc]);
    the model follows the byte code instruction by instruction, with the
    names and constants of its tables, and quotes the Python it stands
    for;
  - [services/stockService.ts] and [composables/useTransactionForm.ts]:
    the callers of the engine, for the way they treat failed reads.

  Beside the claims of the specification, the development covers the
  code around them: the validators and the clock helpers of [date.ts],
  the search of [TransactionsFilters.vue], the query string of
  [getStockItems], the cost suggestions of the transaction form, the
  sorting and the state of [useTable], and the reads, the order and the
  totals of the costing engine.

  Conventions of the embedding:
  - JavaScript and Python strings are [string]s (sequences of 8-bit
    characters); case folding and the digits are the ASCII ones, and the
    statements that depend on them are made for texts of ASCII
    characters;
  - Python [Decimal] amounts are exact rationals [Q]: the rounding of a
    [Decimal] division to 28 significant digits and the final [float()]
    conversion of the response are not modelled, and equalities between
    amounts are stated with [==] ([Qeq]);
  - effects (reads of the database, calls of the HTTP API, exceptions) are
    explicit: a computation takes the trace of the reads issued so far and
    returns an outcome together with the extended trace. *)

From Stdlib Require Import Ascii String ZArith QArith Lia Sorted.
From stdpp Require Import base strings list gmap pretty.

Open Scope string_scope.
Open Scope list_scope.

(** ** JavaScript string primitives *)

Module Js.

(** [s.startsWith(p)], the test behind [includes]. *)
Fixpoint startsWith (s p : string) {struct p} : bool :=
  match p, s with
  | EmptyString, _ => true
  | String _ _, EmptyString => false
  | String a p', String b s' => Ascii.eqb a b && startsWith s' p'
  end.

(** [s.includes(sub)]: [sub] occurs in [s] at some position. *)
Fixpoint includes (s sub : string) : bool :=
  startsWith s sub ||
  match s with
  | EmptyString => false
  | String _ s' => includes s' sub
  end.

(** [s.split(sep)] for a separator of one character, the only use the
    sources make of it (['/'] and ['-']).  The result is never empty:
    [''.split('-')] is [['']]. *)
Fixpoint split (sep : ascii) (s : string) : list string :=
  match s with
  | EmptyString => [EmptyString]
  | String c s' =>
      if Ascii.eqb c sep then EmptyString :: split sep s'
      else match split sep s' with
           | h :: t => String c h :: t
           | [] => [String c EmptyString]
           end
  end.

Fixpoint repeat_char (c : ascii) (n : nat) : string :=
  match n with
  | O => EmptyString
  | S n' => String c (repeat_char c n')
  end.

(** [s.padStart(n, c)] for a one-character filler. *)
Definition padStart (n : nat) (c : ascii) (s : string) : string :=
  repeat_char c (n - String.length s) +:+ s.

Definition is_upper (c : ascii) : bool :=
  let n := nat_of_ascii c in (65 <=? n)%nat && (n <=? 90)%nat.

Definition lower_char (c : ascii) : ascii :=
  if is_upper c then ascii_of_nat (nat_of_ascii c + 32) else c.

(** [s.toLowerCase()] on ASCII text: the letters [A] to [Z] become
    small, every other character stays.  JavaScript also folds the
    letters of other alphabets; what is proved of the case folding is
    stated for texts of ASCII characters ([AsciiText.ascii_text]). *)
Fixpoint toLowerCase (s : string) : string :=
  match s with
  | EmptyString => EmptyString
  | String c s' => String (lower_char c) (toLowerCase s')
  end.

(** [\d] of a JavaScript regular expression: the ten ASCII digits. *)
Definition is_digit (c : ascii) : bool :=
  let n := nat_of_ascii c in (48 <=? n)%nat && (n <=? 57)%nat.

(** The regular expressions of the sources are anchored sequences of
    digits and literal characters. *)
Inductive atom := Digit | Lit (c : ascii).

Fixpoint regex_test (re : list atom) (s : string) : bool :=
  match re, s with
  | [], EmptyString => true
  | Digit :: re', String c s' => is_digit c && regex_test re' s'
  | Lit a :: re', String c s' => Ascii.eqb a c && regex_test re' s'
  | _, _ => false
  end.

(** A value interpolated in a template literal: a missing array element
    is [undefined] and prints as such. *)
Definition interpolate (v : option string) : string :=
  match v with
  | Some s => s
  | None => "undefined"
  end.

End Js.

(** ** [utils/date.ts] *)

Module DateUtils.
Import Js.

(** [/^\d{4}-\d{2}-\d{2}$/], the [dateRegex] of [isValidISODate]. *)
Definition isoRegex : list atom :=
  [Digit; Digit; Digit; Digit; Lit "-"; Digit; Digit; Lit "-"; Digit; Digit].

(** [/^\d{2}\/\d{2}\/\d{4}$/], the [dateRegex] of [isValidBrazilianDate]. *)
Definition brazilianRegex : list atom :=
  [Digit; Digit; Lit "/"; Digit; Digit; Lit "/"; Digit; Digit; Digit; Digit].

(** [[
    if (isoDate.includes('/')) return isoDate;
    try {
      const [year, month, day] = isoDate.split('-');
      return `${day}/${month}/${year}`;
    } catch (e) { ...; return isoDate; }
    ]]
    Nothing in the [try] block can throw: destructuring an array that is
    too short binds [undefined]. *)
Definition formatDateToBrazilian (isoDate : string) : string :=
  if includes isoDate "/" then isoDate
  else
    let parts := split "-" isoDate in
    let year := parts !! 0%nat in
    let month := parts !! 1%nat in
    let day := parts !! 2%nat in
    interpolate day +:+ "/" +:+ interpolate month +:+ "/" +:+ interpolate year.

(** [[
    if (brazilianDate.includes('-')) return brazilianDate;
    try {
      const [day, month, year] = brazilianDate.split('/');
      return `${year}-${month.padStart(2, '0')}-${day.padStart(2, '0')}`;
    } catch (e) { ...; return brazilianDate; }
    ]]
    [month.padStart] throws a [TypeError] when [month] is [undefined];
    the [catch] then returns the argument.  [day] is always bound. *)
Definition formatBrazilianDateToISO (brazilianDate : string) : string :=
  if includes brazilianDate "-" then brazilianDate
  else
    let parts := split "/" brazilianDate in
    let day := parts !! 0%nat in
    let month := parts !! 1%nat in
    let year := parts !! 2%nat in
    match month, day with
    | Some month, Some day =>
        interpolate year +:+ "-" +:+ padStart 2 "0" month
                    +:+ "-" +:+ padStart 2 "0" day
    | _, _ => brazilianDate
    end.

End DateUtils.

(** ** [composables/useTable.ts] *)

Module UseTable.
Import Js.

(** The value of a property of a table row. *)
Inductive JsValue :=
| JUndefined
| JNull
| JBoolean (b : bool)
| JInteger (n : Z)
| JString (s : string).

(** [String(value)]. *)
Definition toString (v : JsValue) : string :=
  match v with
  | JUndefined => "undefined"
  | JNull => "null"
  | JBoolean true => "true"
  | JBoolean false => "false"
  | JInteger n => pretty n
  | JString s => s
  end.

(** [item[field]]: a property that is absent reads as [undefined]. *)
Definition prop (item : gmap string JsValue) (field : string) : JsValue :=
  default JUndefined (item !! field).

(** The callback of [every]:
    [[
    ([field, substr]) => {
      if (!substr) return true;
      const value = item[field as keyof T];
      return String(value).toLowerCase().includes(substr.toLowerCase());
    }
    ]] *)
Definition matchesFilter (item : gmap string JsValue) (entry : string * string) : bool :=
  let '(field, substr) := entry in
  if String.eqb substr "" then true
  else
    let value := prop item field in
    includes (toLowerCase (toString value)) (toLowerCase substr).

(** [[
    const applyFilters = (data: T[]): T[] => {
      return data.filter(item => {
        return Object.entries(filters.value).every(...);
      });
    };
    ]] *)
Definition applyFilters (filters : gmap string string)
    (data : list (gmap string JsValue)) : list (gmap string JsValue) :=
  List.filter (fun item => forallb (matchesFilter item) (map_to_list filters)) data.

End UseTable.

(** ** Python values used by the costing engine *)

Module Py.

(** Truth value of a string: [if s:] holds for a non-empty string. *)
Definition truthy (s : string) : bool := negb (String.eqb s "").

(** [datetime.date]. *)
Record date := Date { year : Z; month : Z; day : Z }.

(** [a <= b] on dates. *)
Definition date_le (a b : date) : bool :=
  ((year a <? year b)
   || ((year a =? year b)
       && ((month a <? month b)
           || ((month a =? month b) && (day a <=? day b)))))%Z.

Definition digit_value (c : ascii) : option Z :=
  if Js.is_digit c then Some (Z.of_nat (nat_of_ascii c) - 48)%Z else None.

(** [int(s)] for a string of decimal digits. *)
Fixpoint int_of_digits (acc : Z) (s : string) : option Z :=
  match s with
  | EmptyString => Some acc
  | String c s' =>
      match digit_value c with
      | Some d => int_of_digits (10 * acc + d) s'
      | None => None
      end
  end.

Definition is_leap (y : Z) : bool :=
  ((y mod 4 =? 0) && (negb (y mod 100 =? 0) || (y mod 400 =? 0)))%Z.

Definition days_in_month (y m : Z) : Z :=
  if (m =? 2)%Z then (if is_leap y then 29 else 28)%Z
  else if ((m =? 4) || (m =? 6) || (m =? 9) || (m =? 11))%Z then 30%Z
  else 31%Z.

Definition in_range (lo hi v : Z) : option Z :=
  if ((lo <=? v) && (v <=? hi))%Z then Some v else None.

(** [%Y]: four digits. *)
Definition directive_Y (s : string) : option Z :=
  if (String.length s =? 4)%nat then int_of_digits 0 s else None.

(** [%m]: [1[0-2]|0[1-9]|[1-9]]. *)
Definition directive_m (s : string) : option Z :=
  match s with
  | String _ EmptyString | String _ (String _ EmptyString) =>
      int_of_digits 0 s ≫= in_range 1 12
  | _ => None
  end.

(** [%d]: [3[0-1]|[1-2]\d|0[1-9]|[1-9]| [1-9]]. *)
Definition directive_d (s : string) : option Z :=
  match s with
  | String _ EmptyString => int_of_digits 0 s ≫= in_range 1 9
  | String " " (String c EmptyString) => digit_value c ≫= in_range 1 9
  | String _ (String _ EmptyString) => int_of_digits 0 s ≫= in_range 1 31
  | _ => None
  end.

(** [datetime.strptime(s, '%Y-%m-%d').date()] on ASCII text; [None]
    stands for the [ValueError] raised when the text does not match the
    format, when data is left over, or when the fields do not make up a
    date of the calendar (from year 1 on).  CPython's [\d] also matches
    the decimal digits of other scripts; what is proved of a text that
    is refused is stated for texts of ASCII characters. *)
Definition strptime_Ymd (s : string) : option date :=
  match Js.split "-" s with
  | [y; m; d] =>
      y ← directive_Y y;
      m ← directive_m m;
      d ← directive_d d;
      if ((1 <=? y) && (d <=? days_in_month y m))%Z
      then Some (Date y m d) else None
  | _ => None
  end.

End Py.

(** ** Computations that read a store *)

Module Effect.

Inductive outcome (E A : Type) :=
| Returned (a : A)
| Raised (e : E).
Arguments Returned {E A} a.
Arguments Raised {E A} e.

(** A computation receives the trace of the reads issued so far and
    gives back its outcome and the trace extended by its own reads. *)
Definition M (R E A : Type) : Type := list R -> outcome E A * list R.

Section Monad.
Context {R E : Type}.

#[export] Instance M_ret : MRet (M R E) :=
  fun A a tr => (Returned a, tr).

#[export] Instance M_bind : MBind (M R E) :=
  fun A B f m tr =>
    match m tr with
    | (Returned a, tr') => f a tr'
    | (Raised e, tr') => (Raised e, tr')
    end.

(** One read [r] whose answer may depend on how many reads came
    before it. *)
Definition perform {A} (r : R) (answer : nat -> outcome E A) : M R E A :=
  fun tr => (answer (List.length tr), tr ++ [r]).

Definition throw {A} (e : E) : M R E A :=
  fun tr => (Raised e, tr).

(** [try { m } catch (e) { handler(e) }]. *)
Definition try_catch {A} (m : M R E A) (handler : E -> M R E A) : M R E A :=
  fun tr =>
    match m tr with
    | (Returned a, tr') => (Returned a, tr')
    | (Raised e, tr') => handler e tr'
    end.

(** [for x in xs: acc = body(acc, x)]. *)
Fixpoint for_each {A S} (xs : list A) (body : S -> A -> M R E S) (acc : S)
  : M R E S :=
  match xs with
  | [] => mret acc
  | x :: xs' => acc' ← body acc x; for_each xs' body acc'
  end.

(** Runs a computation from the empty trace. *)
Definition run {A} (m : M R E A) : outcome E A * list R := m [].
End Monad.

End Effect.

(** ** The tables and the queries of the costing engine *)

Module Item.
(** Modelled from the spec: the model classes ([inventory/models.py])
    are not part of the sources at hand; the fields are the ones
    [StockCostViewSet.list] reads, with the types the spec gives them. *)
Record t := Build
  { cod_sku : string;
    descricao_item : string;
    unid_medida : string;
    active : bool }.
End Item.

Module Transacao.
(** Modelled from the spec: the model classes ([inventory/models.py])
    are not part of the sources at hand.  A transaction is either an
    entry ([entradas], dated by [data_entrada]) or an exit ([saidas],
    dated by [data_saida]); [id_transacao] is its sequence number. *)
Inductive movimento :=
| Entrada (data_entrada : Py.date)
| Saida (data_saida : Py.date).

Record t := Build
  { id_transacao : Z;
    cod_sku : string;
    quantidade : Q;
    valor_unit : Q;
    mov : movimento }.
End Transacao.

Module Orm.
Import Effect.
#[local] Open Scope Q_scope.

(** The reads the engine issues. *)
Inductive query :=
| SelectItems
| SelectEntradasBySku
| SelectSaidasBySku
| AggregateEntradas (sku : string)
| AggregateSaidas (sku : string)
| LastEntrada (sku : string).

(** A read that fails raises a database error out of the view. *)
Inductive exn := DatabaseError (q : query).

(** The two tables, whose rows a query returns in the order of the table,
    and whether the database answers the n-th read of a request. *)
Record database := Database
  { items : list Item.t;
    transacoes : list Transacao.t;
    available : nat -> bool }.

(** [field__icontains=value]. *)
Definition icontains (field value : string) : bool :=
  Js.includes (Js.toLowerCase field) (Js.toLowerCase value).

(** [entradas__isnull=False, entradas__data_entrada__lte=d]. *)
Definition entradas__data_entrada__lte (d : Py.date) (t : Transacao.t) : bool :=
  match Transacao.mov t with
  | Transacao.Entrada data_entrada => Py.date_le data_entrada d
  | Transacao.Saida _ => false
  end.

(** [saidas__isnull=False, saidas__data_saida__lte=d]. *)
Definition saidas__data_saida__lte (d : Py.date) (t : Transacao.t) : bool :=
  match Transacao.mov t with
  | Transacao.Saida data_saida => Py.date_le data_saida d
  | Transacao.Entrada _ => false
  end.

(** [Sum(...)]: [NULL] over no rows. *)
Definition Sum (xs : list Q) : option Q :=
  match xs with
  | [] => None
  | x :: xs' => Some (fold_left Qplus xs' x)
  end.

(** [Coalesce(a, b)]. *)
Definition Coalesce (a : option Q) (b : Q) : Q := default b a.

Fixpoint add_to_group (sku : string) (q : Q) (groups : list (string * Q))
  : list (string * Q) :=
  match groups with
  | [] => [(sku, q)]
  | (s, total) :: groups' =>
      if String.eqb s sku then (s, total + q) :: groups'
      else (s, total) :: add_to_group sku q groups'
  end.

(** [.values('cod_sku').annotate(total=Sum('quantidade'))]: one row per
    [cod_sku] that has rows, with the sum of their quantities. *)
Fixpoint values_annotate_Sum (rows : list Transacao.t) : list (string * Q) :=
  match rows with
  | [] => []
  | t :: rows' =>
      add_to_group (Transacao.cod_sku t) (Transacao.quantidade t)
                   (values_annotate_Sum rows')
  end.

(** [next((e for e in rows if e['cod_sku'] == sku), {total: 0})[total]]. *)
Fixpoint next (sku : string) (rows : list (string * Q)) (dflt : Q) : Q :=
  match rows with
  | [] => dflt
  | (s, total) :: rows' => if String.eqb s sku then total else next sku rows' dflt
  end.

Fixpoint insert_desc (t : Transacao.t) (sorted : list Transacao.t)
  : list Transacao.t :=
  match sorted with
  | [] => [t]
  | u :: sorted' =>
      if (Transacao.id_transacao u <=? Transacao.id_transacao t)%Z
      then t :: sorted
      else u :: insert_desc t sorted'
  end.

(** [.order_by('-id_transacao')]. *)
Definition order_by_desc_id (rows : list Transacao.t) : list Transacao.t :=
  foldr insert_desc [] rows.

(** [.first()]. *)
Definition first (rows : list Transacao.t) : option Transacao.t := head rows.

(** A [QuerySet] runs its query the first time it is iterated and keeps
    the rows in [_result_cache] for the next iterations. *)
Record QuerySet (A : Type) := MkQuerySet
  { sql : query;
    rows : A;
    _result_cache : option A }.
Arguments MkQuerySet {A}.
Arguments sql {A}.
Arguments rows {A}.
Arguments _result_cache {A}.

(** The answer of the database to a read. *)
Definition execute {A} (db : database) (q : query) (result : A)
  : M query exn A :=
  perform q (fun n => if available db n then Returned result
                      else Raised (DatabaseError q)).

(** [iter(qs)]. *)
Definition iterate {A} (db : database) (qs : QuerySet A)
  : M query exn (A * QuerySet A) :=
  match _result_cache qs with
  | Some cached => mret (cached, qs)
  | None =>
      fetched ← execute db (sql qs) (rows qs);
      mret (fetched, MkQuerySet (sql qs) (rows qs) (Some fetched))
  end.

End Orm.

(** ** [inventory/api.py]: [StockCostViewSet]

    The comparisons the claims turn on are, in the byte code of [list]:
    - [COMPARE_OP 2 (==)] of [query_params.get('hasStock', '')] and of
      [query_params.get('active', '')] with ['true'];
    - [LOAD_FAST has_stock; POP_JUMP_IF_FALSE; LOAD_FAST quantidade;
      LOAD_CONST 0; COMPARE_OP 1 (<=); POP_JUMP_IF_FALSE; JUMP_ABSOLUTE]
      back to the head of the loop: [if has_stock and quantidade <= 0: continue];
    - [LOAD_FAST estoque_atual; LOAD_CONST 0; COMPARE_OP 4 (>)] before
      [BINARY_TRUE_DIVIDE], with [Decimal(0.0)] in the other branch;
    - [LOAD_FAST custo_ultima_entrada; POP_JUMP_IF_FALSE] to
      [LOAD_CONST None] for the key [last_entry_cost]. *)

Module StockCostViewSet.
Import Effect Orm.
#[local] Open Scope Q_scope.

(** One element of [results]; [camelize_dict_keys] renames the keys to
    [sku], [description], [quantity], [unityMeasure], [unitCost],
    [totalCost], [active] and [lastEntryCost]. *)
Record item_data := ItemData
  { sku : string;
    description : string;
    quantity : Q;
    unity_measure : string;
    unit_cost : Q;
    total_cost : Q;
    active : bool;
    last_entry_cost : option Q }.

Inductive response :=
| Response200 (count : nat) (results : list item_data)
| Response400 (error : string).

(** The state of the loop over the items. *)
Record locals := Locals
  { entradas_transacoes : QuerySet (list (string * Q));
    saidas_transacoes : QuerySet (list (string * Q));
    result : list item_data }.

(** The body of [for item in items_query:]
    [[
    entrada_item = next((e for e in entradas_transacoes
                         if e['cod_sku'] == item.cod_sku), {'total_entrada': 0})
    saida_item = next((s for s in saidas_transacoes
                       if s['cod_sku'] == item.cod_sku), {'total_saida': 0})
    quantidade = entrada_item['total_entrada'] - saida_item['total_saida']
    if has_stock and quantidade <= 0:
        continue
    entradas_aggregate = Transacao.objects.filter(
        cod_sku=item.cod_sku, entradas__isnull=False,
        entradas__data_entrada__lte=stock_date
    ).aggregate(
        qtde_total=Coalesce(Sum('quantidade', output_field=DecimalField()), Decimal(0)),
        valor_total=Coalesce(Sum(F('valor_unit') * F('quantidade'),
                                 output_field=DecimalField()), Decimal(0)))
    entradas_qtde = entradas_aggregate['qtde_total']
    entradas_valor = entradas_aggregate['valor_total']
    saidas_aggregate = ...   # the same with saidas__isnull, saidas__data_saida__lte
    saidas_qtde = saidas_aggregate['qtde_total']
    saidas_valor = saidas_aggregate['valor_total']
    estoque_atual = entradas_qtde - saidas_qtde
    valor_estoque_atual = entradas_valor - saidas_valor
    custo_medio = valor_estoque_atual / estoque_atual if estoque_atual > 0 else Decimal(0.0)
    total_cost = custo_medio * estoque_atual
    custo_ultima_entrada = Transacao.objects.filter(
        cod_sku=item.cod_sku, entradas__isnull=False,
        entradas__data_entrada__lte=stock_date
    ).order_by('-id_transacao').first()
    item_data = {
        'sku': item.cod_sku, 'description': item.descricao_item,
        'quantity': float(estoque_atual), 'unity_measure': item.unid_medida,
        'unit_cost': float(custo_medio), 'total_cost': float(total_cost),
        'active': item.active,
        'last_entry_cost': float(custo_ultima_entrada.valor_unit)
                           if custo_ultima_entrada else None }
    result.append(camelize_dict_keys(item_data))
    ]] *)
Definition loop_body (db : database) (stock_date : Py.date) (has_stock : bool)
    (st : locals) (item : Item.t) : M query exn locals :=
  '(entradas_rows, entradas_transacoes) ← iterate db (entradas_transacoes st);
  let entrada_item := next (Item.cod_sku item) entradas_rows 0 in
  '(saidas_rows, saidas_transacoes) ← iterate db (saidas_transacoes st);
  let saida_item := next (Item.cod_sku item) saidas_rows 0 in
  let quantidade := entrada_item - saida_item in
  if has_stock && Qle_bool quantidade 0 then
    mret (Locals entradas_transacoes saidas_transacoes (result st))
  else
    let entradas :=
      List.filter (fun t => String.eqb (Transacao.cod_sku t) (Item.cod_sku item)
                            && entradas__data_entrada__lte stock_date t)
                  (transacoes db) in
    let saidas :=
      List.filter (fun t => String.eqb (Transacao.cod_sku t) (Item.cod_sku item)
                            && saidas__data_saida__lte stock_date t)
                  (transacoes db) in
    let valor t := Transacao.valor_unit t * Transacao.quantidade t in
    '(entradas_qtde, entradas_valor) ←
      execute db (AggregateEntradas (Item.cod_sku item))
              (Coalesce (Sum (map Transacao.quantidade entradas)) 0,
               Coalesce (Sum (map valor entradas)) 0);
    '(saidas_qtde, saidas_valor) ←
      execute db (AggregateSaidas (Item.cod_sku item))
              (Coalesce (Sum (map Transacao.quantidade saidas)) 0,
               Coalesce (Sum (map valor saidas)) 0);
    let estoque_atual := entradas_qtde - saidas_qtde in
    let valor_estoque_atual := entradas_valor - saidas_valor in
    let custo_medio :=
      if negb (Qle_bool estoque_atual 0)
      then valor_estoque_atual / estoque_atual else 0 in
    let total_cost := custo_medio * estoque_atual in
    custo_ultima_entrada ←
      execute db (LastEntrada (Item.cod_sku item))
              (first (order_by_desc_id entradas));
    let item_data :=
      {| sku := Item.cod_sku item;
         description := Item.descricao_item item;
         quantity := estoque_atual;
         unity_measure := Item.unid_medida item;
         unit_cost := custo_medio;
         total_cost := total_cost;
         active := Item.active item;
         last_entry_cost := Transacao.valor_unit <$> custo_ultima_entrada |} in
    mret (Locals entradas_transacoes saidas_transacoes (result st ++ [item_data])).

Definition invalid_date : string := "Formato de data inválido. Use YYYY-MM-DD".

(** [StockCostViewSet.list(self, request)]; [now] is the date the clock
    shows, [datetime.now().date()].
    [[
    stock_date = request.query_params.get('stockDate', None)
    if stock_date:
        try:
            stock_date = datetime.strptime(stock_date, '%Y-%m-%d').date()
        except ValueError:
            return Response({'error': 'Formato de data inválido. Use YYYY-MM-DD'},
                            status=status.HTTP_400_BAD_REQUEST)
    else:
        stock_date = datetime.now().date()
    sku_filter = request.query_params.get('sku', '')
    description_filter = request.query_params.get('description', '')
    has_stock = request.query_params.get('hasStock', '') == 'true'
    active_only = request.query_params.get('active', '') == 'true'
    items_query = Item.objects.all()
    if sku_filter:
        items_query = items_query.filter(cod_sku__icontains=sku_filter)
    if description_filter:
        items_query = items_query.filter(descricao_item__icontains=description_filter)
    if active_only:
        items_query = items_query.filter(active=True)
    entradas_transacoes = Transacao.objects.filter(
        entradas__data_entrada__lte=stock_date
    ).values('cod_sku').annotate(total_entrada=Sum('quantidade'))
    saidas_transacoes = Transacao.objects.filter(
        saidas__data_saida__lte=stock_date
    ).values('cod_sku').annotate(total_saida=Sum('quantidade'))
    result = []
    for item in items_query:
        ...
    return Response(camelize_dict_keys({'count': len(result), 'results': result}))
    ]] *)
Definition list_ (db : database) (now : Py.date) (query_params : gmap string string)
  : M query exn response :=
  let stock_date :=
    match query_params !! "stockDate" with
    | Some stock_date =>
        if Py.truthy stock_date then
          match Py.strptime_Ymd stock_date with
          | Some d => inr d
          | None => inl (Response400 invalid_date)
          end
        else inr now
    | None => inr now
    end in
  match stock_date with
  | inl bad_request => mret bad_request
  | inr stock_date =>
      let sku_filter := default "" (query_params !! "sku") in
      let description_filter := default "" (query_params !! "description") in
      let has_stock := String.eqb (default "" (query_params !! "hasStock")) "true" in
      let active_only := String.eqb (default "" (query_params !! "active")) "true" in
      let items_query := items db in
      let items_query :=
        if Py.truthy sku_filter
        then List.filter (fun i => icontains (Item.cod_sku i) sku_filter) items_query
        else items_query in
      let items_query :=
        if Py.truthy description_filter
        then List.filter (fun i => icontains (Item.descricao_item i) description_filter)
                         items_query
        else items_query in
      let items_query :=
        if active_only then List.filter Item.active items_query else items_query in
      let entradas_transacoes :=
        MkQuerySet SelectEntradasBySku
          (values_annotate_Sum
             (List.filter (entradas__data_entrada__lte stock_date) (transacoes db)))
          None in
      let saidas_transacoes :=
        MkQuerySet SelectSaidasBySku
          (values_annotate_Sum
             (List.filter (saidas__data_saida__lte stock_date) (transacoes db)))
          None in
      fetched_items ← execute db SelectItems items_query;
      st ← for_each fetched_items (loop_body db stock_date has_stock)
                    (Locals entradas_transacoes saidas_transacoes []);
      mret (Response200 (List.length (result st)) (result st))
  end.

End StockCostViewSet.

(** ** The valuation of the specification *)

Module Spec.
Import Py.
#[local] Open Scope Q_scope.

(** Calendar order of dates. *)
Definition before (a b : date) : Prop :=
  (year a < year b
   \/ (year a = year b
       /\ (month a < month b \/ (month a = month b /\ day a < day b))))%Z.

(** "occurrence date ≤ asOfDate": the date itself is included. *)
Definition on_or_before (a b : date) : Prop := a = b \/ before a b.

#[export] Instance date_eq_dec : EqDecision date.
Proof. solve_decision. Defined.

#[export] Instance before_dec a b : Decision (before a b).
Proof. unfold before. apply _. Defined.

#[export] Instance on_or_before_dec a b : Decision (on_or_before a b).
Proof. unfold on_or_before. apply _. Defined.

(** An Entry transaction of the item [sku] with occurrence date ≤ asOfDate. *)
Definition qualifying_entry (sku : string) (asOfDate : date) (t : Transacao.t) : Prop :=
  Transacao.cod_sku t = sku
  /\ match Transacao.mov t with
     | Transacao.Entrada d => on_or_before d asOfDate
     | Transacao.Saida _ => False
     end.

(** An Exit transaction of the item [sku] with occurrence date ≤ asOfDate. *)
Definition qualifying_exit (sku : string) (asOfDate : date) (t : Transacao.t) : Prop :=
  Transacao.cod_sku t = sku
  /\ match Transacao.mov t with
     | Transacao.Saida d => on_or_before d asOfDate
     | Transacao.Entrada _ => False
     end.

#[export] Instance qualifying_entry_dec sku d t : Decision (qualifying_entry sku d t).
Proof. unfold qualifying_entry. destruct (Transacao.mov t); apply _. Defined.

#[export] Instance qualifying_exit_dec sku d t : Decision (qualifying_exit sku d t).
Proof. unfold qualifying_exit. destruct (Transacao.mov t); apply _. Defined.

(** The sum of [f] over the transactions of the ledger that satisfy [P]. *)
Fixpoint sigma (P : Transacao.t -> Prop) `{!forall t, Decision (P t)}
    (f : Transacao.t -> Q) (ledger : list Transacao.t) : Q :=
  match ledger with
  | [] => 0
  | t :: ledger' =>
      if decide (P t) then f t + sigma P f ledger' else sigma P f ledger'
  end.

Definition value (t : Transacao.t) : Q :=
  Transacao.quantidade t * Transacao.valor_unit t.

Definition entryQty ledger sku asOfDate :=
  sigma (qualifying_entry sku asOfDate) Transacao.quantidade ledger.
Definition entryValue ledger sku asOfDate :=
  sigma (qualifying_entry sku asOfDate) value ledger.
Definition exitQty ledger sku asOfDate :=
  sigma (qualifying_exit sku asOfDate) Transacao.quantidade ledger.
Definition exitValue ledger sku asOfDate :=
  sigma (qualifying_exit sku asOfDate) value ledger.

Definition currentQty ledger sku asOfDate :=
  entryQty ledger sku asOfDate - exitQty ledger sku asOfDate.
Definition netValue ledger sku asOfDate :=
  entryValue ledger sku asOfDate - exitValue ledger sku asOfDate.

(** The reference date of a request: the [stockDate] parameter when it
    is given and not empty, the date of the clock otherwise; no date at
    all when the parameter does not parse. *)
Definition asOfDate (now : date) (query_params : gmap string string) : option date :=
  match query_params !! "stockDate" with
  | Some s => if decide (s = "") then Some now else strptime_Ymd s
  | None => Some now
  end.

(** The value of a text filter; a filter that is absent or empty
    selects every item. *)
Definition text_filter (query_params : gmap string string) (key : string) : string :=
  default "" (query_params !! key).

(** [onlyWithStock] and [onlyActive] are set by the text [true]. *)
Definition flag (query_params : gmap string string) (key : string) : bool :=
  bool_decide (query_params !! key = Some "true").

(** [sub] occurs in [s] as a substring. *)
Definition occurs_in (sub s : string) : Prop :=
  exists pre post, s = pre +:+ sub +:+ post.

(** [value] occurs in [field], letter case apart. *)
Definition contains (field value : string) : Prop :=
  occurs_in (Js.toLowerCase value) (Js.toLowerCase field).

(** The candidate items of a request. *)
Definition candidate (query_params : gmap string string) (item : Item.t) : Prop :=
  contains (Item.cod_sku item) (text_filter query_params "sku")
  /\ contains (Item.descricao_item item) (text_filter query_params "description")
  /\ (flag query_params "active" = true -> Item.active item = true).

End Spec.

(** ** The HTTP client of the front end *)

Module Http.
Import Effect.

(** The requests the front end sends: [api.get(url)] with the parameters
    of its query string, and [stockCostService.getStockCosts(date, {sku})],
    a service that is not part of the sources at hand. *)
Inductive call :=
| ApiGet (path : string) (params : list (string * string))
| GetStockCosts (date : option string) (sku : string).

(** The value a rejected promise carries. *)
Inductive error := RequestFailed (status : nat).

(** [StockItem], one row of the stock listing. *)
Record StockItem := MkStockItem
  { codSku : string;
    descricaoItem : string;
    unidMedida : string;
    active : bool;
    quantity : Q;
    estimatedConsumptionTime : option string }.

(** [Paginated<StockItem>]. *)
Record Paginated := MkPaginated
  { count : nat;
    results : list StockItem }.

(** The fields the form reads in a row of the costs listing;
    [lastEntryCost] is [null] for an item without entries. *)
Record StockCost := MkStockCost
  { unitCost : Q;
    lastEntryCost : option Q }.

(** What the server answers to each request; the answer may depend on how
    many requests came before.  [custo_medio] answers with [data]: nothing
    when [data] is falsy, and [data.custoMedio], which may be [undefined]. *)
Record server := Server
  { stocks : list (string * string) -> nat -> outcome error Paginated;
    custo_medio : string -> nat -> outcome error (option (option Q));
    stock_costs : option string -> string -> nat -> outcome error (list StockCost) }.

End Http.

(** ** [services/stockService.ts] *)

Module StockService.
Import Effect Http.

(** The [filters] argument of [getStockItems]. *)
Record Filters := MkFilters
  { f_codSku : option string;
    f_descricaoItem : option string;
    f_stockDate : option string;
    f_showOnlyStockItems : option bool;
    f_showOnlyActiveItems : option bool;
    f_page_size : option nat;
    f_ordering : option string }.

(** [if (v) ...] on an optional string: defined and not empty. *)
Definition truthy (v : option string) : bool :=
  match v with
  | Some s => negb (String.eqb s "")
  | None => false
  end.

(** [String(b)]. *)
Definition String_of_bool (b : bool) : string := if b then "true" else "false".

(** [[
    let d = filters.stockDate || ''
    if (filters.stockDate && filters.stockDate.includes('/')) {
      const parts = filters.stockDate.split('/')
      if (parts.length === 3) {
        d = `${parts[2]}-${parts[1].padStart(2, '0')}-${parts[0].padStart(2, '0')}`
      }
    }
    ]] *)
Definition convertStockDate (stockDate : option string) : string :=
  let d := if truthy stockDate then default "" stockDate else "" in
  if truthy stockDate && Js.includes (default "" stockDate) "/" then
    match Js.split "/" (default "" stockDate) with
    | [p0; p1; p2] => p2 +:+ "-" +:+ Js.padStart 2 "0" p1 +:+ "-" +:+ Js.padStart 2 "0" p0
    | _ => d
    end
  else d.

(** The [URLSearchParams] of the request:
    [[
    const params = new URLSearchParams({ page: String(page) })
    if (filters.codSku) params.append('codSku', String(filters.codSku))
    if (filters.descricaoItem) params.append('descricaoItem', filters.descricaoItem)
    ...
    if (filters.stockDate) params.append('stockDate', String(d))
    if (filters.showOnlyStockItems !== undefined)
      params.append('showOnlyStockItems', String(filters.showOnlyStockItems))
    if (filters.showOnlyActiveItems !== undefined)
      params.append('showOnlyActiveItems', String(filters.showOnlyActiveItems))
    if (filters.page_size) params.append('page_size', String(filters.page_size))
    if (filters.ordering) params.append('ordering', filters.ordering)
    ]] *)
Definition searchParams (page : nat) (filters : Filters) : list (string * string) :=
  let params := [("page", pretty page)] in
  let params :=
    if truthy (f_codSku filters)
    then params ++ [("codSku", default "" (f_codSku filters))] else params in
  let params :=
    if truthy (f_descricaoItem filters)
    then params ++ [("descricaoItem", default "" (f_descricaoItem filters))] else params in
  let d := convertStockDate (f_stockDate filters) in
  let params :=
    if truthy (f_stockDate filters) then params ++ [("stockDate", d)] else params in
  let params :=
    match f_showOnlyStockItems filters with
    | Some b => params ++ [("showOnlyStockItems", String_of_bool b)]
    | None => params
    end in
  let params :=
    match f_showOnlyActiveItems filters with
    | Some b => params ++ [("showOnlyActiveItems", String_of_bool b)]
    | None => params
    end in
  let params :=
    match f_page_size filters with
    | Some (S n) => params ++ [("page_size", pretty (S n))]
    | _ => params
    end in
  if truthy (f_ordering filters)
  then params ++ [("ordering", default "" (f_ordering filters))] else params.

(** [[
    async getStockItems(page = 1, filters = {}): Promise<Paginated<StockItem>> {
      try {
        ...
        const url = `/api/v1/stocks/?${params.toString()}`
        const response = await api.get(url)
        return response.data
      } catch (error) {
        logger.error('Erro ao buscar itens em estoque:', error)
        throw error
      }
    }
    ]] *)
Definition getStockItems (srv : server) (page : nat) (filters : Filters)
  : M call error Paginated :=
  try_catch
    (let params := searchParams page filters in
     response ← perform (ApiGet "/api/v1/stocks/" params) (stocks srv params);
     mret response)
    (fun error => throw error).

End StockService.

(** ** [composables/useTransactionForm.ts] *)

Module UseTransactionForm.
Import Effect Http.
#[local] Open Scope Q_scope.

(** [[
    async function getAverageCost(sku: string): Promise<number> {
      try {
        loadingCost.value = true;
        try {
          const { data } = await api.get(`/api/v1/itens/${sku}/custo-medio/`);
          if (data && data.custoMedio !== undefined) {
            return data.custoMedio;
          }
        } catch (apiError) {
          logger.error('Erro ao buscar custo médio da API específica:', apiError);
        }
        const response = await stockCostService.getStockCosts(undefined, { sku });
        if (response.results.length > 0) {
          return response.results[0].unitCost;
        }
        return 0;
      } catch (error) {
        logger.error('Erro ao buscar custo médio:', error);
        return 0;
      } finally {
        loadingCost.value = false;
      }
    }
    ]]
    The inner [try] gives [Some custoMedio] when it returns from the
    function and [None] when control goes on after it. *)
Definition getAverageCost (srv : server) (sku : string) : M call error Q :=
  try_catch
    (returned ←
       try_catch
         (data ← perform (ApiGet ("/api/v1/itens/" +:+ sku +:+ "/custo-medio/") [])
                         (custo_medio srv sku);
          match data with
          | Some (Some custoMedio) => mret (Some custoMedio)
          | _ => mret None
          end)
         (fun apiError => mret None);
     match returned with
     | Some custoMedio => mret custoMedio
     | None =>
         response ← perform (GetStockCosts None sku) (stock_costs srv None sku);
         match response with
         | first :: _ => mret (unitCost first)
         | [] => mret 0
         end
     end)
    (fun error => mret 0).

(** [today] is the value of [getCurrentISODate()].
    [[
    async function getLastEntryCost(sku: string): Promise<number> {
      try {
        loadingCost.value = true;
        const today = getCurrentISODate();
        const lastEntryCost = await stockCostService.getStockCosts(today, { sku });
        if (lastEntryCost.results.length > 0) {
          return lastEntryCost.results[0].lastEntryCost;
        }
        return 0;
      } catch (error) {
        logger.error('Erro ao buscar último custo de entrada:', error);
        return 0;
      } finally {
        loadingCost.value = false;
      }
    }
    ]]
    The result is [None] when the row carries [null]. *)
Definition getLastEntryCost (srv : server) (today : string) (sku : string)
  : M call error (option Q) :=
  try_catch
    (response ← perform (GetStockCosts (Some today) sku)
                        (stock_costs srv (Some today) sku);
     match response with
     | first :: _ => mret (lastEntryCost first)
     | [] => mret (Some 0)
     end)
    (fun error => mret (Some 0)).

End UseTransactionForm.

(** ** What the view computes when every read is answered *)

Module Valuation.
Import Py Spec.
Import Effect Orm StockCostViewSet.
#[local] Open Scope Q_scope.

Definition always_up (db : database) : Prop := forall n, available db n = true.

Section Pure.
Variables (db : database) (stock_date : date).

Definition entradas (sku : string) : list Transacao.t :=
  List.filter (fun t => String.eqb (Transacao.cod_sku t) sku
                        && entradas__data_entrada__lte stock_date t)
              (transacoes db).

Definition saidas (sku : string) : list Transacao.t :=
  List.filter (fun t => String.eqb (Transacao.cod_sku t) sku
                        && saidas__data_saida__lte stock_date t)
              (transacoes db).

Definition valor (t : Transacao.t) : Q :=
  Transacao.valor_unit t * Transacao.quantidade t.

Definition quantidade (sku : string) : Q :=
  next sku (values_annotate_Sum
              (List.filter (entradas__data_entrada__lte stock_date) (transacoes db))) 0
  - next sku (values_annotate_Sum
                (List.filter (saidas__data_saida__lte stock_date) (transacoes db))) 0.

Definition estoque_atual (sku : string) : Q :=
  Coalesce (Sum (map Transacao.quantidade (entradas sku))) 0
  - Coalesce (Sum (map Transacao.quantidade (saidas sku))) 0.

Definition valor_estoque_atual (sku : string) : Q :=
  Coalesce (Sum (map valor (entradas sku))) 0
  - Coalesce (Sum (map valor (saidas sku))) 0.

Definition custo_medio (sku : string) : Q :=
  if negb (Qle_bool (estoque_atual sku) 0)
  then valor_estoque_atual sku / estoque_atual sku else 0.

Definition snapshot (item : Item.t) : item_data :=
  {| sku := Item.cod_sku item;
     description := Item.descricao_item item;
     quantity := estoque_atual (Item.cod_sku item);
     unity_measure := Item.unid_medida item;
     unit_cost := custo_medio (Item.cod_sku item);
     total_cost := custo_medio (Item.cod_sku item) * estoque_atual (Item.cod_sku item);
     active := Item.active item;
     last_entry_cost :=
       Transacao.valor_unit <$> first (order_by_desc_id (entradas (Item.cod_sku item))) |}.

Definition listed (has_stock : bool) (item : Item.t) : bool :=
  negb (has_stock && Qle_bool (quantidade (Item.cod_sku item)) 0).
End Pure.

Definition items_query (db : database) (query_params : gmap string string) : list Item.t :=
  let sku_filter := default "" (query_params !! "sku") in
  let description_filter := default "" (query_params !! "description") in
  let active_only := String.eqb (default "" (query_params !! "active")) "true" in
  let items_query := items db in
  let items_query :=
    if truthy sku_filter
    then List.filter (fun i => icontains (Item.cod_sku i) sku_filter) items_query
    else items_query in
  let items_query :=
    if truthy description_filter
    then List.filter (fun i => icontains (Item.descricao_item i) description_filter)
                     items_query
    else items_query in
  if active_only then List.filter Item.active items_query else items_query.

Definition has_stock (query_params : gmap string string) : bool :=
  String.eqb (default "" (query_params !! "hasStock")) "true".

Definition results (db : database) (stock_date : date)
    (query_params : gmap string string) : list item_data :=
  map (snapshot db stock_date)
      (List.filter (listed db stock_date (has_stock query_params))
                   (items_query db query_params)).

(** The cache of a query set holds nothing or the rows of its query. *)
Definition fresh_or_cached {A} (expected : A) (qs : QuerySet A) : Prop :=
  rows qs = expected
  /\ (_result_cache qs = None \/ _result_cache qs = Some expected).

(** The sum of a list of amounts. *)
Definition total (xs : list Q) : Q := foldr Qplus 0 xs.

(** The first row of [l] has the largest [id_transacao]. *)
Definition head_is_max (l : list Transacao.t) : Prop :=
  match l with
  | [] => True
  | t :: _ => forall u, In u l -> (Transacao.id_transacao u <= Transacao.id_transacao t)%Z
  end.

(** The snapshot [s] is the one of the item [item]. *)
Definition describes (s : item_data) (item : Item.t) : Prop :=
  Item.Build (sku s) (description s) (unity_measure s) (active s) = item.

(** A computation stops at the first read the database does not answer:
    that read is the last one of the trace and the computation raises
    its error. *)
Definition fail_fast {A} (db : database) (m : M query exn A) : Prop :=
  forall tr out tr',
    m tr = (out, tr') ->
    exists new,
      tr' = tr ++ new
      /\ forall i q,
          new !! i = Some q ->
          available db (List.length tr + i) = false ->
          S i = List.length new /\ out = Raised (DatabaseError q).

End Valuation.

(** ** Example data *)

Module Examples.
Import Effect Orm Http.
#[local] Open Scope Q_scope.

Definition jan (d : Z) : Py.date := Py.Date 2024 1 d.

Definition A001 : Item.t := Item.Build "A001" "Parafuso" "un" true.
Definition B002 : Item.t := Item.Build "B002" "Porca" "un" true.

(** The two scenarios of the specification. *)
Definition ledger : list Transacao.t :=
  [ Transacao.Build 1 "A001" 10 2 (Transacao.Entrada (jan 1));
    Transacao.Build 2 "A001" 5 3 (Transacao.Entrada (jan 10));
    Transacao.Build 3 "A001" 8 (233 # 100) (Transacao.Saida (jan 15));
    Transacao.Build 1 "B002" 3 5 (Transacao.Saida (jan 5)) ].

Definition up : nat -> bool := fun _ => true.

Definition db : database := Database [A001; B002] ledger up.

(** Only the item of the second scenario. *)
Definition db_B002 : database :=
  Database [B002] [Transacao.Build 1 "B002" 3 5 (Transacao.Saida (jan 5))] up.

(** A later-dated entry with a lower sequence number. *)
Definition db_late_entry : database :=
  Database [A001]
    [ Transacao.Build 1 "A001" 4 7 (Transacao.Entrada (jan 12));
      Transacao.Build 2 "A001" 6 9 (Transacao.Entrada (jan 3)) ] up.

(** The database stops answering at the fourth read of a request. *)
Definition db_down : database :=
  Database [A001; B002] ledger (fun n => negb (n =? 3)%nat).

Definition as_of (s : string) : gmap string string := {[ "stockDate" := s ]}.

Definition with_stock (s : string) : gmap string string :=
  <[ "hasStock" := "true" ]> (as_of s).

Definition no_filters : StockService.Filters :=
  StockService.MkFilters None None (Some "31/02/2024") (Some true) None None None.

Definition table_rows : list (gmap string UseTable.JsValue) :=
  [ {[ "codSku" := UseTable.JString "A001"; "descricaoItem" := UseTable.JString "Parafuso" ]};
    {[ "codSku" := UseTable.JString "B002"; "descricaoItem" := UseTable.JString "Porca" ]} ].

(** A server that rejects every request. *)
Definition unreachable : server :=
  Server (fun _ _ => Raised (RequestFailed 503))
         (fun _ _ => Raised (RequestFailed 503))
         (fun _ _ _ => Raised (RequestFailed 503)).

End Examples.

(** ** [utils/date.ts]: validation and the clock *)

Module DateValidation.
Import Js DateUtils.

(** [Number(s)] for a text of decimal digits, the only texts the
    validators convert: they test the regular expression first.  [None]
    stands for [NaN]. *)
Definition Number (s : string) : option Z := Py.int_of_digits 0 s.

(** The calendar fields of a [Date] in local time. *)
Record JsDate := MkJsDate
  { getFullYear : Z;
    getMonth : Z;
    getDate : Z }.

(** [new Date(year, monthIndex, day)] for [0 <= monthIndex <= 11] and
    [1 <= day <= 31], the range the validators let through: a day past
    the end of the month rolls over into the next month.  This is the
    constructor in a time zone whose clock skipped no day; [LocalTime]
    has it for any zone. *)
Definition new_Date (year monthIndex day : Z) : JsDate :=
  let last := Py.days_in_month year (monthIndex + 1) in
  if (day <=? last)%Z then MkJsDate year monthIndex day
  else if (monthIndex =? 11)%Z then MkJsDate (year + 1) 0 (day - last)
  else MkJsDate year (monthIndex + 1) (day - last).

(** The checks both validators run on the three numbers:
    [[
    if (day < 1 || day > 31) return false;
    if (month < 1 || month > 12) return false;
    if (year < 1900 || year > 2100) return false;
    const date = new Date(year, month - 1, day);
    return date.getDate() === day &&
           date.getMonth() === month - 1 &&
           date.getFullYear() === year;
    ]] *)
Definition checkFields (year month day : Z) : bool :=
  if ((day <? 1) || (31 <? day))%Z then false
  else if ((month <? 1) || (12 <? month))%Z then false
  else if ((year <? 1900) || (2100 <? year))%Z then false
  else
    let date := new_Date year (month - 1) day in
    ((getDate date =? day) && (getMonth date =? month - 1)
     && (getFullYear date =? year))%Z.

(** [[
    export function isValidBrazilianDate(dateStr: string): boolean {
      if (!dateStr || typeof dateStr !== 'string') return false;
      const dateRegex = /^\d{2}\/\d{2}\/\d{4}$/;
      if (!dateRegex.test(dateStr)) return false;
      try {
        const [day, month, year] = dateStr.split('/').map(Number);
        ...
      } catch { return false; }
    }
    ]]
    A comparison with [NaN] or [undefined] is false, and so is the result. *)
Definition isValidBrazilianDate (dateStr : string) : bool :=
  if String.eqb dateStr "" then false
  else if negb (regex_test brazilianRegex dateStr) then false
  else
    let parts := map Number (split "/" dateStr) in
    match parts !! 0%nat, parts !! 1%nat, parts !! 2%nat with
    | Some (Some day), Some (Some month), Some (Some year) =>
        checkFields year month day
    | _, _, _ => false
    end.

(** [[
    export function isValidISODate(dateStr: string): boolean {
      if (!dateStr || typeof dateStr !== 'string') return false;
      const dateRegex = /^\d{4}-\d{2}-\d{2}$/;
      if (!dateRegex.test(dateStr)) return false;
      try {
        const [year, month, day] = dateStr.split('-').map(Number);
        ...
      } catch { return false; }
    }
    ]] *)
Definition isValidISODate (dateStr : string) : bool :=
  if String.eqb dateStr "" then false
  else if negb (regex_test isoRegex dateStr) then false
  else
    let parts := map Number (split "-" dateStr) in
    match parts !! 0%nat, parts !! 1%nat, parts !! 2%nat with
    | Some (Some year), Some (Some month), Some (Some day) =>
        checkFields year month day
    | _, _, _ => false
    end.

(** [[
    export function safeFormatBrazilianDateToISO(brazilianDate: string): string | null {
      if (!brazilianDate || typeof brazilianDate !== 'string') return null;
      if (brazilianDate.includes('-') && isValidISODate(brazilianDate)) {
        return brazilianDate;
      }
      if (brazilianDate.includes('/') && isValidBrazilianDate(brazilianDate)) {
        return formatBrazilianDateToISO(brazilianDate);
      }
      return null;
    }
    ]] *)
Definition safeFormatBrazilianDateToISO (brazilianDate : string) : option string :=
  if String.eqb brazilianDate "" then None
  else if includes brazilianDate "-" && isValidISODate brazilianDate
  then Some brazilianDate
  else if includes brazilianDate "/" && isValidBrazilianDate brazilianDate
  then Some (formatBrazilianDateToISO brazilianDate)
  else None.

(** [[
    export function getCurrentBrazilianDate(): string {
      const today = new Date();
      const day = String(today.getDate()).padStart(2, '0');
      const month = String(today.getMonth() + 1).padStart(2, '0');
      const year = today.getFullYear();
      return `${day}/${month}/${year}`;
    }
    ]]
    [today] is the date the clock shows. *)
Definition getCurrentBrazilianDate (today : JsDate) : string :=
  let day := padStart 2 "0" (pretty (getDate today)) in
  let month := padStart 2 "0" (pretty (getMonth today + 1)%Z) in
  let year := getFullYear today in
  day +:+ "/" +:+ month +:+ "/" +:+ pretty year.

(** [[
    export function getCurrentISODate(): string {
      const now = new Date();
      const year = now.getFullYear();
      const month = String(now.getMonth() + 1).padStart(2, '0');
      const day = String(now.getDate()).padStart(2, '0');
      return `${year}-${month}-${day}`;
    }
    ]] *)
Definition getCurrentISODate (now : JsDate) : string :=
  let year := getFullYear now in
  let month := padStart 2 "0" (pretty (getMonth now + 1)%Z) in
  let day := padStart 2 "0" (pretty (getDate now)) in
  pretty year +:+ "-" +:+ month +:+ "-" +:+ day.

End DateValidation.

(** ** [components/TransactionsFilters.vue]

    The version of the component that keeps its dates in the Brazilian
    format and converts them when the search is started (the one that
    imports [getCurrentBrazilianDate] and [safeFormatBrazilianDateToISO]). *)

Module TransactionsFilters.
Import DateValidation.

(** [interface TransactionFilters]. *)
Record Filters := MkFilters
  { transactionsDateFrom : string;
    transactionsDateTo : string;
    itemSKU : string;
    itemDescription : string;
    notaFiscal : string;
    showInUSD : bool }.

(** The events the component emits. *)
Inductive event :=
| UpdateModelValue (value : Filters)
| Search.

(** [if (convertedFrom)]: the conversion gave a text that is not empty. *)
Definition converted (result : option string) : option string :=
  match result with
  | Some s => if String.eqb s "" then None else Some s
  | None => None
  end.

(** [[
    function onSearch() {
      try {
        const convertedFilters = { ...filters.value };
        if (convertedFilters.transactionsDateFrom) {
          const convertedFrom = safeFormatBrazilianDateToISO(convertedFilters.transactionsDateFrom);
          if (convertedFrom) {
            convertedFilters.transactionsDateFrom = convertedFrom;
          } else {
            console.warn('Invalid dateFrom format:', ...);
            return; // Don't proceed with invalid date
          }
        }
        if (convertedFilters.transactionsDateTo) {
          ... // the same for transactionsDateTo
        }
        emit('update:modelValue', convertedFilters);
        emit('search');
      } catch (error) { ... }
    }
    ]]
    The result is the list of the events emitted, in order. *)
Definition onSearch (filters : Filters) : list event :=
  let convertedFilters := filters in
  let from :=
    if negb (String.eqb (transactionsDateFrom convertedFilters) "") then
      converted (safeFormatBrazilianDateToISO (transactionsDateFrom convertedFilters))
    else Some (transactionsDateFrom convertedFilters) in
  match from with
  | None => []
  | Some convertedFrom =>
      let to :=
        if negb (String.eqb (transactionsDateTo convertedFilters) "") then
          converted (safeFormatBrazilianDateToISO (transactionsDateTo convertedFilters))
        else Some (transactionsDateTo convertedFilters) in
      match to with
      | None => []
      | Some convertedTo =>
          let convertedFilters :=
            MkFilters convertedFrom convertedTo
                      (itemSKU filters) (itemDescription filters)
                      (notaFiscal filters) (showInUSD filters) in
          [UpdateModelValue convertedFilters; Search]
      end
  end.

End TransactionsFilters.

(** ** [composables/useTransactionForm.ts]: the form *)

Module TransactionForm.
Import Effect Http UseTable UseTransactionForm.
#[local] Open Scope Q_scope.

(** The fields of [form]; [unitCost] is [None] when it holds [null]. *)
Record Form := MkForm
  { isEntry : JsValue;
    supplierId : option Z;
    supplierName : option string;
    codNf : string;
    sku : string;
    product : string;
    quantity : Q;
    unitCost : option Q }.

Definition set_unitCost (form : Form) (value : option Q) : Form :=
  MkForm (isEntry form) (supplierId form) (supplierName form) (codNf form)
         (sku form) (product form) (quantity form) value.

(** [[
    function ensureBooleanValue(value: any): boolean {
      if (typeof value === 'boolean') return value;
      if (typeof value === 'string') {
        const lowercaseValue = value.toLowerCase();
        return lowercaseValue === 'true' ||
               lowercaseValue === 'entrada' ||
               lowercaseValue.includes('entrada');
      }
      return Boolean(value);
    }
    ]] *)
Definition ensureBooleanValue (value : JsValue) : bool :=
  match value with
  | JBoolean b => b
  | JString s =>
      let lowercaseValue := Js.toLowerCase s in
      String.eqb lowercaseValue "true"
      || String.eqb lowercaseValue "entrada"
      || Js.includes lowercaseValue "entrada"
  | JInteger n => negb (n =? 0)%Z
  | JNull | JUndefined => false
  end.

(** [lastEntryCost > 0], false for [null]. *)
Definition positive (cost : option Q) : bool :=
  match cost with
  | Some c => negb (Qle_bool c 0)
  | None => false
  end.

(** [[
    async function updateCostForProduct() {
      if (!form.value.sku || isEditMode.value) return;
      const isEntryBoolean = ensureBooleanValue(form.value.isEntry);
      if (!isEntryBoolean) {
        form.value.unitCost = await getAverageCost(form.value.sku);
      } else {
        const lastEntryCost = await getLastEntryCost(form.value.sku);
        if (lastEntryCost > 0) {
          form.value.unitCost = lastEntryCost;
        }
      }
    }
    ]] *)
Definition updateCostForProduct (srv : server) (today : string) (isEditMode : bool)
    (form : Form) : M call error Form :=
  if String.eqb (sku form) "" || isEditMode then mret form
  else
    let isEntryBoolean := ensureBooleanValue (isEntry form) in
    if negb isEntryBoolean then
      averageCost ← getAverageCost srv (sku form);
      mret (set_unitCost form (Some averageCost))
    else
      lastEntryCost ← getLastEntryCost srv today (sku form);
      if positive lastEntryCost then mret (set_unitCost form lastEntryCost)
      else mret form.

(** [[
    async function updateUnitCostForOutput() {
      if (form.value.sku) {
        form.value.unitCost = await getAverageCost(form.value.sku);
      }
    }
    ]] *)
Definition updateUnitCostForOutput (srv : server) (form : Form) : M call error Form :=
  if negb (String.eqb (sku form) "") then
    averageCost ← getAverageCost srv (sku form);
    mret (set_unitCost form (Some averageCost))
  else mret form.

(** [[
    async function suggestLastCost() {
      if (form.value.sku) {
        form.value.unitCost = await getLastEntryCost(form.value.sku);
      }
    }
    ]] *)
Definition suggestLastCost (srv : server) (today : string) (form : Form)
  : M call error Form :=
  if negb (String.eqb (sku form) "") then
    lastEntryCost ← getLastEntryCost srv today (sku form);
    mret (set_unitCost form lastEntryCost)
  else mret form.

End TransactionForm.

(** ** [composables/useTable.ts]: sorting and the state of the table *)

Module UseTableSort.
Import UseTable.

(** [type SortDirection]. *)
Inductive SortDirection := asc | desc.

(** [interface ColumnDef<T>]; [sortable] and [sortFn] are optional. *)
Record ColumnDef := MkColumnDef
  { key : string;
    label : string;
    sortable : option bool;
    sortFn : option (gmap string JsValue -> gmap string JsValue -> SortDirection -> Z) }.

(** The refs of the composable. *)
Record State := MkState
  { sortKey : option string;
    sortOrder : SortDirection;
    filters : gmap string string }.

(** [a?.toString().toLowerCase() ?? '']. *)
Definition normalize (a : JsValue) : string :=
  match a with
  | JUndefined | JNull => ""
  | _ => Js.toLowerCase (toString a)
  end.

(** [[
    const compareValues = (a, b, order) => {
      const normalizedA = a?.toString().toLowerCase() ?? '';
      const normalizedB = b?.toString().toLowerCase() ?? '';
      if (normalizedA < normalizedB) return order === 'asc' ? -1 : 1;
      if (normalizedA > normalizedB) return order === 'asc' ? 1 : -1;
      return 0;
    };
    ]]
    [<] on strings is the order of the character codes. *)
Definition compareValues (a b : JsValue) (order : SortDirection) : Z :=
  let normalizedA := normalize a in
  let normalizedB := normalize b in
  if String.ltb normalizedA normalizedB
  then (match order with asc => -1 | desc => 1 end)%Z
  else if String.ltb normalizedB normalizedA
  then (match order with asc => 1 | desc => -1 end)%Z
  else 0%Z.

(** [Array.prototype.sort] is stable: an element goes before the first
    element of the sorted rest that it does not compare greater than. *)
Fixpoint sort_insert {A} (compare : A -> A -> Z) (x : A) (sorted : list A) : list A :=
  match sorted with
  | [] => [x]
  | y :: sorted' =>
      if (compare x y <=? 0)%Z then x :: sorted
      else y :: sort_insert compare x sorted'
  end.

Definition sort {A} (compare : A -> A -> Z) (l : list A) : list A :=
  foldr (sort_insert compare) [] l.

(** [columns.find(c => c.key === sortKey.value)]. *)
Definition find_column (columns : list ColumnDef) (k : string) : option ColumnDef :=
  List.find (fun c => String.eqb (key c) k) columns.

(** [[
    const applySort = (data: T[]): T[] => {
      if (!sortKey.value) return data;
      const column = columns.find(c => c.key === sortKey.value);
      if (!column?.sortable) return data;
      return [...data].sort((a, b) => {
        if (column.sortFn) {
          return column.sortFn(a, b, sortOrder.value);
        }
        const aValue = a[sortKey.value!] as Comparable;
        const bValue = b[sortKey.value!] as Comparable;
        return compareValues(aValue, bValue, sortOrder.value);
      });
    };
    ]]
    An empty [sortKey] is falsy like [null]. *)
Definition applySort (st : State) (columns : list ColumnDef)
    (data : list (gmap string JsValue)) : list (gmap string JsValue) :=
  match sortKey st with
  | None => data
  | Some k =>
      if String.eqb k "" then data
      else
        match find_column columns k with
        | Some column =>
            if default false (sortable column) then
              sort (fun a b =>
                      match sortFn column with
                      | Some f => f a b (sortOrder st)
                      | None => compareValues (prop a k) (prop b k) (sortOrder st)
                      end)
                   data
            else data
        | None => data
        end
  end.

(** [filteredAndSorted]: the filters, then the sort. *)
Definition filteredAndSorted (st : State) (columns : list ColumnDef)
    (rows : list (gmap string JsValue)) : list (gmap string JsValue) :=
  applySort st columns (applyFilters (filters st) rows).

(** [[
    const setSort = (key: keyof T): void => {
      if (sortKey.value === key) {
        sortOrder.value = sortOrder.value === 'asc' ? 'desc' : 'asc';
      } else {
        sortKey.value = key;
        sortOrder.value = 'asc';
      }
    };
    ]] *)
Definition setSort (k : string) (st : State) : State :=
  if bool_decide (sortKey st = Some k) then
    MkState (sortKey st)
            (match sortOrder st with asc => desc | desc => asc end)
            (filters st)
  else MkState (Some k) asc (filters st).

(** [filters.value[field] = value]. *)
Definition setFilter (field value : string) (st : State) : State :=
  MkState (sortKey st) (sortOrder st) (<[field := value]> (filters st)).

(** [filters.value = { ...initialFilters }]. *)
Definition clearFilters (initialFilters : gmap string string) (st : State) : State :=
  MkState (sortKey st) (sortOrder st) initialFilters.

Definition clearSort (st : State) : State :=
  MkState None asc (filters st).

Definition reset (initialFilters : gmap string string) (st : State) : State :=
  clearSort (clearFilters initialFilters st).

End UseTableSort.


(** ** The reads of a request of the costing engine *)

Module Reads.
Import Effect Orm StockCostViewSet.

(** The read a query set issues when it is iterated: its query while the
    cache is empty, nothing afterwards. *)
Definition pending {A} (qs : QuerySet A) : list query :=
  match _result_cache qs with
  | None => [sql qs]
  | Some _ => []
  end.

(** The three reads of the loop body for an item that is not skipped. *)
Definition item_reads (s : item_data) : list query :=
  [AggregateEntradas (sku s); AggregateSaidas (sku s); LastEntrada (sku s)].

(** The two grouped reads, issued by the first turn of the loop. *)
Definition grouped_reads (candidates : list Item.t) : list query :=
  match candidates with
  | [] => []
  | _ :: _ => [SelectEntradasBySku; SelectSaidasBySku]
  end.

(** The transaction is dated on or before [d]. *)
Definition dated_on_or_before (d : Py.date) (t : Transacao.t) : bool :=
  match Transacao.mov t with
  | Transacao.Entrada data_entrada => Py.date_le data_entrada d
  | Transacao.Saida data_saida => Py.date_le data_saida d
  end.

End Reads.


Module TableOrder.
Import UseTable UseTableSort.

(** The rows [a] and [b] may follow each other in a table sorted by the
    text of the column [k]: [b] is not before [a] in the order of [<] on
    the lower-case texts, and the other way round for [desc]. *)
Definition in_order (order : SortDirection) (k : string)
    (a b : gmap string JsValue) : Prop :=
  match order with
  | asc => String.ltb (normalize (prop b k)) (normalize (prop a k)) = false
  | desc => String.ltb (normalize (prop a k)) (normalize (prop b k)) = false
  end.

End TableOrder.


Module Clock.
Import Js DateValidation.

(** The integers from [lo] to [lo + n - 1]. *)
Definition range (lo : Z) (n : nat) : list Z :=
  map (fun i => (lo + Z.of_nat i)%Z) (seq 0 n).

Fixpoint all_digits (s : string) : bool :=
  match s with
  | EmptyString => true
  | String c s' => is_digit c && all_digits s'
  end.

(** The text [s] is [width] decimal digits that read as the number [z]. *)
Definition reads_as (width : nat) (z : Z) (s : string) : bool :=
  (String.length s =? width)%nat && all_digits s
  && bool_decide (Number s = Some z).

End Clock.

(** ** The filter form when it is created *)

Module InitialFilters.
Import DateValidation TransactionsFilters.

(** [[
    const today = getCurrentBrazilianDate();
    const filters = ref<TransactionFilters>({
        transactionsDateFrom: today, transactionsDateTo: today,
        itemSKU: '', itemDescription: '', notaFiscal: '', showInUSD: false });
    ]]
    [now] is the date the clock shows. *)
Definition initialFilters (now : JsDate) : Filters :=
  let today := getCurrentBrazilianDate now in
  MkFilters today today "" "" "" false.

End InitialFilters.


(** ** Dates as the helpers and the validators see them *)

Module DateProperties.
Import Js DateValidation.

(** The separators do not occur in [s]. *)
Definition plain (s : string) : Prop :=
  includes s "/" = false /\ includes s "-" = false.

(** A day of the calendar between 1900 and 2100. *)
Definition calendar_day (year month day : Z) : Prop :=
  (1900 <= year <= 2100 /\ 1 <= month <= 12
   /\ 1 <= day <= Py.days_in_month year month)%Z.

(** The text [DD/MM/YYYY] of eight characters. *)
Definition brazilian_text (d1 d2 m1 m2 y1 y2 y3 y4 : ascii) : string :=
  String d1 (String d2 (String "/" (String m1 (String m2 (String "/"
    (String y1 (String y2 (String y3 (String y4 ""))))))))).

(** The text [YYYY-MM-DD] of the same characters. *)
Definition iso_text (d1 d2 m1 m2 y1 y2 y3 y4 : ascii) : string :=
  String y1 (String y2 (String y3 (String y4 (String "-"
    (String m1 (String m2 (String "-" (String d1 (String d2 ""))))))))).

(** An empty date, or a valid ISO date. *)
Definition empty_or_valid (date : string) : Prop :=
  date = "" \/ isValidISODate date = true.

End DateProperties.

(** ** More example data *)

Module MoreExamples.
Import Orm Examples DateValidation UseTable UseTableSort.
#[local] Open Scope Q_scope.

(** The database of the examples with one more entry, dated 25 January. *)
Definition db_later : database :=
  Database [A001; B002]
           (ledger ++ [Transacao.Build 4 "A001" 100 1 (Transacao.Entrada (jan 25))]) up.

(** 29 February 2024 on the clock. *)
Definition leap_day : JsDate := MkJsDate 2024 1 29.

(** A table sorted by its SKU column, in descending order. *)
Definition sku_column : ColumnDef := MkColumnDef "codSku" "SKU" (Some true) None.

Definition by_sku : State := MkState (Some "codSku") desc ∅.

(** A server whose item endpoint fails and whose costs listing has one
    row, without a last entry cost. *)
Definition fallback : Http.server :=
  Http.Server (fun _ _ => Effect.Raised (Http.RequestFailed 503))
              (fun _ _ => Effect.Raised (Http.RequestFailed 404))
              (fun _ _ _ => Effect.Returned [Http.MkStockCost (5 # 2) None]).

(** The form of a new entry of the item A001, with a unit cost typed in. *)
Definition entry_form : TransactionForm.Form :=
  TransactionForm.MkForm (JBoolean true) None None "" "A001" "Parafuso" 1 (Some 7).

End MoreExamples.

(** ** Texts of ASCII characters, and letter case

    JavaScript's [toLowerCase], Python's [\d] and the [icontains] of the
    database work on Unicode text; the embedding follows them on the
    texts whose characters are ASCII.  The relations of this section
    say what "the same up to the case of the letters" means there,
    without the case folding of the code. *)

Module AsciiText.
Import UseTable.

(** The character is one of the 128 ASCII characters. *)
Definition is_ascii (c : ascii) : bool := (nat_of_ascii c <? 128)%nat.

Fixpoint ascii_text (s : string) : bool :=
  match s with
  | EmptyString => true
  | String c s' => is_ascii c && ascii_text s'
  end.

(** A capital letter [A] to [Z]. *)
Definition capital (c : ascii) : Prop := (65 <= nat_of_ascii c <= 90)%nat.

(** [small] is the small letter of the capital letter [cap]. *)
Definition small_of (cap small : ascii) : Prop :=
  capital cap /\ nat_of_ascii small = (nat_of_ascii cap + 32)%nat.

(** The same character, or the capital and the small form of one letter. *)
Definition same_letter (a b : ascii) : Prop :=
  a = b \/ small_of a b \/ small_of b a.

(** The same text up to the case of its letters. *)
Inductive same_text : string -> string -> Prop :=
| same_empty : same_text "" ""
| same_String a b s t :
    same_letter a b -> same_text s t -> same_text (String a s) (String b t).

(** [sub] occurs in [s] up to the case of the letters. *)
Definition occurs_ignoring_case (sub s : string) : Prop :=
  exists pre mid post, s = pre +:+ mid +:+ post /\ same_text mid sub.

(** The place of a character in the alphabetical order that ignores the
    case: a capital letter stands where its small letter stands. *)
Definition letter_code (c : ascii) : nat :=
  let n := nat_of_ascii c in
  if (65 <=? n)%nat && (n <=? 90)%nat then (n + 32)%nat else n.

(** [a] is not after [b] in the order of the dictionary that ignores the
    case: [a] is a prefix of [b], or the first characters that differ
    are in this order. *)
Inductive text_le : string -> string -> Prop :=
| le_empty b : text_le "" b
| le_first x y a b :
    (letter_code x < letter_code y)%nat -> text_le (String x a) (String y b)
| le_rest x y a b :
    letter_code x = letter_code y -> text_le a b -> text_le (String x a) (String y b).

(** The text a table cell is sorted by: [null] and [undefined] count as
    the empty text. *)
Definition shown (v : JsValue) : string :=
  match v with
  | JUndefined | JNull => ""
  | _ => toString v
  end.

End AsciiText.

(** ** [utils/date.ts]: the validators in the time zone of the browser

    [new Date(year, monthIndex, day)] is local time.  Where the local
    clock skipped a whole day (30 December 2011 in Apia, when Samoa
    crossed the date line), midnight of that day does not exist and the
    constructor gives the first moment after the gap, midnight of the
    next day.  A gap shorter than a day (daylight saving time that
    begins at midnight, as in Brazil until 2019) moves the time of day
    only: the year, the month and the day the validators compare are
    those asked for.  [DateValidation] is the case of a zone that
    skipped no day. *)

Module LocalTime.
Import Js DateUtils DateValidation.

(** What the calendar sees of a time zone: the days the local clock
    skipped, by year, month index (0 to 11) and day.  No zone skipped
    two days in a row. *)
Record TimeZone := MkTimeZone
  { skipped : Z -> Z -> Z -> bool }.

(** A zone whose clock skipped no day. *)
Definition continuous : TimeZone := MkTimeZone (fun _ _ _ => false).

(** [new Date(year, monthIndex, day)] in the zone [tz], for the range of
    arguments the validators let through. *)
Definition new_Date_local (tz : TimeZone) (year monthIndex day : Z) : JsDate :=
  let date := new_Date year monthIndex day in
  if skipped tz (getFullYear date) (getMonth date) (getDate date)
  then new_Date (getFullYear date) (getMonth date) (getDate date + 1)
  else date.

(** The checks of the two validators, as in [DateValidation.checkFields],
    with the constructor of the zone. *)
Definition checkFields_local (tz : TimeZone) (year month day : Z) : bool :=
  if ((day <? 1) || (31 <? day))%Z then false
  else if ((month <? 1) || (12 <? month))%Z then false
  else if ((year <? 1900) || (2100 <? year))%Z then false
  else
    let date := new_Date_local tz year (month - 1) day in
    ((getDate date =? day) && (getMonth date =? month - 1)
     && (getFullYear date =? year))%Z.

(** [isValidBrazilianDate] in the zone [tz]. *)
Definition isValidBrazilianDate_local (tz : TimeZone) (dateStr : string) : bool :=
  if String.eqb dateStr "" then false
  else if negb (regex_test brazilianRegex dateStr) then false
  else
    let parts := map Number (split "/" dateStr) in
    match parts !! 0%nat, parts !! 1%nat, parts !! 2%nat with
    | Some (Some day), Some (Some month), Some (Some year) =>
        checkFields_local tz year month day
    | _, _, _ => false
    end.

(** [isValidISODate] in the zone [tz]. *)
Definition isValidISODate_local (tz : TimeZone) (dateStr : string) : bool :=
  if String.eqb dateStr "" then false
  else if negb (regex_test isoRegex dateStr) then false
  else
    let parts := map Number (split "-" dateStr) in
    match parts !! 0%nat, parts !! 1%nat, parts !! 2%nat with
    | Some (Some year), Some (Some month), Some (Some day) =>
        checkFields_local tz year month day
    | _, _, _ => false
    end.

End LocalTime.

(** ** The order of a sorted table *)

Module SortedTable.
Import UseTable UseTableSort AsciiText.

(** The row [a] may stand before the row [b] in a table sorted by the
    column [k]. *)
Definition may_precede (order : SortDirection) (k : string)
    (a b : gmap string JsValue) : Prop :=
  match order with
  | asc => text_le (shown (prop a k)) (shown (prop b k))
  | desc => text_le (shown (prop b k)) (shown (prop a k))
  end.

End SortedTable.

(** ** The key of the transactions *)

Module Keys.
Import Orm.

(** [id_transacao] identifies a transaction among those of its item. *)
Definition keyed (db : database) : Prop :=
  forall t u,
    In t (transacoes db) -> In u (transacoes db) ->
    Transacao.cod_sku t = Transacao.cod_sku u ->
    Transacao.id_transacao t = Transacao.id_transacao u ->
    t = u.

End Keys.

(** ** Example data: row order, time zones *)

Module OrderExamples.
Import Orm Examples LocalTime.

(** The database of the examples when it returns the rows of the item
    registry in the other order. *)
Definition db_reordered : database := Database [B002; A001] ledger up.

(** Apia: the clock went from the end of 29 December 2011 to the
    beginning of 31 December. *)
Definition apia : TimeZone :=
  MkTimeZone (fun year monthIndex day =>
                ((year =? 2011) && (monthIndex =? 11) && (day =? 30))%Z).

End OrderExamples.

(** ** Facts about the string primitives *)

Module JsFacts.
Import Js Spec.

Lemma digit_not_dash c : is_digit c = true -> Ascii.eqb c "-" = false.
Proof.
  destruct c as [[] [] [] [] [] [] [] []]; vm_compute; congruence.
Qed.

Lemma digit_not_slash c : is_digit c = true -> Ascii.eqb c "/" = false.
Proof.
  destruct c as [[] [] [] [] [] [] [] []]; vm_compute; congruence.
Qed.

Lemma dash_slash : Ascii.eqb "-" "/" = false.
Proof. reflexivity. Qed.

Lemma slash_dash : Ascii.eqb "/" "-" = false.
Proof. reflexivity. Qed.

Lemma eqb_sym_false (a b : ascii) : Ascii.eqb a b = false -> Ascii.eqb b a = false.
Proof. rewrite (Ascii.eqb_sym a b). auto. Qed.

Lemma startsWith_spec s p :
  startsWith s p = true <-> exists post, s = p +:+ post.
Proof.
  revert s. induction p as [|a p IH]; intros s; simpl.
  - split; [intros _; exists s; reflexivity | reflexivity].
  - destruct s as [|b s]; simpl.
    + split; [discriminate | intros [post H]; discriminate H].
    + rewrite andb_true_iff, Ascii.eqb_eq, IH. split.
      * intros [-> [post ->]]. exists post. reflexivity.
      * intros [post H]. injection H as -> ->. eauto.
Qed.

Lemma includes_spec s sub : includes s sub = true <-> occurs_in sub s.
Proof.
  unfold occurs_in. induction s as [|c s IH].
  - simpl. rewrite orb_false_r, startsWith_spec. split.
    + intros [post H]. exists "", post. exact H.
    + intros [[|a pre] [post H]]; [eauto | discriminate H].
  - cbn [includes]. rewrite orb_true_iff, startsWith_spec, IH. split.
    + intros [[post H] | [pre [post H]]].
      * exists "", post. exact H.
      * exists (String c pre), post. rewrite H. reflexivity.
    + intros [[|a pre] [post H]].
      * left. exists post. exact H.
      * right. change (String c s = String a (pre +:+ sub +:+ post)) in H.
        injection H as -> H. eauto.
Qed.

End JsFacts.

(** ** Round trips of the date formats *)

Module DateRoundTrip.
Import Js DateUtils JsFacts.

(** Splits the hypothesis that an anchored pattern matched into one fact
    per character. *)
Ltac regex_inv H s :=
  unfold isoRegex, brazilianRegex in H;
  do 10 (destruct s as [|? s]; cbn [regex_test] in H;
         [repeat rewrite andb_false_r in H; discriminate H|]);
  destruct s; cbn [regex_test] in H;
  [|repeat rewrite andb_false_r in H; discriminate H];
  repeat match type of H with
         | (_ && _) = true => let H1 := fresh "Hc" in apply andb_prop in H as [H1 H]
         end;
  clear H.

Ltac chars :=
  repeat match goal with
         | H : is_digit ?c = true |- _ =>
             pose proof (digit_not_dash c H);
             pose proof (digit_not_slash c H);
             pose proof (eqb_sym_false _ _ (digit_not_dash c H));
             pose proof (eqb_sym_false _ _ (digit_not_slash c H));
             clear H
         | H : Ascii.eqb ?a ?c = true |- _ =>
             apply Ascii.eqb_eq in H; subst c
         end.

(** Evaluates the string primitives on a date whose digits are unknown. *)
Ltac crunch :=
  repeat progress
    (try unfold padStart; try unfold String.append; cbn -[Ascii.eqb];
     repeat match goal with H : Ascii.eqb _ _ = false |- _ => rewrite H end;
     rewrite ?Ascii.eqb_refl, ?dash_slash, ?slash_dash).

(** C10: converting an ISO date of the form YYYY-MM-DD to the Brazilian
    format and back gives the date again, and so does converting a
    Brazilian date of the form DD/MM/YYYY to ISO and back. *)
Theorem date_format_round_trip :
  (forall s, regex_test isoRegex s = true ->
             formatBrazilianDateToISO (formatDateToBrazilian s) = s)
  /\ (forall s, regex_test brazilianRegex s = true ->
                formatDateToBrazilian (formatBrazilianDateToISO s) = s).
Proof.
  split; intros s H; regex_inv H s; chars.
  - unfold formatDateToBrazilian. crunch.
    unfold formatBrazilianDateToISO. crunch. reflexivity.
  - unfold formatBrazilianDateToISO. crunch.
    unfold formatDateToBrazilian. crunch. reflexivity.
Qed.

Lemma date_format_round_trip_witness :
  formatBrazilianDateToISO (formatDateToBrazilian "2024-02-29") = "2024-02-29"
  /\ formatDateToBrazilian (formatBrazilianDateToISO "29/02/2024") = "29/02/2024".
Proof.
  split.
  - apply (proj1 date_format_round_trip). reflexivity.
  - apply (proj2 date_format_round_trip). reflexivity.
Defined.

End DateRoundTrip.

(** ** Facts about the queries *)

Module OrmFacts.
Import Py Spec Valuation.
Import Effect Orm StockCostViewSet.
#[local] Open Scope Q_scope.

Lemma date_le_spec a b : date_le a b = true <-> on_or_before a b.
Proof.
  unfold date_le, on_or_before, before. destruct a as [ya ma da], b as [yb mb db]. simpl.
  rewrite !orb_true_iff, !andb_true_iff, !orb_true_iff, !andb_true_iff.
  rewrite !Z.ltb_lt, !Z.eqb_eq, Z.leb_le.
  split.
  - intros [H | [-> [H | [-> H]]]]; try (right; lia).
    destruct (decide (da = db)) as [-> | Hne]; [left; reflexivity | right; lia].
  - intros [H | H]; [injection H as -> -> ->; right; split; [reflexivity|]; right; split; [reflexivity | lia] | lia].
Qed.

Lemma fold_left_Qplus xs x : fold_left Qplus xs x == x + total xs.
Proof.
  revert x. induction xs as [|y xs IH]; intros x; simpl.
  - ring.
  - rewrite IH. ring.
Qed.

Lemma Coalesce_Sum xs : Coalesce (Sum xs) 0 == total xs.
Proof.
  destruct xs as [|x xs]; simpl; [reflexivity|].
  rewrite fold_left_Qplus. reflexivity.
Qed.

Lemma sigma_filter (P : Transacao.t -> Prop) `{!forall t, Decision (P t)}
    (p : Transacao.t -> bool) f ledger :
  (forall t, p t = true <-> P t) ->
  total (map f (List.filter p ledger)) == sigma P f ledger.
Proof.
  intros Hp. induction ledger as [|t l IH]; simpl; [reflexivity|].
  destruct (decide (P t)) as [Ht | Ht].
  - rewrite (proj2 (Hp t) Ht). simpl. rewrite IH. reflexivity.
  - destruct (p t) eqn:E; [apply Hp in E; contradiction | exact IH].
Qed.

Lemma next_add_to_group sku k q groups :
  next sku (add_to_group k q groups) 0
  == (if String.eqb k sku then q else 0) + next sku groups 0.
Proof.
  induction groups as [|[s t] g IH]; simpl.
  - destruct (String.eqb k sku); ring.
  - destruct (String.eqb_spec s k) as [-> | Hsk]; simpl.
    + destruct (String.eqb k sku); ring.
    + destruct (String.eqb_spec s sku) as [-> | Hs].
      * destruct (String.eqb_spec k sku) as [-> | Hk]; [contradiction | ring].
      * exact IH.
Qed.

Lemma next_values_annotate_Sum sku rows :
  next sku (values_annotate_Sum rows) 0
  == total (map Transacao.quantidade
                (List.filter (fun t => String.eqb (Transacao.cod_sku t) sku) rows)).
Proof.
  induction rows as [|t rows IH]; simpl; [reflexivity|].
  rewrite next_add_to_group, IH.
  destruct (String.eqb (Transacao.cod_sku t) sku); simpl; ring.
Qed.
End OrmFacts.

(** ** The view when every read is answered *)

Module ValuationRun.
Import Py Spec Valuation.
Import Effect Orm StockCostViewSet.
#[local] Open Scope Q_scope.

Lemma execute_up {A} db q (v : A) tr :
  always_up db -> execute db q v tr = (Returned v, tr ++ [q]).
Proof. intros Hup. unfold execute, perform. rewrite Hup. reflexivity. Qed.

Lemma iterate_up {A} db (expected : A) qs tr :
  always_up db -> fresh_or_cached expected qs ->
  exists tr' qs',
    iterate db qs tr = (Returned (expected, qs'), tr')
    /\ fresh_or_cached expected qs'.
Proof.
  intros Hup [Hrows [Hc | Hc]]; unfold iterate; rewrite Hc.
  - unfold mbind, M_bind. rewrite execute_up by assumption.
    rewrite Hrows. eexists _, _. split; [reflexivity|].
    split; [reflexivity | right; reflexivity].
  - eexists _, qs. split; [reflexivity|]. split; [assumption | right; assumption].
Qed.

Lemma loop_body_up db d hs qe qs acc item tr :
  always_up db ->
  fresh_or_cached
    (values_annotate_Sum (List.filter (entradas__data_entrada__lte d) (transacoes db))) qe ->
  fresh_or_cached
    (values_annotate_Sum (List.filter (saidas__data_saida__lte d) (transacoes db))) qs ->
  exists tr' qe' qs',
    loop_body db d hs (Locals qe qs acc) item tr
    = (Returned (Locals qe' qs'
                   (acc ++ (if listed db d hs item then [snapshot db d item] else []))),
       tr')
    /\ fresh_or_cached
         (values_annotate_Sum (List.filter (entradas__data_entrada__lte d) (transacoes db))) qe'
    /\ fresh_or_cached
         (values_annotate_Sum (List.filter (saidas__data_saida__lte d) (transacoes db))) qs'.
Proof.
  intros Hup He Hs. unfold loop_body. cbn [entradas_transacoes saidas_transacoes result].
  destruct (iterate_up db _ qe tr Hup He) as (tr1 & qe' & E1 & He').
  unfold mbind at 1, M_bind at 1. rewrite E1.
  destruct (iterate_up db _ qs tr1 Hup Hs) as (tr2 & qs' & E2 & Hs').
  unfold mbind at 1, M_bind at 1. rewrite E2.
  unfold listed, quantidade.
  destruct (hs && Qle_bool _ 0) eqn:Ekeep.
  - simpl. rewrite app_nil_r. eexists _, _, _. split; [reflexivity | split; assumption].
  - simpl negb. cbv iota.
    unfold mbind, M_bind. rewrite !execute_up by assumption.
    eexists _, _, _. split; [reflexivity | split; assumption].
Qed.

Lemma for_each_up db d hs items qe qs acc tr :
  always_up db ->
  fresh_or_cached
    (values_annotate_Sum (List.filter (entradas__data_entrada__lte d) (transacoes db))) qe ->
  fresh_or_cached
    (values_annotate_Sum (List.filter (saidas__data_saida__lte d) (transacoes db))) qs ->
  exists tr' qe' qs',
    for_each items (loop_body db d hs) (Locals qe qs acc) tr
    = (Returned (Locals qe' qs'
                   (acc ++ map (snapshot db d) (List.filter (listed db d hs) items))),
       tr').
Proof.
  intros Hup. revert qe qs acc tr.
  induction items as [|item items IH]; intros qe qs acc tr He Hs.
  - simpl. rewrite app_nil_r. eexists _, _, _. reflexivity.
  - cbn [for_each]. unfold mbind, M_bind.
    destruct (loop_body_up db d hs qe qs acc item tr Hup He Hs)
      as (tr1 & qe' & qs' & E & He' & Hs').
    rewrite E.
    edestruct (IH qe' qs') as (tr2 & qe2 & qs2 & E2); [exact He' | exact Hs' |].
    rewrite E2. eexists _, _, _. f_equal. f_equal. f_equal.
    simpl. destruct (listed db d hs item); simpl; rewrite <- app_assoc; reflexivity.
Qed.

Lemma asOfDate_inv now query_params d :
  asOfDate now query_params = Some d ->
  match query_params !! "stockDate" with
  | Some stock_date =>
      if truthy stock_date then
        match strptime_Ymd stock_date with
        | Some d => inr d
        | None => inl (Response400 invalid_date)
        end
      else inr now
  | None => inr now
  end = inr d.
Proof.
  unfold asOfDate, truthy. destruct (query_params !! "stockDate") as [s|]; [|congruence].
  destruct (decide (s = "")) as [-> | Hne].
  - simpl. congruence.
  - destruct (String.eqb_spec s ""); [contradiction|]. simpl.
    intros ->. reflexivity.
Qed.

(** When every read is answered, the view returns the snapshots of the
    listed candidates, in the order of the registry. *)
Lemma list_up db now query_params d :
  always_up db ->
  asOfDate now query_params = Some d ->
  exists tr,
    run (list_ db now query_params)
    = (Returned (Response200 (List.length (results db d query_params))
                             (results db d query_params)), tr).
Proof.
  intros Hup Hd. unfold run, list_. rewrite (asOfDate_inv _ _ _ Hd).
  unfold mbind at 1, M_bind at 1. rewrite execute_up by assumption.
  fold (items_query db query_params). fold (has_stock query_params).
  unfold mbind, M_bind.
  edestruct (for_each_up db d (has_stock query_params) (items_query db query_params))
    as (tr' & qe' & qs' & E); [exact Hup | | | rewrite E].
  - split; [reflexivity | left; reflexivity].
  - split; [reflexivity | left; reflexivity].
  - eexists. reflexivity.
Qed.
End ValuationRun.

(** ** The view and the valuation of the specification *)

Module ValuationFacts.
Import Py Spec OrmFacts Valuation ValuationRun.
Import Effect Orm StockCostViewSet.
#[local] Open Scope Q_scope.

Lemma entrada_qualifies sku d t :
  String.eqb (Transacao.cod_sku t) sku && entradas__data_entrada__lte d t = true
  <-> qualifying_entry sku d t.
Proof.
  unfold qualifying_entry, entradas__data_entrada__lte.
  rewrite andb_true_iff, String.eqb_eq.
  destruct (Transacao.mov t); [rewrite date_le_spec; reflexivity|].
  split; [intros [_ H]; discriminate H | intros [_ []]].
Qed.

Lemma saida_qualifies sku d t :
  String.eqb (Transacao.cod_sku t) sku && saidas__data_saida__lte d t = true
  <-> qualifying_exit sku d t.
Proof.
  unfold qualifying_exit, saidas__data_saida__lte.
  rewrite andb_true_iff, String.eqb_eq.
  destruct (Transacao.mov t); [|rewrite date_le_spec; reflexivity].
  split; [intros [_ H]; discriminate H | intros [_ []]].
Qed.

Lemma filter_twice {A} (p q : A -> bool) l :
  List.filter p (List.filter q l) = List.filter (fun x => p x && q x) l.
Proof.
  induction l as [|x l IH]; simpl; [reflexivity|].
  destruct (q x); simpl; [destruct (p x); simpl; congruence|].
  rewrite andb_false_r. exact IH.
Qed.

Lemma In_entradas db d sku t :
  In t (entradas db d sku) <-> In t (transacoes db) /\ qualifying_entry sku d t.
Proof. unfold entradas. rewrite filter_In, entrada_qualifies. reflexivity. Qed.

Lemma estoque_atual_spec db d sku :
  estoque_atual db d sku == currentQty (transacoes db) sku d.
Proof.
  unfold estoque_atual, currentQty, entryQty, exitQty, entradas, saidas.
  rewrite !Coalesce_Sum.
  rewrite (sigma_filter (qualifying_entry sku d)) by apply entrada_qualifies.
  rewrite (sigma_filter (qualifying_exit sku d)) by apply saida_qualifies.
  reflexivity.
Qed.

Lemma total_map_ext {A} (f g : A -> Q) l :
  (forall x, f x == g x) -> total (map f l) == total (map g l).
Proof.
  intros H. induction l as [|x l IH]; simpl; [reflexivity|].
  rewrite H, IH. reflexivity.
Qed.

Lemma valor_estoque_atual_spec db d sku :
  valor_estoque_atual db d sku == netValue (transacoes db) sku d.
Proof.
  unfold valor_estoque_atual, netValue, entryValue, exitValue, entradas, saidas.
  rewrite !Coalesce_Sum.
  rewrite (total_map_ext valor value), (total_map_ext valor value)
    by (intros x; unfold valor, value; ring).
  rewrite (sigma_filter (qualifying_entry sku d)) by apply entrada_qualifies.
  rewrite (sigma_filter (qualifying_exit sku d)) by apply saida_qualifies.
  reflexivity.
Qed.

Lemma quantidade_estoque_atual db d sku :
  quantidade db d sku == estoque_atual db d sku.
Proof.
  unfold quantidade, estoque_atual, entradas, saidas.
  rewrite !next_values_annotate_Sum, !filter_twice, !Coalesce_Sum. reflexivity.
Qed.

Lemma listed_spec db d hs item :
  listed db d hs item = true
  <-> (hs = true -> 0 < currentQty (transacoes db) (Item.cod_sku item) d).
Proof.
  unfold listed. rewrite negb_true_iff, andb_false_iff.
  rewrite <- estoque_atual_spec, <- quantidade_estoque_atual.
  split.
  - intros [H | H] Hhs; [congruence|].
    apply Qnot_le_lt. intros Hle. apply Qle_bool_iff in Hle. congruence.
  - intros H. destruct hs; [right | left; reflexivity].
    destruct (Qle_bool _ 0) eqn:E; [|reflexivity].
    apply Qle_bool_iff in E. specialize (H eq_refl).
    exfalso. eapply Qlt_not_le; eassumption.
Qed.

Lemma custo_medio_positive db d sku :
  0 < currentQty (transacoes db) sku d ->
  custo_medio db d sku
  == netValue (transacoes db) sku d / currentQty (transacoes db) sku d.
Proof.
  intros Hpos. unfold custo_medio.
  destruct (Qle_bool (estoque_atual db d sku) 0) eqn:E.
  - apply Qle_bool_iff in E. rewrite estoque_atual_spec in E.
    exfalso. eapply Qlt_not_le; eassumption.
  - simpl. rewrite valor_estoque_atual_spec, estoque_atual_spec. reflexivity.
Qed.

Lemma custo_medio_not_positive db d sku :
  currentQty (transacoes db) sku d <= 0 -> custo_medio db d sku = 0.
Proof.
  intros Hle. unfold custo_medio.
  rewrite <- estoque_atual_spec in Hle. apply Qle_bool_iff in Hle.
  rewrite Hle. reflexivity.
Qed.

(** The sorted rows are the rows, and their head has the largest id. *)
Lemma In_insert_desc t u l : In u (insert_desc t l) <-> u = t \/ In u l.
Proof.
  induction l as [|v l IH]; simpl; [intuition|].
  destruct (Transacao.id_transacao v <=? Transacao.id_transacao t)%Z; simpl.
  - intuition.
  - rewrite IH. intuition.
Qed.

Lemma In_order_by_desc_id u l : In u (order_by_desc_id l) <-> In u l.
Proof.
  induction l as [|t l IH]; simpl; [reflexivity|].
  rewrite In_insert_desc, IH. intuition.
Qed.

Lemma insert_desc_head_is_max t l : head_is_max l -> head_is_max (insert_desc t l).
Proof.
  destruct l as [|v l]; simpl.
  - intros _ u [-> | []]. lia.
  - intros Hmax. destruct (Z.leb_spec (Transacao.id_transacao v) (Transacao.id_transacao t)).
    + intros u [-> | Hu]; [lia|]. specialize (Hmax u Hu). lia.
    + intros u [-> | Hu]; [lia|].
      apply In_insert_desc in Hu as [-> | Hu]; [lia|].
      apply Hmax. right. exact Hu.
Qed.

Lemma order_by_desc_id_head_is_max l : head_is_max (order_by_desc_id l).
Proof.
  induction l as [|t l IH]; simpl; [exact I|].
  apply insert_desc_head_is_max, IH.
Qed.

Lemma first_order_by_desc_id l :
  match first (order_by_desc_id l) with
  | None => l = []
  | Some t =>
      In t l /\ forall u, In u l -> (Transacao.id_transacao u <= Transacao.id_transacao t)%Z
  end.
Proof.
  pose proof (order_by_desc_id_head_is_max l) as Hmax.
  pose proof (fun u => In_order_by_desc_id u l) as Hin.
  unfold first. destruct (order_by_desc_id l) as [|t s]; simpl in *.
  - destruct l as [|u l]; [reflexivity|]. destruct (proj2 (Hin u)). left. reflexivity.
  - split; [apply Hin; left; reflexivity|].
    intros u Hu. apply Hmax, Hin, Hu.
Qed.

Lemma icontains_spec field value : icontains field value = true <-> contains field value.
Proof. unfold icontains, contains. apply JsFacts.includes_spec. Qed.

Lemma contains_empty field : contains field "".
Proof. exists "", (Js.toLowerCase field). reflexivity. Qed.

Lemma eqb_true_flag query_params key :
  String.eqb (default "" (query_params !! key)) "true" = flag query_params key.
Proof.
  unfold flag. case_bool_decide as H.
  - rewrite H. reflexivity.
  - destruct (query_params !! key) as [s|]; simpl; [|reflexivity].
    destruct (String.eqb_spec s "true") as [-> | Hne]; [contradiction | reflexivity].
Qed.

Lemma In_items_query db query_params item :
  In item (items_query db query_params)
  <-> In item (items db) /\ candidate query_params item.
Proof.
  unfold items_query, candidate, text_filter. rewrite eqb_true_flag.
  set (s := default "" (query_params !! "sku")).
  set (e := default "" (query_params !! "description")).
  assert (Hs : forall l,
             In item (if truthy s then List.filter (fun i => icontains (Item.cod_sku i) s) l else l)
             <-> In item l /\ contains (Item.cod_sku item) s).
  { intros l. unfold truthy. destruct (String.eqb_spec s "") as [-> | _]; simpl.
    - pose proof (contains_empty (Item.cod_sku item)). intuition.
    - rewrite filter_In, icontains_spec. reflexivity. }
  assert (He : forall l,
             In item (if truthy e then List.filter (fun i => icontains (Item.descricao_item i) e) l else l)
             <-> In item l /\ contains (Item.descricao_item item) e).
  { intros l. unfold truthy. destruct (String.eqb_spec e "") as [-> | _]; simpl.
    - pose proof (contains_empty (Item.descricao_item item)). intuition.
    - rewrite filter_In, icontains_spec. reflexivity. }
  destruct (flag query_params "active").
  - rewrite filter_In, He, Hs. intuition.
  - rewrite He, Hs. intuition congruence.
Qed.

Lemma In_results db d query_params s :
  In s (results db d query_params)
  <-> exists item,
      s = snapshot db d item
      /\ In item (items db) /\ candidate query_params item
      /\ (flag query_params "hasStock" = true
          -> 0 < currentQty (transacoes db) (Item.cod_sku item) d).
Proof.
  unfold results. rewrite in_map_iff. unfold has_stock. rewrite eqb_true_flag.
  split.
  - intros (item & <- & Hin). apply filter_In in Hin as [Hin Hl].
    apply In_items_query in Hin as [Hin Hc].
    pose proof (proj1 (listed_spec _ _ _ _) Hl) as Hq.
    exists item. auto.
  - intros (item & -> & Hin & Hc & Hl). exists item. split; [reflexivity|].
    apply filter_In. split; [apply In_items_query; auto | apply listed_spec; exact Hl].
Qed.
End ValuationFacts.

(** ** Letter case *)

Module CaseFacts.
Import Js Spec AsciiText JsFacts.

Lemma nat_of_lower_char c : nat_of_ascii (lower_char c) = letter_code c.
Proof.
  unfold lower_char, letter_code, is_upper. cbv zeta.
  destruct ((65 <=? nat_of_ascii c)%nat && (nat_of_ascii c <=? 90)%nat) eqn:E;
    [|reflexivity].
  apply andb_prop in E as [_ E]. apply Nat.leb_le in E.
  apply nat_ascii_embedding. lia.
Qed.

Lemma lower_char_letter_code a b :
  lower_char a = lower_char b <-> letter_code a = letter_code b.
Proof.
  rewrite <- !nat_of_lower_char. split; [intros ->; reflexivity|].
  intros H. rewrite <- (ascii_nat_embedding (lower_char a)), H.
  apply ascii_nat_embedding.
Qed.

Lemma letter_code_same_letter a b :
  letter_code a = letter_code b <-> same_letter a b.
Proof.
  unfold same_letter, small_of, capital, letter_code. cbv zeta.
  assert (Hinj : nat_of_ascii a = nat_of_ascii b -> a = b).
  { intros H. rewrite <- (ascii_nat_embedding a), H. apply ascii_nat_embedding. }
  split.
  - intros H.
    destruct (Nat.leb_spec 65 (nat_of_ascii a)), (Nat.leb_spec (nat_of_ascii a) 90),
      (Nat.leb_spec 65 (nat_of_ascii b)), (Nat.leb_spec (nat_of_ascii b) 90);
      cbn [andb] in H;
      first [left; apply Hinj; lia | right; left; lia | right; right; lia].
  - intros [-> | [[Hc H] | [Hc H]]]; [reflexivity | |].
    + rewrite H.
      destruct (Nat.leb_spec 65 (nat_of_ascii a)), (Nat.leb_spec (nat_of_ascii a) 90);
        try lia.
      destruct (Nat.leb_spec 65 (nat_of_ascii a + 32)),
        (Nat.leb_spec (nat_of_ascii a + 32) 90); cbn [andb]; lia.
    + rewrite H.
      destruct (Nat.leb_spec 65 (nat_of_ascii b)), (Nat.leb_spec (nat_of_ascii b) 90);
        try lia.
      destruct (Nat.leb_spec 65 (nat_of_ascii b + 32)),
        (Nat.leb_spec (nat_of_ascii b + 32) 90); cbn [andb]; lia.
Qed.

Lemma lower_char_same_letter a b : lower_char a = lower_char b <-> same_letter a b.
Proof. rewrite lower_char_letter_code. apply letter_code_same_letter. Qed.

Lemma toLowerCase_same_text s t : toLowerCase s = toLowerCase t <-> same_text s t.
Proof.
  split.
  - revert t. induction s as [|a s IH]; intros [|b t] H; try discriminate H.
    + constructor.
    + cbn [toLowerCase] in H. injection H as Hc Hs.
      constructor; [apply lower_char_same_letter, Hc | apply IH, Hs].
  - induction 1 as [|a b s t Hc _ IH]; [reflexivity|].
    cbn [toLowerCase]. rewrite IH, (proj2 (lower_char_same_letter a b) Hc). reflexivity.
Qed.

Lemma toLowerCase_app a b : toLowerCase (a +:+ b) = toLowerCase a +:+ toLowerCase b.
Proof.
  induction a as [|c a IH]; [reflexivity|].
  change (String c a +:+ b) with (String c (a +:+ b)).
  cbn [toLowerCase]. rewrite IH. reflexivity.
Qed.

Lemma toLowerCase_app_inv s a b :
  toLowerCase s = a +:+ b ->
  exists s1 s2, s = s1 +:+ s2 /\ toLowerCase s1 = a /\ toLowerCase s2 = b.
Proof.
  revert s. induction a as [|c a IH]; intros s H.
  - exists "", s. auto.
  - destruct s as [|x s]; [discriminate H|].
    change (String c a +:+ b) with (String c (a +:+ b)) in H.
    cbn [toLowerCase] in H. injection H as Hc Hs.
    destruct (IH s Hs) as (s1 & s2 & -> & H1 & H2).
    exists (String x s1), s2. split; [reflexivity|]. split; [|exact H2].
    cbn [toLowerCase]. rewrite Hc, H1. reflexivity.
Qed.

(** What the code tests with [toLowerCase] and [includes] is the
    occurrence up to the case of the letters. *)
Lemma includes_toLowerCase s sub :
  includes (toLowerCase s) (toLowerCase sub) = true <-> occurs_ignoring_case sub s.
Proof.
  rewrite includes_spec. unfold occurs_in, occurs_ignoring_case. split.
  - intros (pre & post & H).
    apply toLowerCase_app_inv in H as (s1 & s23 & -> & <- & H).
    apply toLowerCase_app_inv in H as (s2 & s3 & -> & H & <-).
    exists s1, s2, s3. split; [reflexivity|]. apply toLowerCase_same_text, H.
  - intros (pre & mid & post & -> & H).
    exists (toLowerCase pre), (toLowerCase post).
    rewrite !toLowerCase_app, (proj2 (toLowerCase_same_text _ _) H). reflexivity.
Qed.

End CaseFacts.

(** ** The claims of the specification *)

Module Claims.
Import Py Spec Effect Orm StockCostViewSet Valuation ValuationRun ValuationFacts Examples.
Import AsciiText CaseFacts.
#[local] Open Scope Q_scope.


(** *** Shared steps *)

Lemma describes_snapshot db d item : describes (snapshot db d item) item.
Proof. destruct item. reflexivity. Qed.

Lemma describes_sku s item : describes s item -> sku s = Item.cod_sku item.
Proof. intros <-. reflexivity. Qed.

Lemma describes_snapshot_inv db d item item' :
  describes (snapshot db d item') item -> item' = item.
Proof. intros <-. destruct item'. reflexivity. Qed.

(** The listed candidates are the items of the registry that match the
    filters and, under [hasStock], have a positive quantity. *)
Lemma listed_candidates db d query_params item :
  In item (items db) ->
  (exists s, In s (results db d query_params) /\ describes s item)
  <-> candidate query_params item
      /\ (flag query_params "hasStock" = true
          -> 0 < currentQty (transacoes db) (Item.cod_sku item) d).
Proof.
  intros Hin. split.
  - intros (s & Hs & Hdesc). apply In_results in Hs as (item' & -> & _ & Hc & Hq).
    apply describes_snapshot_inv in Hdesc as ->. auto.
  - intros [Hc Hq]. exists (snapshot db d item). split.
    + apply In_results. exists item. auto.
    + apply describes_snapshot.
Qed.

(** The reference date the view works with. *)
Lemma stock_date_asOfDate now query_params :
  match query_params !! "stockDate" with
  | Some stock_date =>
      if truthy stock_date then
        match strptime_Ymd stock_date with
        | Some d => inr d
        | None => inl (Response400 invalid_date)
        end
      else inr now
  | None => inr now
  end
  = match asOfDate now query_params with
    | Some d => inr d
    | None => inl (Response400 invalid_date)
    end.
Proof.
  unfold asOfDate, truthy. destruct (query_params !! "stockDate") as [s|]; [|reflexivity].
  destruct (decide (s = "")) as [-> | Hne]; [reflexivity|].
  destruct (String.eqb_spec s ""); [contradiction | reflexivity].
Qed.

(** *** C1 *)

Lemma average_cost_negative_quantity :
  let s := ItemData "B002" "Porca" (-3) "un" 0 0 true None in
  run (list_ db_B002 (jan 20) (as_of "2024-01-20"))
  = (Returned (Response200 1 [s]),
     [SelectItems; SelectEntradasBySku; SelectSaidasBySku;
      AggregateEntradas "B002"; AggregateSaidas "B002"; LastEntrada "B002"])
  /\ quantity s == currentQty (transacoes db_B002) (sku s) (jan 20)
  /\ ~ quantity s == 0
  /\ ~ unit_cost s == netValue (transacoes db_B002) (sku s) (jan 20) / quantity s.
Proof.
  split; [vm_compute; reflexivity|].
  split; [vm_compute; reflexivity|].
  split; vm_compute; discriminate.
Qed.

(** C1 (amended): in every snapshot the quantity is the current quantity
    of the item; the average cost is 0 when that quantity is zero or
    negative, whatever the net value, and the net value divided by the
    quantity when the quantity is positive. *)
Theorem average_cost_guard db now query_params d :
  always_up db ->
  asOfDate now query_params = Some d ->
  exists count results tr,
    run (list_ db now query_params) = (Returned (Response200 count results), tr)
    /\ forall s, In s results ->
         let q := currentQty (transacoes db) (sku s) d in
         quantity s == q
         /\ (q <= 0 -> unit_cost s == 0)
         /\ (0 < q -> unit_cost s == netValue (transacoes db) (sku s) d / q).
Proof.
  intros Hup Hd. destruct (list_up db now query_params d Hup Hd) as [tr E].
  eexists _, _, _. split; [exact E|].
  intros s Hs. apply In_results in Hs as (item & -> & _).
  cbn [sku quantity unit_cost snapshot]. split; [apply estoque_atual_spec|]. split.
  - intros Hle. rewrite custo_medio_not_positive by exact Hle. reflexivity.
  - apply custo_medio_positive.
Qed.

Lemma average_cost_guard_witness :
  exists count results tr,
    run (list_ db (jan 20) (as_of "2024-01-20")) = (Returned (Response200 count results), tr)
    /\ forall s, In s results ->
         let q := currentQty (transacoes db) (sku s) (jan 20) in
         quantity s == q
         /\ (q <= 0 -> unit_cost s == 0)
         /\ (0 < q -> unit_cost s == netValue (transacoes db) (sku s) (jan 20) / q).
Proof.
  apply (average_cost_guard db (jan 20) (as_of "2024-01-20") (jan 20)).
  - intros n. reflexivity.
  - reflexivity.
Defined.

(** The first scenario of the specification: quantity 7, net value 16.36
    and average cost 16.36 / 7 for the item A001 as of 20 January. *)
Example average_cost_A001 :
  match fst (run (list_ db (jan 20) (as_of "2024-01-20"))) with
  | Returned (Response200 _ (s :: _)) =>
      quantity s == 7 /\ unit_cost s == (1636 # 100) / 7
      /\ total_cost s == 1636 # 100 /\ last_entry_cost s = Some 3
  | _ => False
  end.
Proof. vm_compute. repeat split. Qed.

(** *** C2 *)

(** C2: in every snapshot the quantity is the sum of the quantities of
    the Entry transactions of the item dated on or before the reference
    date minus the sum of those of its Exit transactions; every candidate
    has its snapshot when [hasStock] is not set; and a transaction dated
    exactly the reference date is counted. *)
Theorem current_quantity_formula db now query_params d :
  always_up db ->
  asOfDate now query_params = Some d ->
  exists count results tr,
    run (list_ db now query_params) = (Returned (Response200 count results), tr)
    /\ (forall s, In s results ->
          quantity s
          == entryQty (transacoes db) (sku s) d - exitQty (transacoes db) (sku s) d)
    /\ (forall item,
          In item (items db) -> candidate query_params item ->
          flag query_params "hasStock" = false ->
          exists s, In s results /\ describes s item)
    /\ (forall s t ledger,
          In s results -> transacoes db = t :: ledger ->
          Transacao.cod_sku t = sku s ->
          (Transacao.mov t = Transacao.Entrada d ->
           quantity s == currentQty ledger (sku s) d + Transacao.quantidade t)
          /\ (Transacao.mov t = Transacao.Saida d ->
              quantity s == currentQty ledger (sku s) d - Transacao.quantidade t)).
Proof.
  intros Hup Hd. destruct (list_up db now query_params d Hup Hd) as [tr E].
  eexists _, _, _. split; [exact E|].
  assert (Hq : forall s, In s (results db d query_params) ->
                 quantity s == currentQty (transacoes db) (sku s) d).
  { intros s Hs. apply In_results in Hs as (item & -> & _). apply estoque_atual_spec. }
  split; [exact Hq|]. split.
  - intros item Hin Hc Hflag. apply listed_candidates; [exact Hin|].
    split; [exact Hc | congruence].
  - intros s t ledger Hs Hl Hsku. rewrite (Hq s Hs), Hl.
    unfold currentQty, entryQty, exitQty. cbn [sigma].
    split; intros Hmov.
    + rewrite (decide_True (P := qualifying_entry _ _ _)), (decide_False (P := qualifying_exit _ _ _)).
      * ring.
      * unfold qualifying_exit. rewrite Hmov. tauto.
      * unfold qualifying_entry. rewrite Hmov. split; [exact Hsku | left; reflexivity].
    + rewrite (decide_False (P := qualifying_entry _ _ _)), (decide_True (P := qualifying_exit _ _ _)).
      * ring.
      * unfold qualifying_exit. rewrite Hmov. split; [exact Hsku | left; reflexivity].
      * unfold qualifying_entry. rewrite Hmov. tauto.
Qed.

Lemma current_quantity_formula_witness :
  exists count results tr,
    run (list_ db (jan 15) (as_of "2024-01-15")) = (Returned (Response200 count results), tr)
    /\ (forall s, In s results ->
          quantity s
          == entryQty (transacoes db) (sku s) (jan 15)
             - exitQty (transacoes db) (sku s) (jan 15))
    /\ (forall item,
          In item (items db) -> candidate (as_of "2024-01-15") item ->
          flag (as_of "2024-01-15") "hasStock" = false ->
          exists s, In s results /\ describes s item)
    /\ (forall s t ledger,
          In s results -> transacoes db = t :: ledger ->
          Transacao.cod_sku t = sku s ->
          (Transacao.mov t = Transacao.Entrada (jan 15) ->
           quantity s == currentQty ledger (sku s) (jan 15) + Transacao.quantidade t)
          /\ (Transacao.mov t = Transacao.Saida (jan 15) ->
              quantity s == currentQty ledger (sku s) (jan 15) - Transacao.quantidade t)).
Proof.
  apply (current_quantity_formula db (jan 15) (as_of "2024-01-15") (jan 15)).
  - intros n. reflexivity.
  - reflexivity.
Defined.

(** The exit of 15 January is counted as of 15 January and not as of the
    day before. *)
Example quantity_on_the_boundary :
  match fst (run (list_ db (jan 15) (as_of "2024-01-15"))),
        fst (run (list_ db (jan 15) (as_of "2024-01-14"))) with
  | Returned (Response200 _ (s :: _)), Returned (Response200 _ (s' :: _)) =>
      quantity s == 7 /\ quantity s' == 15
  | _, _ => False
  end.
Proof. vm_compute. repeat split. Qed.

(** *** C3 *)

Lemma last_entry_cost_without_entries :
  run (list_ db_B002 (jan 20) (as_of "2024-01-20"))
  = (Returned (Response200 1 [ItemData "B002" "Porca" (-3) "un" 0 0 true None]),
     [SelectItems; SelectEntradasBySku; SelectSaidasBySku;
      AggregateEntradas "B002"; AggregateSaidas "B002"; LastEntrada "B002"])
  /\ (forall t, In t (transacoes db_B002) -> ~ qualifying_entry "B002" (jan 20) t)
  /\ (None : option Q) <> Some 0.
Proof.
  split; [vm_compute; reflexivity|]. split; [|discriminate].
  intros t [<- | []] [_ []].
Qed.

(** C3 (amended): the last entry cost of a snapshot is the unit value of
    a qualifying Entry of the item whose sequence number no qualifying
    Entry exceeds, whatever the dates of the entries; it is absent
    ([None], the [null] of the response) when the item has no qualifying
    Entry. *)
Theorem last_entry_cost_rule db now query_params d :
  always_up db ->
  asOfDate now query_params = Some d ->
  exists count results tr,
    run (list_ db now query_params) = (Returned (Response200 count results), tr)
    /\ forall s, In s results ->
         match last_entry_cost s with
         | Some cost =>
             exists t,
               In t (transacoes db) /\ qualifying_entry (sku s) d t
               /\ cost = Transacao.valor_unit t
               /\ forall u,
                   In u (transacoes db) -> qualifying_entry (sku s) d u ->
                   (Transacao.id_transacao u <= Transacao.id_transacao t)%Z
         | None =>
             forall t, In t (transacoes db) -> ~ qualifying_entry (sku s) d t
         end.
Proof.
  intros Hup Hd. destruct (list_up db now query_params d Hup Hd) as [tr E].
  eexists _, _, _. split; [exact E|].
  intros s Hs. apply In_results in Hs as (item & -> & _).
  cbn [sku last_entry_cost snapshot].
  pose proof (first_order_by_desc_id (entradas db d (Item.cod_sku item))) as H.
  destruct (first _) as [t|]; simpl.
  - destruct H as [Hin Hmax]. exists t. apply In_entradas in Hin as [Hin Hq].
    split; [exact Hin|]. split; [exact Hq|]. split; [reflexivity|].
    intros u Hu Hqu. apply Hmax, In_entradas. auto.
  - intros t Ht Hq. assert (Hin : In t (entradas db d (Item.cod_sku item)))
      by (apply In_entradas; auto).
    rewrite H in Hin. exact Hin.
Qed.

Lemma last_entry_cost_rule_witness :
  exists count results tr,
    run (list_ db_late_entry (jan 20) (as_of "2024-01-20"))
    = (Returned (Response200 count results), tr)
    /\ forall s, In s results ->
         match last_entry_cost s with
         | Some cost =>
             exists t,
               In t (transacoes db_late_entry) /\ qualifying_entry (sku s) (jan 20) t
               /\ cost = Transacao.valor_unit t
               /\ forall u,
                   In u (transacoes db_late_entry) -> qualifying_entry (sku s) (jan 20) u ->
                   (Transacao.id_transacao u <= Transacao.id_transacao t)%Z
         | None =>
             forall t, In t (transacoes db_late_entry) -> ~ qualifying_entry (sku s) (jan 20) t
         end.
Proof.
  apply (last_entry_cost_rule db_late_entry (jan 20) (as_of "2024-01-20") (jan 20)).
  - intros n. reflexivity.
  - reflexivity.
Defined.

(** The entry dated 12 January (sequence number 1) does not override the
    entry dated 3 January (sequence number 2). *)
Example last_entry_cost_later_date :
  match fst (run (list_ db_late_entry (jan 20) (as_of "2024-01-20"))) with
  | Returned (Response200 _ results) => map last_entry_cost results
  | _ => []
  end = [Some 9].
Proof. vm_compute. reflexivity. Qed.

(** *** C4 *)

Lemma only_with_stock_negative_quantity :
  run (list_ db_B002 (jan 20) (with_stock "2024-01-20"))
  = (Returned (Response200 0 []), [SelectItems; SelectEntradasBySku; SelectSaidasBySku])
  /\ In B002 (items db_B002)
  /\ candidate (with_stock "2024-01-20") B002
  /\ ~ currentQty (transacoes db_B002) (Item.cod_sku B002) (jan 20) == 0.
Proof.
  split; [vm_compute; reflexivity|]. split; [left; reflexivity|]. split.
  - split; [|split]; [apply contains_empty | apply contains_empty | ].
    vm_compute. discriminate.
  - vm_compute. discriminate.
Qed.

(** C4 (amended): an item of the registry has a snapshot in the result
    exactly when it is a candidate and, when [hasStock] is set, its
    current quantity is positive: the filter removes the candidates whose
    aggregated quantity is zero or negative, and no others. *)
Theorem only_with_stock_filter db now query_params d :
  always_up db ->
  asOfDate now query_params = Some d ->
  exists count results tr,
    run (list_ db now query_params) = (Returned (Response200 count results), tr)
    /\ count = List.length results
    /\ forall item,
         In item (items db) ->
         (exists s, In s results /\ describes s item)
         <-> candidate query_params item
             /\ (flag query_params "hasStock" = true
                 -> 0 < currentQty (transacoes db) (Item.cod_sku item) d).
Proof.
  intros Hup Hd. destruct (list_up db now query_params d Hup Hd) as [tr E].
  eexists _, _, _. split; [exact E|]. split; [reflexivity|].
  intros item Hin. apply listed_candidates. exact Hin.
Qed.

Lemma only_with_stock_filter_witness :
  exists count results tr,
    run (list_ db (jan 20) (with_stock "2024-01-20"))
    = (Returned (Response200 count results), tr)
    /\ count = List.length results
    /\ forall item,
         In item (items db) ->
         (exists s, In s results /\ describes s item)
         <-> candidate (with_stock "2024-01-20") item
             /\ (flag (with_stock "2024-01-20") "hasStock" = true
                 -> 0 < currentQty (transacoes db) (Item.cod_sku item) (jan 20)).
Proof.
  apply (only_with_stock_filter db (jan 20) (with_stock "2024-01-20") (jan 20)).
  - intros n. reflexivity.
  - reflexivity.
Defined.

(** *** C5 *)

Lemma filter_all {A} (p : A -> bool) l :
  (forall x, In x l -> p x = true) -> List.filter p l = l.
Proof.
  induction l as [|x l IH]; intros H; simpl; [reflexivity|].
  rewrite (H x) by (left; reflexivity). f_equal. apply IH.
  intros y Hy. apply H. right. exact Hy.
Qed.

Lemma filter_if_all {A} (c : bool) (p : A -> bool) l :
  (forall x, In x l -> p x = true) -> (if c then List.filter p l else l) = l.
Proof. intros H. destruct c; [apply filter_all, H | reflexivity]. Qed.

Lemma items_query_all db query_params :
  (forall item, In item (items db) -> candidate query_params item) ->
  items_query db query_params = items db.
Proof.
  intros H. unfold items_query. rewrite eqb_true_flag.
  rewrite (filter_if_all (truthy (default "" (query_params !! "sku"))))
    by (intros x Hx; apply icontains_spec, (H x Hx)).
  rewrite (filter_if_all (truthy (default "" (query_params !! "description"))))
    by (intros x Hx; apply icontains_spec, (H x Hx)).
  destruct (flag query_params "active") eqn:E; [|reflexivity].
  apply filter_all. intros x Hx. apply (H x Hx). exact E.
Qed.

Lemma negative_quantity_average_cost :
  let s := ItemData "B002" "Porca" (-3) "un" 0 0 true None in
  run (list_ db_B002 (jan 20) (as_of "2024-01-20"))
  = (Returned (Response200 1 [s]),
     [SelectItems; SelectEntradasBySku; SelectSaidasBySku;
      AggregateEntradas "B002"; AggregateSaidas "B002"; LastEntrada "B002"])
  /\ on_or_before (jan 5) (jan 20)
  /\ ~ unit_cost s == 5
  /\ ~ total_cost s == -15
  /\ last_entry_cost s <> Some 0.
Proof.
  split; [vm_compute; reflexivity|]. split; [right; vm_compute; auto|].
  split; [vm_compute; discriminate|]. split; [vm_compute; discriminate | discriminate].
Qed.

(** C5 (amended): an item whose only transaction is Exit(seq=1, qty=3,
    unitValue=5, date=5 January) has, as of any date on or after that
    day, current quantity -3 and net value -15; the guard of the average
    cost holds for it as for a zero quantity: its average cost is 0, its
    total valuation 0, and it has no last entry cost.  With [hasStock]
    set it is left out of the result. *)
Theorem negative_quantity_scenario db now query_params d item y :
  always_up db ->
  asOfDate now query_params = Some d ->
  items db = [item] ->
  transacoes db
  = [Transacao.Build 1 (Item.cod_sku item) 3 5 (Transacao.Saida (Date y 1 5))] ->
  on_or_before (Date y 1 5) d ->
  candidate query_params item ->
  netValue (transacoes db) (Item.cod_sku item) d == -15
  /\ (flag query_params "hasStock" = false ->
      exists s tr,
        run (list_ db now query_params) = (Returned (Response200 1 [s]), tr)
        /\ describes s item
        /\ quantity s == -3
        /\ unit_cost s == 0
        /\ total_cost s == 0
        /\ last_entry_cost s = None)
  /\ (flag query_params "hasStock" = true ->
      exists tr, run (list_ db now query_params) = (Returned (Response200 0 []), tr)).
Proof.
  intros Hup Hd Hitems Hledger Hdate Hcand.
  assert (Hexit : qualifying_exit (Item.cod_sku item) d
                    (Transacao.Build 1 (Item.cod_sku item) 3 5 (Transacao.Saida (Date y 1 5))))
    by (split; [reflexivity | exact Hdate]).
  assert (Hentry : ~ qualifying_entry (Item.cod_sku item) d
                    (Transacao.Build 1 (Item.cod_sku item) 3 5 (Transacao.Saida (Date y 1 5))))
    by (intros [_ []]).
  assert (Hqty : currentQty (transacoes db) (Item.cod_sku item) d == -3).
  { unfold currentQty, entryQty, exitQty. rewrite Hledger. cbn [sigma].
    rewrite (decide_True (P := qualifying_exit _ _ _)) by exact Hexit.
    rewrite (decide_False (P := qualifying_entry _ _ _)) by exact Hentry.
    reflexivity. }
  assert (Hle : currentQty (transacoes db) (Item.cod_sku item) d <= 0)
    by (rewrite Hqty; discriminate).
  assert (Hitemsq : items_query db query_params = [item]).
  { rewrite items_query_all; [exact Hitems|].
    intros x Hx. rewrite Hitems in Hx. destruct Hx as [<- | []]. exact Hcand. }
  destruct (list_up db now query_params d Hup Hd) as [tr E].
  unfold results in E. rewrite Hitemsq in E. cbn [List.filter] in E.
  unfold has_stock in E. rewrite eqb_true_flag in E.
  split; [|split].
  - unfold netValue, entryValue, exitValue. rewrite Hledger. cbn [sigma].
    rewrite (decide_True (P := qualifying_exit _ _ _)) by exact Hexit.
    rewrite (decide_False (P := qualifying_entry _ _ _)) by exact Hentry.
    reflexivity.
  - intros Hflag. rewrite Hflag in E.
    exists (snapshot db d item), tr. split; [exact E|].
    split; [apply describes_snapshot|]. cbn [snapshot quantity unit_cost total_cost last_entry_cost].
    split; [rewrite estoque_atual_spec; exact Hqty|].
    rewrite (custo_medio_not_positive db d _ Hle).
    split; [reflexivity|]. split; [ring|].
    unfold entradas. rewrite Hledger. cbn. rewrite andb_false_r. reflexivity.
  - intros Hflag. rewrite Hflag in E.
    assert (Hl : listed db d true item = false).
    { unfold listed. apply negb_false_iff. apply andb_true_iff. split; [reflexivity|].
      apply Qle_bool_iff. rewrite quantidade_estoque_atual, estoque_atual_spec. exact Hle. }
    rewrite Hl in E. exists tr. exact E.
Qed.

Lemma negative_quantity_scenario_witness :
  netValue (transacoes db_B002) (Item.cod_sku B002) (jan 20) == -15
  /\ (flag (as_of "2024-01-20") "hasStock" = false ->
      exists s tr,
        run (list_ db_B002 (jan 20) (as_of "2024-01-20"))
        = (Returned (Response200 1 [s]), tr)
        /\ describes s B002
        /\ quantity s == -3
        /\ unit_cost s == 0
        /\ total_cost s == 0
        /\ last_entry_cost s = None)
  /\ (flag (as_of "2024-01-20") "hasStock" = true ->
      exists tr,
        run (list_ db_B002 (jan 20) (as_of "2024-01-20"))
        = (Returned (Response200 0 []), tr)).
Proof.
  apply (negative_quantity_scenario db_B002 (jan 20) (as_of "2024-01-20") (jan 20) B002 2024).
  - intros n. reflexivity.
  - reflexivity.
  - reflexivity.
  - reflexivity.
  - right. vm_compute. auto.
  - split; [|split]; [apply contains_empty | apply contains_empty | ].
    vm_compute. discriminate.
Defined.

(** *** C6 *)




(** *** C7

    C7 is about the order of the rows: see [RowOrder]. *)

(** *** C8 *)

Section FailFast.
Variable db : database.

Lemma fail_fast_ret {A} (a : A) : fail_fast db (mret a).
Proof.
  intros tr out tr' E. injection E as <- <-. exists []. split.
  - rewrite app_nil_r. reflexivity.
  - intros i q Hi. destruct i; discriminate Hi.
Qed.

Lemma fail_fast_bind {A B} (m : M query exn A) (f : A -> M query exn B) :
  fail_fast db m -> (forall a, fail_fast db (f a)) -> fail_fast db (m ≫= f).
Proof.
  intros Hm Hf tr out tr' E. unfold mbind, M_bind in E.
  destruct (m tr) as [[a | e] tr1] eqn:Em.
  - destruct (Hm _ _ _ Em) as (new1 & -> & H1).
    destruct (Hf a _ _ _ E) as (new2 & -> & H2).
    exists (new1 ++ new2). split; [rewrite app_assoc; reflexivity|].
    intros i q Hi Hdown. rewrite List.length_app.
    destruct (lookup_app_Some new1 new2 i q) as [Hcases _].
    destruct (Hcases Hi) as [Hi1 | [Hge Hi2]].
    + destruct (H1 i q Hi1 Hdown) as [_ Hout]. discriminate Hout.
    + rewrite List.length_app in H2.
      destruct (H2 (i - List.length new1)%nat q Hi2) as [Hlen Hout].
      * replace (List.length tr + List.length new1 + (i - List.length new1))%nat
          with (List.length tr + i)%nat by lia.
        exact Hdown.
      * split; [lia | exact Hout].
  - injection E as <- <-. destruct (Hm _ _ _ Em) as (new & -> & H).
    exists new. split; [reflexivity|].
    intros i q Hi Hdown. destruct (H i q Hi Hdown) as [Hlen Hout].
    injection Hout as ->. split; [exact Hlen | reflexivity].
Qed.

Lemma fail_fast_execute {A} q (v : A) : fail_fast db (execute db q v).
Proof.
  intros tr out tr' E. unfold execute, perform in E. injection E as <- <-.
  exists [q]. split; [reflexivity|].
  intros i q' Hi Hdown. destruct i as [|i]; [|destruct i; discriminate Hi].
  injection Hi as <-. rewrite Nat.add_0_r in Hdown. rewrite Hdown.
  split; reflexivity.
Qed.

Lemma fail_fast_iterate {A} (qs : QuerySet A) : fail_fast db (iterate db qs).
Proof.
  unfold iterate. destruct (_result_cache qs).
  - apply fail_fast_ret.
  - apply fail_fast_bind; [apply fail_fast_execute | intros a; apply fail_fast_ret].
Qed.

Lemma fail_fast_loop_body d hs st item : fail_fast db (loop_body db d hs st item).
Proof.
  unfold loop_body.
  apply fail_fast_bind; [apply fail_fast_iterate | intros [entradas_rows qe]].
  apply fail_fast_bind; [apply fail_fast_iterate | intros [saidas_rows qs]].
  destruct (hs && _); [apply fail_fast_ret|].
  apply fail_fast_bind; [apply fail_fast_execute | intros [entradas_qtde entradas_valor]].
  apply fail_fast_bind; [apply fail_fast_execute | intros [saidas_qtde saidas_valor]].
  apply fail_fast_bind; [apply fail_fast_execute | intros custo_ultima_entrada].
  apply fail_fast_ret.
Qed.

Lemma fail_fast_for_each {A S} (xs : list A) (body : S -> A -> M query exn S) acc :
  (forall st x, fail_fast db (body st x)) -> fail_fast db (for_each xs body acc).
Proof.
  intros Hbody. revert acc. induction xs as [|x xs IH]; intros acc; cbn [for_each].
  - apply fail_fast_ret.
  - apply fail_fast_bind; [apply Hbody | exact IH].
Qed.

Lemma fail_fast_list now query_params : fail_fast db (list_ db now query_params).
Proof.
  unfold list_. rewrite stock_date_asOfDate.
  destruct (asOfDate now query_params).
  2: apply fail_fast_ret.
  apply fail_fast_bind; [apply fail_fast_execute | intros fetched_items].
  apply fail_fast_bind; [|intros st; apply fail_fast_ret].
  apply fail_fast_for_each. intros st x. apply fail_fast_loop_body.
Qed.
End FailFast.

Import Http StockService UseTransactionForm.

Lemma average_cost_swallows_failures :
  run (getAverageCost unreachable "A001")
  = (Returned 0,
     [ApiGet "/api/v1/itens/A001/custo-medio/" []; GetStockCosts None "A001"])
  /\ custo_medio unreachable "A001" 0 = Raised (RequestFailed 503)
  /\ stock_costs unreachable None "A001" 1 = Raised (RequestFailed 503).
Proof. split; [|split]; reflexivity. Qed.

(** C8 (amended): a read of the database that fails inside
    [StockCostViewSet.list] is the last read of the request and the
    request ends with its error, and [getStockItems] passes the error of
    its request on to the caller after that one request; the cost helpers
    of the transaction form do otherwise: [getAverageCost] goes on to a
    second source when the first read fails and returns 0 when that one
    fails too, and [getLastEntryCost] returns 0 when its read fails. *)
Theorem read_failures :
  (forall db now query_params out tr,
      run (list_ db now query_params) = (out, tr) ->
      forall i q,
        tr !! i = Some q -> available db i = false ->
        S i = List.length tr /\ out = Raised (DatabaseError q))
  /\ (forall srv page filters tr e,
         stocks srv (searchParams page filters) (List.length tr) = Raised e ->
         getStockItems srv page filters tr
         = (Raised e, tr ++ [ApiGet "/api/v1/stocks/" (searchParams page filters)]))
  /\ (forall srv sku tr e1 e2,
         custo_medio srv sku (List.length tr) = Raised e1 ->
         stock_costs srv None sku (S (List.length tr)) = Raised e2 ->
         getAverageCost srv sku tr
         = (Returned 0,
            tr ++ [ApiGet ("/api/v1/itens/" +:+ sku +:+ "/custo-medio/") [];
                   GetStockCosts None sku]))
  /\ (forall srv today sku tr e,
         stock_costs srv (Some today) sku (List.length tr) = Raised e ->
         getLastEntryCost srv today sku tr
         = (Returned (Some 0), tr ++ [GetStockCosts (Some today) sku])).
Proof.
  split; [|split; [|split]].
  - intros db now query_params out tr E i q Hi Hdown.
    destruct (fail_fast_list db now query_params [] out tr E) as (new & -> & H).
    apply (H i q Hi Hdown).
  - intros srv page filters tr e He.
    unfold getStockItems, try_catch, mbind, M_bind, perform. rewrite He. reflexivity.
  - intros srv sku tr e1 e2 H1 H2.
    unfold getAverageCost, try_catch, mbind, M_bind, perform, mret, M_ret.
    rewrite H1. rewrite List.length_app, Nat.add_1_r, H2.
    rewrite <- app_assoc. reflexivity.
  - intros srv today sku tr e He.
    unfold getLastEntryCost, try_catch, mbind, M_bind, perform, mret, M_ret.
    rewrite He. reflexivity.
Qed.

Lemma read_failures_witness :
  (let r := run (list_ db_down (jan 20) (as_of "2024-01-20")) in
   4%nat = List.length (snd r)
   /\ fst r = Raised (DatabaseError (AggregateEntradas "A001")))
  /\ getStockItems unreachable 1 no_filters []
     = (Raised (RequestFailed 503),
        [ApiGet "/api/v1/stocks/"
                [("page", "1"); ("stockDate", "2024-02-31"); ("showOnlyStockItems", "true")]])
  /\ getAverageCost unreachable "A001" []
     = (Returned 0,
        [ApiGet "/api/v1/itens/A001/custo-medio/" []; GetStockCosts None "A001"])
  /\ getLastEntryCost unreachable "2024-01-20" "A001" []
     = (Returned (Some 0), [GetStockCosts (Some "2024-01-20") "A001"]).
Proof.
  destruct read_failures as (Hlist & Hstocks & Haverage & Hlast).
  split; [|split; [|split]].
  - apply (Hlist db_down (jan 20) (as_of "2024-01-20") _ _ eq_refl 3%nat
                 (AggregateEntradas "A001")); reflexivity.
  - apply (Hstocks unreachable 1%nat no_filters [] (RequestFailed 503)). reflexivity.
  - apply (Haverage unreachable "A001" [] (RequestFailed 503) (RequestFailed 503));
      reflexivity.
  - apply (Hlast unreachable "2024-01-20" "A001" [] (RequestFailed 503)). reflexivity.
Defined.

(** *** C9 *)

Import UseTable.

Lemma matchesFilter_spec item field substr :
  matchesFilter item (field, substr) = true
  <-> (substr <> ""
       -> occurs_in (Js.toLowerCase substr) (Js.toLowerCase (toString (prop item field)))).
Proof.
  unfold matchesFilter. destruct (String.eqb_spec substr "") as [-> | Hne].
  - split; [intros _ H; contradiction | reflexivity].
  - rewrite JsFacts.includes_spec. split; [auto | intros H; apply H, Hne].
Qed.

Lemma matchesFilter_ignoring_case item field substr :
  matchesFilter item (field, substr) = true
  <-> (substr <> "" -> occurs_ignoring_case substr (toString (prop item field))).
Proof.
  unfold matchesFilter. destruct (String.eqb_spec substr "") as [-> | Hne].
  - split; [intros _ H; contradiction | reflexivity].
  - rewrite includes_toLowerCase. split; [auto | intros H; apply H, Hne].
Qed.

Lemma occurs_ignoring_case_empty s : occurs_ignoring_case "" s.
Proof. exists "", "", s. split; [reflexivity | constructor]. Qed.

Lemma contains_ignoring_case field value :
  contains field value <-> occurs_ignoring_case value field.
Proof. rewrite <- icontains_spec. apply includes_toLowerCase. Qed.



(** The filter [FUSO] keeps the row [Parafuso] and no other. *)
Example filter_ignores_case :
  applyFilters {[ "descricaoItem" := "FUSO" ]} table_rows
  = [ {[ "codSku" := JString "A001"; "descricaoItem" := JString "Parafuso" ]} ].
Proof. vm_compute. reflexivity. Qed.

End Claims.

(** * The code around the claims *)

(** ** Texts without a separator *)

Module TextFacts.
Import Js.

Lemma append_String c a b : String c a +:+ b = String c (a +:+ b).
Proof. reflexivity. Qed.

Lemma append_empty a : "" +:+ a = a.
Proof. reflexivity. Qed.

Lemma includes_char_nil sep : includes "" (String sep "") = false.
Proof. reflexivity. Qed.

Lemma includes_char_cons sep c s :
  includes (String c s) (String sep "")
  = Ascii.eqb sep c || includes s (String sep "").
Proof. cbn [includes startsWith]. rewrite andb_true_r. reflexivity. Qed.

Lemma includes_char_app sep a b :
  includes (a +:+ b) (String sep "")
  = includes a (String sep "") || includes b (String sep "").
Proof.
  induction a as [|c a IH].
  - rewrite append_empty, includes_char_nil. reflexivity.
  - rewrite append_String, !includes_char_cons, IH, orb_assoc. reflexivity.
Qed.

Lemma split_cons_sep sep s : split sep (String sep s) = "" :: split sep s.
Proof. cbn [split]. rewrite Ascii.eqb_refl. reflexivity. Qed.

Lemma split_not_nil sep s : split sep s <> [].
Proof.
  destruct s as [|c s]; cbn [split]; [discriminate|].
  destruct (Ascii.eqb c sep); [discriminate|].
  destruct (split sep s); discriminate.
Qed.

Lemma split_cons_other sep c s :
  Ascii.eqb sep c = false ->
  split sep (String c s)
  = match split sep s with
    | h :: t => String c h :: t
    | [] => [String c ""]
    end.
Proof. intros H. cbn [split]. rewrite Ascii.eqb_sym, H. reflexivity. Qed.

(** A text without the separator is one part. *)
Lemma split_without sep s :
  includes s (String sep "") = false -> split sep s = [s].
Proof.
  induction s as [|c s IH]; [reflexivity|].
  rewrite includes_char_cons. intros H. apply orb_false_elim in H as [Hc Hs].
  rewrite split_cons_other, IH by assumption. reflexivity.
Qed.

(** The first part ends at the first separator. *)
Lemma split_app sep a b :
  includes a (String sep "") = false ->
  split sep (a +:+ String sep b) = a :: split sep b.
Proof.
  induction a as [|c a IH]; intros H.
  - rewrite append_empty. apply split_cons_sep.
  - rewrite includes_char_cons in H. apply orb_false_elim in H as [Hc Ha].
    rewrite append_String, split_cons_other, IH by assumption. reflexivity.
Qed.

(** More than one part means that the separator occurs. *)
Lemma split_two_includes sep s a b rest :
  split sep s = a :: b :: rest -> includes s (String sep "") = true.
Proof.
  intros H. destruct (includes s (String sep "")) eqn:E; [reflexivity|].
  rewrite (split_without sep s E) in H. discriminate H.
Qed.

Lemma includes_repeat_char sep c n :
  Ascii.eqb sep c = false -> includes (repeat_char c n) (String sep "") = false.
Proof.
  intros H. induction n as [|n IH]; [reflexivity|].
  cbn [repeat_char]. rewrite includes_char_cons, H, IH. reflexivity.
Qed.

Lemma includes_padStart sep n c s :
  Ascii.eqb sep c = false ->
  includes (padStart n c s) (String sep "") = includes s (String sep "").
Proof.
  intros H. unfold padStart.
  rewrite includes_char_app, includes_repeat_char by exact H. reflexivity.
Qed.

End TextFacts.

Module DateFormatFacts.
Import Js DateUtils DateProperties TextFacts.

Ltac expose :=
  repeat match goal with
         | |- context [String.append (String ?c EmptyString) ?x] =>
             change (String.append (String c EmptyString) x) with (String c x)
         end.

(** X1: on three parts without a separator the two conversions swap the
    parts and the separators; [formatBrazilianDateToISO] pads the day and
    the month to two digits, [formatDateToBrazilian] pads nothing. *)
Theorem conversions_on_three_parts d m y :
  plain d -> plain m -> plain y ->
  formatBrazilianDateToISO (d +:+ "/" +:+ m +:+ "/" +:+ y)
  = y +:+ "-" +:+ padStart 2 "0" m +:+ "-" +:+ padStart 2 "0" d
  /\ formatDateToBrazilian (y +:+ "-" +:+ m +:+ "-" +:+ d)
     = d +:+ "/" +:+ m +:+ "/" +:+ y.
Proof.
  intros [Hd1 Hd2] [Hm1 Hm2] [Hy1 Hy2]. split.
  - unfold formatBrazilianDateToISO. expose.
    rewrite !includes_char_app, !includes_char_cons, !includes_char_app,
      !includes_char_cons, Hd2, Hm2, Hy2.
    replace (Ascii.eqb "-" "/") with false by reflexivity. cbn [orb].
    rewrite !split_app, (split_without "/" y) by assumption.
    reflexivity.
  - unfold formatDateToBrazilian. expose.
    rewrite !includes_char_app, !includes_char_cons, !includes_char_app,
      !includes_char_cons, Hd1, Hm1, Hy1.
    replace (Ascii.eqb "/" "-") with false by reflexivity. cbn [orb].
    rewrite !split_app, (split_without "-" d) by assumption.
    reflexivity.
Qed.

Lemma conversions_on_three_parts_witness :
  formatBrazilianDateToISO ("5" +:+ "/" +:+ "3" +:+ "/" +:+ "2024")
  = "2024" +:+ "-" +:+ padStart 2 "0" "3" +:+ "-" +:+ padStart 2 "0" "5"
  /\ formatDateToBrazilian ("2024" +:+ "-" +:+ "3" +:+ "-" +:+ "5")
     = "5" +:+ "/" +:+ "3" +:+ "/" +:+ "2024".
Proof.
  apply (conversions_on_three_parts "5" "3" "2024"); split; reflexivity.
Defined.

Lemma includes_joined sep a b : includes (a +:+ String sep b) (String sep "") = true.
Proof.
  rewrite includes_char_app, includes_char_cons, Ascii.eqb_refl, orb_true_r.
  reflexivity.
Qed.

Lemma formatDateToBrazilian_fixed s :
  includes s "/" = true -> formatDateToBrazilian s = s.
Proof. intros H. unfold formatDateToBrazilian. rewrite H. reflexivity. Qed.

Lemma formatBrazilianDateToISO_fixed s :
  includes s "-" = true -> formatBrazilianDateToISO s = s.
Proof. intros H. unfold formatBrazilianDateToISO. rewrite H. reflexivity. Qed.

Lemma formatDateToBrazilian_includes s :
  includes (formatDateToBrazilian s) "/" = true.
Proof.
  unfold formatDateToBrazilian. destruct (includes s "/") eqn:E; [exact E|].
  cbv zeta. expose. apply includes_joined.
Qed.

Lemma formatBrazilianDateToISO_cases s :
  formatBrazilianDateToISO s = s
  \/ includes (formatBrazilianDateToISO s) "-" = true.
Proof.
  unfold formatBrazilianDateToISO. destruct (includes s "-"); [left; reflexivity|].
  cbv zeta. destruct (split "/" s !! 1%nat) as [m|]; [|left; reflexivity].
  destruct (split "/" s !! 0%nat) as [d|]; [|left; reflexivity].
  right. expose. apply includes_joined.
Qed.

(** X2: converting twice is converting once: the result of a conversion
    is a text the same conversion returns as it is. *)
Theorem conversions_idempotent s :
  formatDateToBrazilian (formatDateToBrazilian s) = formatDateToBrazilian s
  /\ formatBrazilianDateToISO (formatBrazilianDateToISO s) = formatBrazilianDateToISO s.
Proof.
  split.
  - apply formatDateToBrazilian_fixed, formatDateToBrazilian_includes.
  - destruct (formatBrazilianDateToISO_cases s) as [H | H].
    + rewrite !H. reflexivity.
    + apply formatBrazilianDateToISO_fixed, H.
Qed.

(** X3: a text without a separator is returned as it is by
    [formatBrazilianDateToISO], whose [catch] takes the missing month,
    and comes out of [formatDateToBrazilian] with [undefined] for the
    day and the month. *)
Theorem conversions_without_separator s :
  plain s ->
  formatBrazilianDateToISO s = s
  /\ formatDateToBrazilian s = "undefined/undefined/" +:+ s.
Proof.
  intros [H1 H2]. split.
  - unfold formatBrazilianDateToISO. rewrite H2, (split_without "/" s H1). reflexivity.
  - unfold formatDateToBrazilian. rewrite H1, (split_without "-" s H2). reflexivity.
Qed.

Lemma conversions_without_separator_witness :
  formatBrazilianDateToISO "20240115" = "20240115"
  /\ formatDateToBrazilian "20240115" = "undefined/undefined/" +:+ "20240115".
Proof.
  apply (conversions_without_separator "20240115"). split; reflexivity.
Defined.

End DateFormatFacts.


Module DateValidationFacts.
Import Js DateUtils DateValidation DateProperties TextFacts DateFormatFacts JsFacts.

Lemma days_in_month_bounds y m : (28 <= Py.days_in_month y m <= 31)%Z.
Proof.
  unfold Py.days_in_month.
  destruct (m =? 2)%Z; [destruct (Py.is_leap y); lia|].
  destruct (_ || _); lia.
Qed.

Lemma checkFields_spec year month day :
  checkFields year month day = true <-> calendar_day year month day.
Proof.
  unfold checkFields, calendar_day, new_Date.
  pose proof (days_in_month_bounds year month) as Hb.
  replace (month - 1 + 1)%Z with month by lia.
  destruct (Z.ltb_spec day 1); [simpl; split; [discriminate | lia]|].
  destruct (Z.ltb_spec 31 day); [simpl; split; [discriminate | lia]|].
  destruct (Z.ltb_spec month 1); [simpl; split; [discriminate | lia]|].
  destruct (Z.ltb_spec 12 month); [simpl; split; [discriminate | lia]|].
  destruct (Z.ltb_spec year 1900); [simpl; split; [discriminate | lia]|].
  destruct (Z.ltb_spec 2100 year); [simpl; split; [discriminate | lia]|].
  simpl.
  destruct (Z.leb_spec day (Py.days_in_month year month)).
  - simpl. rewrite !Z.eqb_refl. simpl. split; [lia | reflexivity].
  - destruct (month - 1 =? 11)%Z; simpl.
    + destruct (Z.eqb_spec (day - Py.days_in_month year month) day); [lia|].
      simpl. split; [discriminate | lia].
    + destruct (Z.eqb_spec (day - Py.days_in_month year month) day); [lia|].
      simpl. split; [discriminate | lia].
Qed.

Lemma digit_facts c :
  is_digit c = true ->
  Ascii.eqb c "-" = false /\ Ascii.eqb c "/" = false
  /\ Ascii.eqb "-" c = false /\ Ascii.eqb "/" c = false.
Proof.
  intros H. repeat split;
    auto using digit_not_dash, digit_not_slash, eqb_sym_false.
Qed.

(** Evaluates the string primitives on a text whose characters are
    variables known to be digits. *)
Ltac evaluate :=
  repeat match goal with
         | H : is_digit ?c = true |- _ =>
             lazymatch goal with
             | _ : Ascii.eqb c "-" = false |- _ => fail
             | _ => destruct (digit_facts c H) as (? & ? & ? & ?)
             end
         end;
  repeat progress
    (try unfold padStart; try unfold String.append;
     cbn -[Ascii.eqb is_digit checkFields Number Z.add Z.mul Z.sub Z.of_nat nat_of_ascii];
     repeat match goal with H : Ascii.eqb _ _ = false |- _ => rewrite H end;
     repeat match goal with H : is_digit _ = true |- _ => rewrite H end;
     rewrite ?Ascii.eqb_refl, ?dash_slash, ?slash_dash).

(** *** The two texts of a date *)

Section Texts.
Variables d1 d2 m1 m2 y1 y2 y3 y4 : ascii.
Hypothesis Hd1 : is_digit d1 = true.
Hypothesis Hd2 : is_digit d2 = true.
Hypothesis Hm1 : is_digit m1 = true.
Hypothesis Hm2 : is_digit m2 = true.
Hypothesis Hy1 : is_digit y1 = true.
Hypothesis Hy2 : is_digit y2 = true.
Hypothesis Hy3 : is_digit y3 = true.
Hypothesis Hy4 : is_digit y4 = true.

Lemma split_brazilian_text :
  split "/" (brazilian_text d1 d2 m1 m2 y1 y2 y3 y4)
  = [String d1 (String d2 ""); String m1 (String m2 "");
     String y1 (String y2 (String y3 (String y4 "")))].
Proof. unfold brazilian_text. evaluate. reflexivity. Qed.

Lemma split_iso_text :
  split "-" (iso_text d1 d2 m1 m2 y1 y2 y3 y4)
  = [String y1 (String y2 (String y3 (String y4 "")));
     String m1 (String m2 ""); String d1 (String d2 "")].
Proof. unfold iso_text. evaluate. reflexivity. Qed.

Lemma includes_brazilian_text :
  includes (brazilian_text d1 d2 m1 m2 y1 y2 y3 y4) "/" = true
  /\ includes (brazilian_text d1 d2 m1 m2 y1 y2 y3 y4) "-" = false.
Proof. unfold brazilian_text. split; evaluate; reflexivity. Qed.

Lemma includes_iso_text :
  includes (iso_text d1 d2 m1 m2 y1 y2 y3 y4) "-" = true
  /\ includes (iso_text d1 d2 m1 m2 y1 y2 y3 y4) "/" = false.
Proof. unfold iso_text. split; evaluate; reflexivity. Qed.

Lemma regex_brazilian_text :
  regex_test brazilianRegex (brazilian_text d1 d2 m1 m2 y1 y2 y3 y4) = true.
Proof. unfold brazilian_text, brazilianRegex. evaluate. reflexivity. Qed.

Lemma regex_iso_text :
  regex_test isoRegex (iso_text d1 d2 m1 m2 y1 y2 y3 y4) = true.
Proof. unfold iso_text, isoRegex. evaluate. reflexivity. Qed.

Lemma formatBrazilianDateToISO_text :
  formatBrazilianDateToISO (brazilian_text d1 d2 m1 m2 y1 y2 y3 y4)
  = iso_text d1 d2 m1 m2 y1 y2 y3 y4.
Proof.
  unfold formatBrazilianDateToISO.
  rewrite (proj2 includes_brazilian_text), split_brazilian_text. reflexivity.
Qed.

Lemma formatDateToBrazilian_text :
  formatDateToBrazilian (iso_text d1 d2 m1 m2 y1 y2 y3 y4)
  = brazilian_text d1 d2 m1 m2 y1 y2 y3 y4.
Proof.
  unfold formatDateToBrazilian.
  rewrite (proj2 includes_iso_text), split_iso_text. reflexivity.
Qed.
End Texts.

(** A text that matches one of the two patterns is such a text. *)
Ltac regex_digits H s :=
  unfold isoRegex, brazilianRegex in H;
  do 10 (destruct s as [|? s]; cbn [regex_test] in H;
         [repeat rewrite andb_false_r in H; discriminate H|]);
  destruct s; cbn [regex_test] in H;
  [|repeat rewrite andb_false_r in H; discriminate H];
  repeat match type of H with
         | (_ && _) = true => let H1 := fresh "Hc" in apply andb_prop in H as [H1 H]
         end;
  clear H;
  repeat match goal with
         | H : Ascii.eqb ?a ?c = true |- _ => apply Ascii.eqb_eq in H; subst c
         end.

Lemma regex_brazilian_inv s :
  regex_test brazilianRegex s = true ->
  exists d1 d2 m1 m2 y1 y2 y3 y4,
    s = brazilian_text d1 d2 m1 m2 y1 y2 y3 y4
    /\ is_digit d1 = true /\ is_digit d2 = true
    /\ is_digit m1 = true /\ is_digit m2 = true
    /\ is_digit y1 = true /\ is_digit y2 = true
    /\ is_digit y3 = true /\ is_digit y4 = true.
Proof.
  intros H. regex_digits H s.
  eexists _, _, _, _, _, _, _, _. split; [reflexivity|]. auto 10.
Qed.

Lemma regex_iso_inv s :
  regex_test isoRegex s = true ->
  exists d1 d2 m1 m2 y1 y2 y3 y4,
    s = iso_text d1 d2 m1 m2 y1 y2 y3 y4
    /\ is_digit d1 = true /\ is_digit d2 = true
    /\ is_digit m1 = true /\ is_digit m2 = true
    /\ is_digit y1 = true /\ is_digit y2 = true
    /\ is_digit y3 = true /\ is_digit y4 = true.
Proof.
  intros H. regex_digits H s.
  eexists _, _, _, _, _, _, _, _. split; [reflexivity|]. auto 10.
Qed.

(** *** The validators *)

Lemma isValidISODate_iff s :
  isValidISODate s = true
  <-> regex_test isoRegex s = true
      /\ exists year month day,
          map Number (split "-" s) = [Some year; Some month; Some day]
          /\ calendar_day year month day.
Proof.
  unfold isValidISODate. split.
  - destruct (String.eqb s ""); [discriminate|].
    destruct (regex_test isoRegex s) eqn:Hre; [|discriminate].
    cbn [negb]. intros Hv. split; [reflexivity|].
    destruct (regex_iso_inv s Hre)
      as (d1 & d2 & m1 & m2 & y1 & y2 & y3 & y4 & -> & ? & ? & ? & ? & ? & ? & ? & ?).
    revert Hv. rewrite split_iso_text by assumption. cbn [map lookup list_lookup].
    destruct (Number _) as [year|]; [|discriminate].
    destruct (Number _) as [month|]; [|discriminate].
    destruct (Number _) as [day|]; [|discriminate].
    intros Hvalid. exists year, month, day. split; [reflexivity|].
    apply checkFields_spec, Hvalid.
  - intros [Hre (year & month & day & Hparts & Hday)].
    rewrite Hre, Hparts. cbn. apply checkFields_spec in Hday. rewrite Hday.
    destruct (String.eqb_spec s "") as [-> | _]; [discriminate Hre | reflexivity].
Qed.

Lemma isValidBrazilianDate_iff s :
  isValidBrazilianDate s = true
  <-> regex_test brazilianRegex s = true
      /\ exists year month day,
          map Number (split "/" s) = [Some day; Some month; Some year]
          /\ calendar_day year month day.
Proof.
  unfold isValidBrazilianDate. split.
  - destruct (String.eqb s ""); [discriminate|].
    destruct (regex_test brazilianRegex s) eqn:Hre; [|discriminate].
    cbn [negb]. intros Hv. split; [reflexivity|].
    destruct (regex_brazilian_inv s Hre)
      as (d1 & d2 & m1 & m2 & y1 & y2 & y3 & y4 & -> & ? & ? & ? & ? & ? & ? & ? & ?).
    revert Hv. rewrite split_brazilian_text by assumption. cbn [map lookup list_lookup].
    destruct (Number _) as [day|]; [|discriminate].
    destruct (Number _) as [month|]; [|discriminate].
    destruct (Number _) as [year|]; [|discriminate].
    intros Hvalid. exists year, month, day. split; [reflexivity|].
    apply checkFields_spec, Hvalid.
  - intros [Hre (year & month & day & Hparts & Hday)].
    rewrite Hre, Hparts. cbn. apply checkFields_spec in Hday. rewrite Hday.
    destruct (String.eqb_spec s "") as [-> | _]; [discriminate Hre | reflexivity].
Qed.

(** 31 February is no date, and 29 February only in a leap year. *)
Example february :
  isValidBrazilianDate "31/02/2024" = false
  /\ isValidISODate "2023-02-29" = false
  /\ isValidISODate "2024-02-29" = true.
Proof. vm_compute. auto. Qed.

Lemma isValidBrazilianDate_converts s :
  isValidBrazilianDate s = true ->
  includes s "/" = true
  /\ includes s "-" = false
  /\ isValidISODate (formatBrazilianDateToISO s) = true
  /\ formatDateToBrazilian (formatBrazilianDateToISO s) = s.
Proof.
  intros Hvalid. apply isValidBrazilianDate_iff in Hvalid
    as (Hre & year & month & day & Hparts & Hday).
  destruct (regex_brazilian_inv s Hre)
    as (d1 & d2 & m1 & m2 & y1 & y2 & y3 & y4 & -> & ? & ? & ? & ? & ? & ? & ? & ?).
  rewrite split_brazilian_text in Hparts by assumption. cbn [map] in Hparts.
  injection Hparts as Hd Hm Hy.
  rewrite formatBrazilianDateToISO_text, formatDateToBrazilian_text by assumption.
  split; [apply includes_brazilian_text; assumption|].
  split; [apply includes_brazilian_text; assumption|].
  split; [|reflexivity].
  apply isValidISODate_iff. split; [apply regex_iso_text; assumption|].
  exists year, month, day. split; [|exact Hday].
  rewrite split_iso_text by assumption. cbn [map]. rewrite Hd, Hm, Hy. reflexivity.
Qed.

Lemma isValidISODate_includes s :
  isValidISODate s = true -> includes s "-" = true.
Proof.
  intros H. apply isValidISODate_iff in H as [Hre _].
  destruct (regex_iso_inv s Hre)
    as (d1 & d2 & m1 & m2 & y1 & y2 & y3 & y4 & -> & ? & ? & ? & ? & ? & ? & ? & ?).
  apply includes_iso_text; assumption.
Qed.

Lemma safeFormat_sound_aux s r :
  safeFormatBrazilianDateToISO s = Some r -> isValidISODate r = true.
Proof.
  unfold safeFormatBrazilianDateToISO. destruct (String.eqb s ""); [discriminate|].
  destruct (includes s "-" && isValidISODate s) eqn:Hiso.
  - intros [= <-]. apply andb_prop in Hiso as [_ Hiso]. exact Hiso.
  - destruct (includes s "/" && isValidBrazilianDate s) eqn:Hbr; [|discriminate].
    intros [= <-]. apply andb_prop in Hbr as [_ Hbr].
    apply isValidBrazilianDate_converts in Hbr. tauto.
Qed.

(** X4: whatever [safeFormatBrazilianDateToISO] returns is a valid ISO
    date, and it returns nothing for the empty text. *)
Theorem safeFormat_sound s r :
  safeFormatBrazilianDateToISO s = Some r -> s <> "" /\ isValidISODate r = true.
Proof.
  intros H. split; [|eapply safeFormat_sound_aux, H].
  intros ->. discriminate H.
Qed.

Lemma safeFormat_sound_witness :
  "15/01/2024" <> "" /\ isValidISODate "2024-01-15" = true.
Proof.
  apply (safeFormat_sound "15/01/2024" "2024-01-15"). vm_compute. reflexivity.
Defined.

Lemma safeFormat_of_valid s :
  isValidBrazilianDate s = true ->
  safeFormatBrazilianDateToISO s = Some (formatBrazilianDateToISO s).
Proof.
  intros H. destruct (isValidBrazilianDate_converts s H) as (H1 & H2 & _ & _).
  unfold safeFormatBrazilianDateToISO. rewrite H1, H2, H.
  destruct (String.eqb_spec s "") as [-> | _]; [discriminate H | reflexivity].
Qed.

(** X5: a valid date in either format is accepted: an ISO date as it
    is, a Brazilian date as the ISO date that converts back to it. *)
Theorem safeFormat_complete s :
  (isValidISODate s = true -> safeFormatBrazilianDateToISO s = Some s)
  /\ (isValidBrazilianDate s = true ->
      safeFormatBrazilianDateToISO s = Some (formatBrazilianDateToISO s)
      /\ formatDateToBrazilian (formatBrazilianDateToISO s) = s).
Proof.
  split.
  - intros H. unfold safeFormatBrazilianDateToISO.
    rewrite (isValidISODate_includes s H), H.
    destruct (String.eqb_spec s "") as [-> | _]; [discriminate H | reflexivity].
  - intros H. split; [apply safeFormat_of_valid, H|].
    apply (isValidBrazilianDate_converts s H).
Qed.

(** *** The search of the transactions list *)

Import TransactionsFilters.

Lemma converted_date date result :
  (if negb (String.eqb date "")
   then converted (safeFormatBrazilianDateToISO date) else Some date) = Some result ->
  empty_or_valid result
  /\ (date = "" -> result = "")
  /\ (date <> "" -> safeFormatBrazilianDateToISO date = Some result).
Proof.
  destruct (String.eqb_spec date "") as [-> | Hne]; cbn [negb].
  - intros [= <-]. split; [left; reflexivity|]. split; [reflexivity | contradiction].
  - unfold converted. destruct (safeFormatBrazilianDateToISO date) as [r|] eqn:E;
      [|discriminate].
    destruct (String.eqb r ""); [discriminate|]. intros [= <-].
    split; [right; eapply safeFormat_sound_aux, E|]. split; [contradiction | reflexivity].
Qed.

Lemma refused_date date :
  (if negb (String.eqb date "")
   then converted (safeFormatBrazilianDateToISO date) else Some date) = None ->
  date <> "" /\ safeFormatBrazilianDateToISO date = None.
Proof.
  destruct (String.eqb_spec date "") as [-> | Hne]; cbn [negb]; [discriminate|].
  unfold converted. destruct (safeFormatBrazilianDateToISO date) as [r|] eqn:E.
  - destruct (String.eqb_spec r "") as [-> | Hr]; [|discriminate].
    apply safeFormat_sound_aux in E. discriminate E.
  - intros _. split; [exact Hne | reflexivity].
Qed.

(** X7: [onSearch] emits nothing, or the converted filters followed by the
    search; the dates it emits are empty or valid ISO dates and the other
    fields are the ones of the form; and it emits nothing exactly when a
    date that is not empty is refused by the checked conversion. *)
Theorem onSearch_validates_dates filters :
  (onSearch filters = []
   \/ exists value,
       onSearch filters = [UpdateModelValue value; Search]
       /\ empty_or_valid (transactionsDateFrom value)
       /\ empty_or_valid (transactionsDateTo value)
       /\ itemSKU value = itemSKU filters
       /\ itemDescription value = itemDescription filters
       /\ notaFiscal value = notaFiscal filters
       /\ showInUSD value = showInUSD filters)
  /\ (onSearch filters = []
      <-> (transactionsDateFrom filters <> ""
           /\ safeFormatBrazilianDateToISO (transactionsDateFrom filters) = None)
          \/ (transactionsDateTo filters <> ""
              /\ safeFormatBrazilianDateToISO (transactionsDateTo filters) = None)).
Proof.
  unfold onSearch. cbv zeta.
  destruct (if negb (String.eqb (transactionsDateFrom filters) "") then _ else _)
    as [from|] eqn:Hfrom.
  - destruct (if negb (String.eqb (transactionsDateTo filters) "") then _ else _)
      as [to|] eqn:Hto.
    + apply converted_date in Hfrom as (Hfrom & _ & Hf).
      apply converted_date in Hto as (Hto & _ & Ht).
      split.
      * right. eexists. split; [reflexivity|]. cbn. repeat split; assumption.
      * split; [discriminate|].
        intros [[Hne Hnone] | [Hne Hnone]];
          [rewrite (Hf Hne) in Hnone | rewrite (Ht Hne) in Hnone]; discriminate Hnone.
    + split; [left; reflexivity|]. split; [|reflexivity]. intros _. right.
      apply refused_date, Hto.
  - split; [left; reflexivity|]. split; [|reflexivity]. intros _. left.
    apply refused_date, Hfrom.
Qed.

End DateValidationFacts.

(** ** The validators in a time zone *)

Module LocalTimeFacts.
Import Js DateUtils DateValidation DateProperties LocalTime OrderExamples.
Import DateValidationFacts.

Lemma checkFields_local_spec tz year month day :
  checkFields_local tz year month day = true
  <-> calendar_day year month day /\ skipped tz year (month - 1) day = false.
Proof.
  unfold checkFields_local, calendar_day, new_Date_local, new_Date.
  pose proof (days_in_month_bounds year month) as Hb.
  pose proof (days_in_month_bounds year (month + 1)) as Hb'.
  pose proof (days_in_month_bounds (year + 1) 1) as Hb''.
  replace (month - 1 + 1)%Z with month by lia.
  destruct (Z.ltb_spec day 1); [simpl; split; [discriminate | lia]|].
  destruct (Z.ltb_spec 31 day); [simpl; split; [discriminate | lia]|].
  destruct (Z.ltb_spec month 1); [simpl; split; [discriminate | lia]|].
  destruct (Z.ltb_spec 12 month); [simpl; split; [discriminate | lia]|].
  destruct (Z.ltb_spec year 1900); [simpl; split; [discriminate | lia]|].
  destruct (Z.ltb_spec 2100 year); [simpl; split; [discriminate | lia]|].
  cbn [orb]. cbv zeta.
  destruct (Z.leb_spec day (Py.days_in_month year month)) as [Hin | Hout].
  - cbn [getFullYear getMonth getDate].
    replace (month - 1 + 1)%Z with month by lia.
    destruct (skipped tz year (month - 1) day).
    + assert (Hno : forall date : JsDate,
                 (getDate date <> day \/ getMonth date <> month - 1)%Z ->
                 ((getDate date =? day) && (getMonth date =? month - 1)
                  && (getFullYear date =? year))%Z = true
                 <-> (1900 <= year <= 2100 /\ 1 <= month <= 12
                      /\ 1 <= day <= Py.days_in_month year month)%Z /\ true = false).
      { intros date Hd. split; [|intros [_ Hf]; discriminate Hf].
        intros Hv. apply andb_prop in Hv as [Hv _]. apply andb_prop in Hv as [Hv1 Hv2].
        apply Z.eqb_eq in Hv1, Hv2. lia. }
      destruct (Z.leb_spec (day + 1) (Py.days_in_month year month));
        [apply Hno; cbn; lia|].
      destruct (month - 1 =? 11)%Z; apply Hno; cbn; lia.
    + rewrite !Z.eqb_refl. cbn [andb]. split; [intros _; split; [lia | reflexivity] | reflexivity].
  - assert (Hno : forall date : JsDate,
               (getMonth date <> month - 1 \/ getFullYear date <> year)%Z ->
               ((getDate date =? day) && (getMonth date =? month - 1)
                && (getFullYear date =? year))%Z = true
               <-> (1900 <= year <= 2100 /\ 1 <= month <= 12
                    /\ 1 <= day <= Py.days_in_month year month)%Z
                   /\ skipped tz year (month - 1) day = false).
    { intros date Hd. split; [|intros [? _]; lia].
      intros Hv. apply andb_prop in Hv as [Hv Hv3]. apply andb_prop in Hv as [_ Hv2].
      apply Z.eqb_eq in Hv2, Hv3. lia. }
    destruct (Z.eqb_spec (month - 1) 11) as [E | E];
      cbn [getFullYear getMonth getDate];
      (match goal with
       | |- context [if skipped tz ?a ?b ?c then _ else _] => destruct (skipped tz a b c)
       end;
       [match goal with
        | |- context [if (?a <=? Py.days_in_month ?y ?m)%Z then _ else _] =>
            pose proof (days_in_month_bounds y m);
            destruct (Z.leb_spec a (Py.days_in_month y m)); [|lia]
        end|]);
      apply Hno; cbn; lia.
Qed.

Lemma isValidISODate_local_iff tz s :
  isValidISODate_local tz s = true
  <-> regex_test isoRegex s = true
      /\ exists year month day,
          map Number (split "-" s) = [Some year; Some month; Some day]
          /\ calendar_day year month day
          /\ skipped tz year (month - 1) day = false.
Proof.
  unfold isValidISODate_local. split.
  - destruct (String.eqb s ""); [discriminate|].
    destruct (regex_test isoRegex s) eqn:Hre; [|discriminate].
    cbn [negb]. intros Hv. split; [reflexivity|].
    destruct (regex_iso_inv s Hre)
      as (d1 & d2 & m1 & m2 & y1 & y2 & y3 & y4 & -> & ? & ? & ? & ? & ? & ? & ? & ?).
    revert Hv. rewrite split_iso_text by assumption. cbn [map lookup list_lookup].
    destruct (Number _) as [year|]; [|discriminate].
    destruct (Number _) as [month|]; [|discriminate].
    destruct (Number _) as [day|]; [|discriminate].
    intros Hvalid. exists year, month, day. split; [reflexivity|].
    apply checkFields_local_spec, Hvalid.
  - intros [Hre (year & month & day & Hparts & Hday)].
    rewrite Hre, Hparts. cbn. apply checkFields_local_spec in Hday. rewrite Hday.
    destruct (String.eqb_spec s "") as [-> | _]; [discriminate Hre | reflexivity].
Qed.

Lemma isValidBrazilianDate_local_iff tz s :
  isValidBrazilianDate_local tz s = true
  <-> regex_test brazilianRegex s = true
      /\ exists year month day,
          map Number (split "/" s) = [Some day; Some month; Some year]
          /\ calendar_day year month day
          /\ skipped tz year (month - 1) day = false.
Proof.
  unfold isValidBrazilianDate_local. split.
  - destruct (String.eqb s ""); [discriminate|].
    destruct (regex_test brazilianRegex s) eqn:Hre; [|discriminate].
    cbn [negb]. intros Hv. split; [reflexivity|].
    destruct (regex_brazilian_inv s Hre)
      as (d1 & d2 & m1 & m2 & y1 & y2 & y3 & y4 & -> & ? & ? & ? & ? & ? & ? & ? & ?).
    revert Hv. rewrite split_brazilian_text by assumption. cbn [map lookup list_lookup].
    destruct (Number _) as [day|]; [|discriminate].
    destruct (Number _) as [month|]; [|discriminate].
    destruct (Number _) as [year|]; [|discriminate].
    intros Hvalid. exists year, month, day. split; [reflexivity|].
    apply checkFields_local_spec, Hvalid.
  - intros [Hre (year & month & day & Hparts & Hday)].
    rewrite Hre, Hparts. cbn. apply checkFields_local_spec in Hday. rewrite Hday.
    destruct (String.eqb_spec s "") as [-> | _]; [discriminate Hre | reflexivity].
Qed.

(** X6: in every time zone the validators accept exactly the
    ten-character texts whose numbers are a day of the calendar between
    1900 and 2100 that the local clock did not skip; in a zone that
    skipped no day they are the validators of [DateValidation]. *)
Theorem validators_accept_calendar_days tz s :
  (isValidISODate_local tz s = true
   <-> regex_test isoRegex s = true
       /\ exists year month day,
           map Number (split "-" s) = [Some year; Some month; Some day]
           /\ calendar_day year month day
           /\ skipped tz year (month - 1) day = false)
  /\ (isValidBrazilianDate_local tz s = true
      <-> regex_test brazilianRegex s = true
          /\ exists year month day,
              map Number (split "/" s) = [Some day; Some month; Some year]
              /\ calendar_day year month day
              /\ skipped tz year (month - 1) day = false)
  /\ isValidISODate_local continuous s = isValidISODate s
  /\ isValidBrazilianDate_local continuous s = isValidBrazilianDate s.
Proof.
  split; [apply isValidISODate_local_iff|].
  split; [apply isValidBrazilianDate_local_iff|].
  split; reflexivity.
Qed.

(** 31 February is no date, 29 February only in a leap year, and
    30 December 2011 is no date in Apia. *)
Example skipped_days :
  isValidBrazilianDate_local continuous "31/02/2024" = false
  /\ isValidISODate_local continuous "2023-02-29" = false
  /\ isValidISODate_local continuous "2024-02-29" = true
  /\ isValidISODate_local continuous "2011-12-30" = true
  /\ isValidISODate_local apia "2011-12-30" = false
  /\ isValidISODate_local apia "2011-12-31" = true.
Proof. vm_compute. auto 10. Qed.

End LocalTimeFacts.


Module ClockFacts.
Import Js DateUtils DateValidation DateProperties Clock JsFacts TextFacts.
Import DateFormatFacts DateValidationFacts MoreExamples.

Lemma In_range lo n z : (lo <= z < lo + Z.of_nat n)%Z -> In z (range lo n).
Proof.
  intros H. unfold range. apply in_map_iff. exists (Z.to_nat (z - lo)).
  split; [lia|]. apply in_seq. lia.
Qed.

Lemma years_read : forallb (fun y => reads_as 4 y (pretty y)) (range 1900 201) = true.
Proof. vm_compute. reflexivity. Qed.

Lemma fields_read :
  forallb (fun n => reads_as 2 n (padStart 2 "0" (pretty n))) (range 0 100) = true.
Proof. vm_compute. reflexivity. Qed.

Lemma reads_as_4 z s :
  reads_as 4 z s = true ->
  exists a b c d,
    s = String a (String b (String c (String d "")))
    /\ is_digit a = true /\ is_digit b = true /\ is_digit c = true /\ is_digit d = true
    /\ Number s = Some z.
Proof.
  unfold reads_as. intros H. apply andb_prop in H as [H Hn]. apply andb_prop in H as [Hl Hd].
  apply bool_decide_eq_true in Hn.
  destruct s as [|a [|b [|c [|d [|e s]]]]]; try discriminate Hl.
  cbn [all_digits] in Hd.
  repeat match type of Hd with
         | (_ && _) = true => let H1 := fresh "Hc" in apply andb_prop in Hd as [H1 Hd]
         end.
  exists a, b, c, d. auto 10.
Qed.

Lemma reads_as_2 z s :
  reads_as 2 z s = true ->
  exists a b,
    s = String a (String b "")
    /\ is_digit a = true /\ is_digit b = true /\ Number s = Some z.
Proof.
  unfold reads_as. intros H. apply andb_prop in H as [H Hn]. apply andb_prop in H as [Hl Hd].
  apply bool_decide_eq_true in Hn.
  destruct s as [|a [|b [|c s]]]; try discriminate Hl.
  cbn [all_digits] in Hd.
  repeat match type of Hd with
         | (_ && _) = true => let H1 := fresh "Hc" in apply andb_prop in Hd as [H1 Hd]
         end.
  exists a, b. auto.
Qed.

Lemma year_text y :
  (1900 <= y <= 2100)%Z -> reads_as 4 y (pretty y) = true.
Proof.
  intros H. pose proof years_read as Hall. rewrite forallb_forall in Hall.
  apply Hall, In_range. lia.
Qed.

Lemma field_text n :
  (0 <= n <= 99)%Z -> reads_as 2 n (padStart 2 "0" (pretty n)) = true.
Proof.
  intros H. pose proof fields_read as Hall. rewrite forallb_forall in Hall.
  apply (Hall n), In_range. lia.
Qed.

(** The two texts of the clock are the two texts of the same eight
    digits, which read as the year, the month and the day. *)
Lemma clock_texts now :
  calendar_day (getFullYear now) (getMonth now + 1) (getDate now) ->
  exists d1 d2 m1 m2 y1 y2 y3 y4,
    getCurrentISODate now = iso_text d1 d2 m1 m2 y1 y2 y3 y4
    /\ getCurrentBrazilianDate now = brazilian_text d1 d2 m1 m2 y1 y2 y3 y4
    /\ (is_digit d1 = true /\ is_digit d2 = true /\ is_digit m1 = true
        /\ is_digit m2 = true /\ is_digit y1 = true /\ is_digit y2 = true
        /\ is_digit y3 = true /\ is_digit y4 = true)
    /\ Number (String y1 (String y2 (String y3 (String y4 "")))) = Some (getFullYear now)
    /\ Number (String m1 (String m2 "")) = Some (getMonth now + 1)%Z
    /\ Number (String d1 (String d2 "")) = Some (getDate now).
Proof.
  intros (Hy & Hm & Hd).
  pose proof (days_in_month_bounds (getFullYear now) (getMonth now + 1)) as Hb.
  destruct (reads_as_4 _ _ (year_text _ Hy))
    as (y1 & y2 & y3 & y4 & EY & Hy1 & Hy2 & Hy3 & Hy4 & NY).
  destruct (reads_as_2 _ _ (field_text (getMonth now + 1) ltac:(lia)))
    as (m1 & m2 & EM & Hm1 & Hm2 & NM).
  destruct (reads_as_2 _ _ (field_text (getDate now) ltac:(lia)))
    as (d1 & d2 & ED & Hd1 & Hd2 & ND).
  exists d1, d2, m1, m2, y1, y2, y3, y4.
  rewrite EY in NY. rewrite EM in NM. rewrite ED in ND.
  unfold getCurrentISODate, getCurrentBrazilianDate. cbv zeta. rewrite EY, EM, ED.
  split; [reflexivity|]. split; [reflexivity|]. auto 12.
Qed.

(** X8: the texts the clock helpers give for a day between 1900 and 2100
    are valid dates, each converts into the other, and the checked
    conversion accepts the Brazilian one. *)
Theorem clock_dates_are_valid now :
  calendar_day (getFullYear now) (getMonth now + 1) (getDate now) ->
  isValidISODate (getCurrentISODate now) = true
  /\ isValidBrazilianDate (getCurrentBrazilianDate now) = true
  /\ formatBrazilianDateToISO (getCurrentBrazilianDate now) = getCurrentISODate now
  /\ formatDateToBrazilian (getCurrentISODate now) = getCurrentBrazilianDate now
  /\ safeFormatBrazilianDateToISO (getCurrentBrazilianDate now)
     = Some (getCurrentISODate now).
Proof.
  intros Hday.
  destruct (clock_texts now Hday)
    as (d1 & d2 & m1 & m2 & y1 & y2 & y3 & y4 & -> & -> & Hdigits & NY & NM & ND).
  destruct Hdigits as (? & ? & ? & ? & ? & ? & ? & ?).
  assert (Hvbr : isValidBrazilianDate (brazilian_text d1 d2 m1 m2 y1 y2 y3 y4) = true).
  { apply isValidBrazilianDate_iff. split; [apply regex_brazilian_text; assumption|].
    exists (getFullYear now), (getMonth now + 1)%Z, (getDate now).
    split; [|exact Hday].
    rewrite split_brazilian_text by assumption. cbn [map]. rewrite NY, NM, ND.
    reflexivity. }
  split.
  { apply isValidISODate_iff. split; [apply regex_iso_text; assumption|].
    exists (getFullYear now), (getMonth now + 1)%Z, (getDate now).
    split; [|exact Hday].
    rewrite split_iso_text by assumption. cbn [map]. rewrite NY, NM, ND. reflexivity. }
  split; [exact Hvbr|].
  split; [apply formatBrazilianDateToISO_text; assumption|].
  split; [apply formatDateToBrazilian_text; assumption|].
  rewrite (safeFormat_of_valid _ Hvbr), formatBrazilianDateToISO_text by assumption.
  reflexivity.
Qed.

Lemma clock_dates_are_valid_witness :
  isValidISODate (getCurrentISODate leap_day) = true
  /\ isValidBrazilianDate (getCurrentBrazilianDate leap_day) = true
  /\ formatBrazilianDateToISO (getCurrentBrazilianDate leap_day)
     = getCurrentISODate leap_day
  /\ formatDateToBrazilian (getCurrentISODate leap_day)
     = getCurrentBrazilianDate leap_day
  /\ safeFormatBrazilianDateToISO (getCurrentBrazilianDate leap_day)
     = Some (getCurrentISODate leap_day).
Proof.
  apply (clock_dates_are_valid leap_day).
  unfold calendar_day. vm_compute. intuition discriminate.
Defined.

Import TransactionsFilters InitialFilters.

(** X9: a search with the filters the form starts with goes through: the
    component emits today's date, as an ISO date, for both ends of the
    period, and then the search. *)
Theorem search_of_initial_filters now :
  calendar_day (getFullYear now) (getMonth now + 1) (getDate now) ->
  onSearch (initialFilters now)
  = [UpdateModelValue
       (MkFilters (getCurrentISODate now) (getCurrentISODate now) "" "" "" false);
     Search].
Proof.
  intros Hday.
  destruct (clock_texts now Hday)
    as (d1 & d2 & m1 & m2 & y1 & y2 & y3 & y4 & Hiso & Hbr & Hdigits & NY & NM & ND).
  destruct Hdigits as (? & ? & ? & ? & ? & ? & ? & ?).
  assert (Hsafe : safeFormatBrazilianDateToISO (getCurrentBrazilianDate now)
                  = Some (getCurrentISODate now)).
  { rewrite Hbr, Hiso, safeFormat_of_valid.
    - rewrite formatBrazilianDateToISO_text by assumption. reflexivity.
    - apply isValidBrazilianDate_iff. split; [apply regex_brazilian_text; assumption|].
      exists (getFullYear now), (getMonth now + 1)%Z, (getDate now).
      split; [|exact Hday].
      rewrite split_brazilian_text by assumption. cbn [map]. rewrite NY, NM, ND.
      reflexivity. }
  unfold onSearch, initialFilters. cbv zeta.
  cbn [transactionsDateFrom transactionsDateTo itemSKU itemDescription notaFiscal showInUSD].
  rewrite Hsafe, Hbr, Hiso. reflexivity.
Qed.

Lemma search_of_initial_filters_witness :
  onSearch (initialFilters leap_day)
  = [UpdateModelValue
       (MkFilters (getCurrentISODate leap_day) (getCurrentISODate leap_day) "" "" "" false);
     Search].
Proof.
  apply (search_of_initial_filters leap_day).
  unfold calendar_day. vm_compute. intuition discriminate.
Defined.

End ClockFacts.


Module DateAcceptance.
Import Js DateUtils DateValidation DateProperties DateValidationFacts.
Import Effect Orm StockCostViewSet Valuation ValuationRun Examples.

(** [%d] on two digits. *)
Lemma directive_d_digits c1 c2 :
  is_digit c1 = true ->
  Py.directive_d (String c1 (String c2 ""))
  = Py.int_of_digits 0 (String c1 (String c2 "")) ≫= Py.in_range 1 31.
Proof.
  destruct c1 as [[] [] [] [] [] [] [] []]; intros H;
    first [discriminate H | reflexivity].
Qed.

Lemma three_parts {A} (a b c a' b' c' : A) :
  [a; b; c] = [a'; b'; c'] -> a = a' /\ b = b' /\ c = c'.
Proof. intros [= -> -> ->]. auto. Qed.

Lemma strptime_of_valid s :
  isValidISODate s = true ->
  exists year month day,
    Py.strptime_Ymd s = Some (Py.Date year month day)
    /\ map Number (split "-" s) = [Some year; Some month; Some day]
    /\ calendar_day year month day.
Proof.
  intros Hvalid. apply isValidISODate_iff in Hvalid
    as (Hre & year & month & day & Hparts & Hday).
  exists year, month, day. split; [|split; [exact Hparts | exact Hday]].
  destruct (regex_iso_inv s Hre)
    as (d1 & d2 & m1 & m2 & y1 & y2 & y3 & y4 & -> & ? & ? & ? & ? & ? & ? & ? & ?).
  rewrite split_iso_text in Hparts by assumption. cbn [map] in Hparts.
  apply three_parts in Hparts as (HY & HM & HD). unfold Number in HY, HM, HD.
  pose proof (days_in_month_bounds year month) as Hb.
  destruct Hday as (Hy & Hm & Hd).
  unfold Py.strptime_Ymd. rewrite split_iso_text by assumption.
  rewrite directive_d_digits by assumption.
  unfold Py.directive_Y, Py.directive_m. cbn [String.length Nat.eqb].
  rewrite HY, HM, HD. cbn [mbind option_bind]. unfold Py.in_range.
  replace ((1 <=? month)%Z && (month <=? 12)%Z) with true
    by (symmetry; apply andb_true_iff; split; apply Z.leb_le; lia).
  replace ((1 <=? day)%Z && (day <=? 31)%Z) with true
    by (symmetry; apply andb_true_iff; split; apply Z.leb_le; lia).
  cbn [mbind option_bind].
  replace ((1 <=? year)%Z && (day <=? Py.days_in_month year month)%Z) with true
    by (symmetry; apply andb_true_iff; split; apply Z.leb_le; lia).
  reflexivity.
Qed.

(** X28: a date that passes [isValidISODate] is never refused by the
    costing engine: [strptime] reads the same three numbers in it, and
    the request is answered with a list of snapshots. *)
Theorem valid_dates_are_accepted s :
  isValidISODate s = true ->
  (exists year month day,
      Py.strptime_Ymd s = Some (Py.Date year month day)
      /\ map Number (split "-" s) = [Some year; Some month; Some day])
  /\ forall db now (query_params : gmap string string),
      always_up db ->
      query_params !! "stockDate" = Some s ->
      exists count results tr,
        run (list_ db now query_params) = (Returned (Response200 count results), tr).
Proof.
  intros Hvalid.
  destruct (strptime_of_valid s Hvalid) as (year & month & day & Hparse & Hparts & _).
  split; [exists year, month, day; split; assumption|].
  intros db now query_params Hup Hs.
  assert (Hd : Spec.asOfDate now query_params = Some (Py.Date year month day)).
  { unfold Spec.asOfDate. rewrite Hs.
    destruct (decide (s = "")) as [-> | _]; [discriminate Hvalid | exact Hparse]. }
  destruct (list_up db now query_params _ Hup Hd) as [tr E].
  eexists _, _, _. exact E.
Qed.

Lemma valid_dates_are_accepted_witness :
  (exists year month day,
      Py.strptime_Ymd "2024-02-29" = Some (Py.Date year month day)
      /\ map Number (split "-" "2024-02-29") = [Some year; Some month; Some day])
  /\ forall db now (query_params : gmap string string),
      always_up db ->
      query_params !! "stockDate" = Some "2024-02-29" ->
      exists count results tr,
        run (list_ db now query_params) = (Returned (Response200 count results), tr).
Proof. apply (valid_dates_are_accepted "2024-02-29"). vm_compute. reflexivity. Defined.

End DateAcceptance.


Module StockServiceFacts.
Import Js DateUtils DateValidation DateProperties TextFacts DateFormatFacts StockService Effect Http.

Lemma truthy_Some s : s <> "" -> truthy (Some s) = true.
Proof. intros H. unfold truthy. destruct (String.eqb_spec s ""); [contradiction | reflexivity]. Qed.

Lemma In_if {A} (c : bool) (l l' : list A) x :
  In x l -> In x (if c then l ++ l' else l).
Proof. destruct c; [intros; apply in_or_app; left; assumption | auto]. Qed.

Lemma In_option {A B} (o : option B) (l : list A) (f : B -> list A) x :
  In x l -> In x (match o with Some b => l ++ f b | None => l end).
Proof. destruct o; [intros; apply in_or_app; left; assumption | auto]. Qed.

Lemma In_page_size {A} (o : option nat) (l : list A) (f : nat -> list A) x :
  In x l -> In x (match o with Some (S n) => l ++ f n | _ => l end).
Proof. destruct o as [[|n]|]; [auto | intros; apply in_or_app; left; assumption | auto]. Qed.

(** A parameter that was appended stays in the query string. *)
Ltac climb :=
  repeat first
    [ apply In_if
    | apply (In_option _ _ (fun b => [(_, String_of_bool b)]))
    | apply (In_page_size _ _ (fun n => [(_, pretty (S n))])) ].

(** X10: the date [getStockItems] sends: a date of three parts is sent
    as [formatBrazilianDateToISO] converts it, any other text is sent as
    it is, and the request carries it as [stockDate]. *)
Theorem stock_date_sent s :
  s <> "" ->
  (forall p0 p1 p2,
      includes s "-" = false -> split "/" s = [p0; p1; p2] ->
      convertStockDate (Some s) = formatBrazilianDateToISO s)
  /\ (List.length (split "/" s) <> 3%nat -> convertStockDate (Some s) = s)
  /\ forall page filters,
      f_stockDate filters = Some s ->
      In ("stockDate", convertStockDate (Some s)) (searchParams page filters).
Proof.
  intros Hne. split; [|split].
  - intros p0 p1 p2 Hdash Hparts.
    unfold convertStockDate, formatBrazilianDateToISO.
    rewrite (truthy_Some s Hne). change (default "" (Some s)) with s.
    rewrite (split_two_includes "/" s _ _ _ Hparts), Hdash.
    cbn [andb]. rewrite Hparts. reflexivity.
  - intros Hlen. unfold convertStockDate. rewrite (truthy_Some s Hne).
    change (default "" (Some s)) with s. cbn [andb].
    destruct (includes s "/"); [|reflexivity].
    destruct (split "/" s) as [|p0 [|p1 [|p2 [|p3 rest]]]]; try reflexivity.
    contradiction Hlen. reflexivity.
  - intros page filters Hs. unfold searchParams. cbv zeta.
    rewrite Hs, (truthy_Some s Hne). climb. apply in_or_app. right. left. reflexivity.
Qed.

Lemma stock_date_sent_witness :
  (forall p0 p1 p2,
      includes "15/01/2024" "-" = false -> split "/" "15/01/2024" = [p0; p1; p2] ->
      convertStockDate (Some "15/01/2024") = formatBrazilianDateToISO "15/01/2024")
  /\ (List.length (split "/" "15/01/2024") <> 3%nat ->
      convertStockDate (Some "15/01/2024") = "15/01/2024")
  /\ forall page filters,
      f_stockDate filters = Some "15/01/2024" ->
      In ("stockDate", convertStockDate (Some "15/01/2024")) (searchParams page filters).
Proof. apply (stock_date_sent "15/01/2024"). discriminate. Defined.

Lemma pretty_N_go_nonempty x s : s <> "" -> pretty_N_go x s <> "".
Proof.
  revert s. induction (N.lt_wf_0 x) as [x _ IH]; intros s Hs.
  destruct (decide (x = 0%N)) as [-> | Hx]; [rewrite pretty_N_go_0; exact Hs|].
  rewrite pretty_N_go_step by lia. apply IH; [apply N.div_lt; lia | discriminate].
Qed.

Lemma pretty_nat_nonempty (n : nat) : pretty n <> "".
Proof.
  unfold pretty, pretty_nat, pretty, pretty_N.
  destruct (decide (N.of_nat n = 0%N)) as [_ | Hn]; [discriminate|].
  rewrite pretty_N_go_step by lia. apply pretty_N_go_nonempty. discriminate.
Qed.

Lemma append_nonempty a c b : a +:+ String c b <> "".
Proof. destruct a; discriminate. Qed.

Lemma convertStockDate_nonempty s : s <> "" -> convertStockDate (Some s) <> "".
Proof.
  intros Hne. unfold convertStockDate. rewrite (truthy_Some s Hne).
  change (default "" (Some s)) with s. cbn [andb].
  destruct (includes s "/"); [|exact Hne].
  destruct (split "/" s) as [|p0 [|p1 [|p2 [|p3 rest]]]]; try exact Hne.
  apply append_nonempty.
Qed.

Lemma truthy_inv v : truthy v = true -> exists s, v = Some s /\ s <> "".
Proof.
  unfold truthy. destruct v as [s|]; [|discriminate].
  destruct (String.eqb_spec s ""); [discriminate|]. intros _. exists s. auto.
Qed.

(** The cases of the optional parameters. *)
Ltac cases filters :=
  unfold searchParams; cbv zeta;
  destruct (truthy (f_codSku filters)) eqn:E1;
    [apply truthy_inv in E1 as (s1 & -> & N1)|];
    (destruct (truthy (f_descricaoItem filters)) eqn:E2;
     [apply truthy_inv in E2 as (s2 & -> & N2)|]);
    (destruct (truthy (f_stockDate filters)) eqn:E3;
     [apply truthy_inv in E3 as (s3 & E3 & N3);
      pose proof (convertStockDate_nonempty s3 N3) as N3'; rewrite E3; clear E3|]);
    (destruct (truthy (f_ordering filters)) eqn:E4;
     [apply truthy_inv in E4 as (s4 & -> & N4)|]);
    destruct (f_showOnlyStockItems filters) as [b1|];
    destruct (f_showOnlyActiveItems filters) as [b2|];
    destruct (f_page_size filters) as [[|n]|];
    cbn [app head map fst default from_option id].

Lemma searchParams_head page filters :
  head (searchParams page filters) = Some ("page", pretty page).
Proof. cases filters; reflexivity. Qed.

Lemma searchParams_NoDup page filters : NoDup (map fst (searchParams page filters)).
Proof. cases filters; apply (bool_decide_unpack _); vm_compute; reflexivity. Qed.

Lemma searchParams_values page filters k v :
  In (k, v) (searchParams page filters) -> v <> "".
Proof.
  cases filters; intros Hin; cbn [In] in Hin;
    repeat match goal with
           | H : _ \/ _ |- _ => destruct H as [H | H]
           | H : False |- _ => destruct H
           | H : (_, _) = (_, _) |- _ => injection H as <- <-
           end;
    try assumption;
    try apply pretty_nat_nonempty;
    try (destruct b1; discriminate); try (destruct b2; discriminate).
Qed.

Lemma searchParams_switches page filters :
  (forall b, f_showOnlyStockItems filters = Some b ->
             In ("showOnlyStockItems", String_of_bool b) (searchParams page filters))
  /\ (forall b, f_showOnlyActiveItems filters = Some b ->
                In ("showOnlyActiveItems", String_of_bool b) (searchParams page filters)).
Proof.
  split; intros b Hb; unfold searchParams; cbv zeta; rewrite Hb; climb;
    apply in_or_app; right; left; reflexivity.
Qed.

(** X11: the query string of [getStockItems] starts with the page, names no
    parameter twice and carries no empty value; a switch that is off is
    sent as the text [false], not left out. *)
Theorem search_parameters page filters :
  head (searchParams page filters) = Some ("page", pretty page)
  /\ NoDup (map fst (searchParams page filters))
  /\ (forall k v, In (k, v) (searchParams page filters) -> v <> "")
  /\ (forall b, f_showOnlyStockItems filters = Some b ->
                In ("showOnlyStockItems", String_of_bool b) (searchParams page filters))
  /\ (forall b, f_showOnlyActiveItems filters = Some b ->
                In ("showOnlyActiveItems", String_of_bool b) (searchParams page filters)).
Proof.
  split; [apply searchParams_head|]. split; [apply searchParams_NoDup|].
  split; [apply searchParams_values | apply searchParams_switches].
Qed.

End StockServiceFacts.


Module EngineFacts.
Import Py Spec Effect Orm StockCostViewSet Valuation ValuationRun ValuationFacts Reads.
Import Examples MoreExamples.
#[local] Open Scope Q_scope.

Lemma pending_cached {A} (expected : A) qs :
  _result_cache qs = Some expected -> pending qs = [].
Proof. unfold pending. intros ->. reflexivity. Qed.

Lemma iterate_trace {A} db (expected : A) qs tr :
  always_up db -> fresh_or_cached expected qs ->
  exists qs',
    iterate db qs tr = (Returned (expected, qs'), tr ++ pending qs)
    /\ rows qs' = expected /\ _result_cache qs' = Some expected.
Proof.
  intros Hup [Hrows [Hc | Hc]]; unfold iterate, pending; rewrite Hc.
  - unfold mbind, M_bind. rewrite execute_up by assumption.
    rewrite Hrows. eexists. split; [reflexivity|]. split; reflexivity.
  - exists qs. rewrite app_nil_r. split; [reflexivity|]. split; assumption.
Qed.

Lemma loop_body_trace db d hs qe qs acc item tr :
  always_up db ->
  fresh_or_cached
    (values_annotate_Sum (List.filter (entradas__data_entrada__lte d) (transacoes db))) qe ->
  fresh_or_cached
    (values_annotate_Sum (List.filter (saidas__data_saida__lte d) (transacoes db))) qs ->
  exists qe' qs',
    loop_body db d hs (Locals qe qs acc) item tr
    = (Returned (Locals qe' qs'
                   (acc ++ (if listed db d hs item then [snapshot db d item] else []))),
       tr ++ (pending qe ++ pending qs)
          ++ (if listed db d hs item then item_reads (snapshot db d item) else []))
    /\ (fresh_or_cached
          (values_annotate_Sum (List.filter (entradas__data_entrada__lte d) (transacoes db))) qe'
        /\ pending qe' = [])
    /\ (fresh_or_cached
          (values_annotate_Sum (List.filter (saidas__data_saida__lte d) (transacoes db))) qs'
        /\ pending qs' = []).
Proof.
  intros Hup He Hs. unfold loop_body. cbn [entradas_transacoes saidas_transacoes result].
  destruct (iterate_trace db _ qe tr Hup He) as (qe' & E1 & He1 & He2).
  unfold mbind at 1, M_bind at 1. rewrite E1.
  destruct (iterate_trace db _ qs (tr ++ pending qe) Hup Hs) as (qs' & E2 & Hs1 & Hs2).
  unfold mbind at 1, M_bind at 1. rewrite E2.
  unfold listed, quantidade.
  assert (Hqe : fresh_or_cached
                  (values_annotate_Sum
                     (List.filter (entradas__data_entrada__lte d) (transacoes db))) qe'
                /\ pending qe' = []).
  { split; [split; [exact He1 | right; exact He2] | eapply pending_cached, He2]. }
  assert (Hqs : fresh_or_cached
                  (values_annotate_Sum
                     (List.filter (saidas__data_saida__lte d) (transacoes db))) qs'
                /\ pending qs' = []).
  { split; [split; [exact Hs1 | right; exact Hs2] | eapply pending_cached, Hs2]. }
  destruct (hs && Qle_bool _ 0) eqn:Ekeep.
  - simpl. rewrite !app_nil_r, <- app_assoc.
    exists qe', qs'. split; [reflexivity | split; assumption].
  - simpl negb. cbv iota.
    unfold mbind, M_bind. rewrite !execute_up by assumption.
    exists qe', qs'. split; [|split; assumption].
    unfold item_reads. cbn [sku snapshot]. rewrite <- !app_assoc. reflexivity.
Qed.

Lemma for_each_trace db d hs items qe qs acc tr :
  always_up db ->
  fresh_or_cached
    (values_annotate_Sum (List.filter (entradas__data_entrada__lte d) (transacoes db))) qe ->
  fresh_or_cached
    (values_annotate_Sum (List.filter (saidas__data_saida__lte d) (transacoes db))) qs ->
  exists qe' qs',
    for_each items (loop_body db d hs) (Locals qe qs acc) tr
    = (Returned (Locals qe' qs'
                   (acc ++ map (snapshot db d) (List.filter (listed db d hs) items))),
       tr ++ match items with [] => [] | _ :: _ => pending qe ++ pending qs end
          ++ flat_map item_reads
               (map (snapshot db d) (List.filter (listed db d hs) items))).
Proof.
  intros Hup. revert qe qs acc tr.
  induction items as [|item items IH]; intros qe qs acc tr He Hs.
  - simpl. rewrite !app_nil_r. eexists _, _. reflexivity.
  - cbn [for_each]. unfold mbind, M_bind.
    destruct (loop_body_trace db d hs qe qs acc item tr Hup He Hs)
      as (qe' & qs' & E & [He' Pe] & [Hs' Ps]).
    rewrite E.
    edestruct (IH qe' qs') as (qe2 & qs2 & E2); [exact He' | exact Hs' |].
    rewrite E2, Pe, Ps. exists qe2, qs2. f_equal.
    + f_equal. f_equal. cbn [List.filter].
      destruct (listed db d hs item); cbn [map]; rewrite <- app_assoc; reflexivity.
    + cbn [List.filter].
      assert (Hnil : match items with [] => [] | _ :: _ => @nil query ++ [] end = [])
        by (destruct items; reflexivity).
      rewrite Hnil. cbn [app].
      destruct (listed db d hs item); cbn [map flat_map];
        rewrite <- ?app_assoc, ?app_nil_r; reflexivity.
Qed.

(** The response and the reads of a request that the database answers. *)
Lemma list_trace db now query_params d :
  always_up db ->
  asOfDate now query_params = Some d ->
  run (list_ db now query_params)
  = (Returned (Response200 (List.length (results db d query_params))
                           (results db d query_params)),
     SelectItems :: grouped_reads (items_query db query_params)
       ++ flat_map item_reads (results db d query_params)).
Proof.
  intros Hup Hd. unfold run, list_. rewrite (asOfDate_inv _ _ _ Hd).
  unfold mbind at 1, M_bind at 1. rewrite execute_up by assumption.
  fold (items_query db query_params). fold (has_stock query_params).
  unfold mbind, M_bind.
  edestruct (for_each_trace db d (has_stock query_params) (items_query db query_params))
    as (qe' & qs' & E); [exact Hup | | | rewrite E].
  - split; [reflexivity | left; reflexivity].
  - split; [reflexivity | left; reflexivity].
  - cbn [result app]. unfold results, grouped_reads, pending. cbn.
    destruct (items_query db query_params); reflexivity.
Qed.

(** X12: the reads of a request: the registry once, the two grouped sums once
    when there is a candidate, and three reads for each snapshot
    returned, in the order of the snapshots. *)
Theorem reads_of_a_request db now query_params d :
  always_up db ->
  asOfDate now query_params = Some d ->
  exists count results,
    run (list_ db now query_params)
    = (Returned (Response200 count results),
       SelectItems :: grouped_reads (items_query db query_params)
         ++ flat_map item_reads results)
    /\ count = List.length results
    /\ (List.length (snd (run (list_ db now query_params))) <= 3 + 3 * count)%nat.
Proof.
  intros Hup Hd. rewrite (list_trace db now query_params d Hup Hd).
  eexists _, _. split; [reflexivity|]. split; [reflexivity|].
  cbn [snd List.length]. rewrite length_app.
  assert (Hg : (List.length (grouped_reads (items_query db query_params)) <= 2)%nat).
  { unfold grouped_reads. destruct (items_query db query_params); simpl; lia. }
  assert (Hf : forall l, List.length (flat_map item_reads l) = (3 * List.length l)%nat).
  { induction l as [|x l IH]; simpl in *; [reflexivity | rewrite IH; lia]. }
  rewrite Hf. lia.
Qed.


Lemma reads_of_a_request_witness :
  exists count results,
    run (list_ db (jan 20) (with_stock "2024-01-20"))
    = (Returned (Response200 count results),
       SelectItems :: grouped_reads (items_query db (with_stock "2024-01-20"))
         ++ flat_map item_reads results)
    /\ count = List.length results
    /\ (List.length (snd (run (list_ db (jan 20) (with_stock "2024-01-20"))))
        <= 3 + 3 * count)%nat.
Proof.
  apply (reads_of_a_request db (jan 20) (with_stock "2024-01-20") (jan 20)).
  - intros n. reflexivity.
  - reflexivity.
Defined.

Lemma List_filter_sublist {A} (p : A -> bool) l : sublist (List.filter p l) l.
Proof.
  induction l as [|x l IH]; simpl; [constructor|].
  destruct (p x); [apply sublist_skip | apply sublist_cons]; exact IH.
Qed.

Lemma items_query_sublist db query_params :
  sublist (items_query db query_params) (items db).
Proof.
  unfold items_query. cbv zeta.
  repeat match goal with
         | |- sublist (if ?c then _ else _) _ => destruct c
         | |- sublist (List.filter _ _) _ =>
             etransitivity; [apply List_filter_sublist|]
         end; reflexivity.
Qed.

Lemma describes_map_snapshot db d l : Forall2 describes (map (snapshot db d) l) l.
Proof.
  induction l as [|item l IH]; cbn [map]; constructor; [|exact IH].
  destruct item. reflexivity.
Qed.

(** X14: the snapshots follow the order of the registry: they describe, one
    by one, a subsequence of its items, and [count] is their number. *)
Theorem results_in_registry_order db now query_params d :
  always_up db ->
  asOfDate now query_params = Some d ->
  exists count results tr,
    run (list_ db now query_params) = (Returned (Response200 count results), tr)
    /\ count = List.length results
    /\ (count <= List.length (items db))%nat
    /\ exists kept,
        sublist kept (items db) /\ Forall2 describes results kept.
Proof.
  intros Hup Hd. eexists _, _, _. split; [exact (list_trace db now query_params d Hup Hd)|].
  split; [reflexivity|].
  assert (Hsub : sublist (List.filter (listed db d (has_stock query_params))
                                      (items_query db query_params)) (items db)).
  { etransitivity; [apply List_filter_sublist | apply items_query_sublist]. }
  split.
  - unfold results. rewrite length_map. apply sublist_length, Hsub.
  - eexists. split; [exact Hsub|]. apply describes_map_snapshot.
Qed.

Lemma results_in_registry_order_witness :
  exists count results tr,
    run (list_ db (jan 20) (with_stock "2024-01-20"))
    = (Returned (Response200 count results), tr)
    /\ count = List.length results
    /\ (count <= List.length (items db))%nat
    /\ exists kept,
        sublist kept (items db) /\ Forall2 describes results kept.
Proof.
  apply (results_in_registry_order db (jan 20) (with_stock "2024-01-20") (jan 20)).
  - intros n. reflexivity.
  - reflexivity.
Defined.

Lemma filter_through {A} (p q : A -> bool) l :
  (forall x, p x = true -> q x = true) ->
  List.filter p l = List.filter p (List.filter q l).
Proof.
  intros H. induction l as [|x l IH]; simpl; [reflexivity|].
  destruct (p x) eqn:Ep.
  - rewrite (H x Ep). simpl. rewrite Ep, IH. reflexivity.
  - destruct (q x); simpl; [rewrite Ep|]; exact IH.
Qed.

Lemma filter_none {A} (p : A -> bool) l :
  (forall x, In x l -> p x = false) -> List.filter p l = [].
Proof.
  induction l as [|x l IH]; intros H; simpl; [reflexivity|].
  rewrite (H x) by (left; reflexivity). apply IH. intros y Hy. apply H. right. exact Hy.
Qed.

Lemma entrada_dated d t :
  entradas__data_entrada__lte d t = true -> dated_on_or_before d t = true.
Proof.
  unfold entradas__data_entrada__lte, dated_on_or_before.
  destruct (Transacao.mov t); [auto | discriminate].
Qed.

Lemma saida_dated d t :
  saidas__data_saida__lte d t = true -> dated_on_or_before d t = true.
Proof.
  unfold saidas__data_saida__lte, dated_on_or_before.
  destruct (Transacao.mov t); [discriminate | auto].
Qed.

Section SameHistory.
Variables (db1 db2 : database) (d : date).
Hypothesis registry : items db1 = items db2.
Hypothesis history :
  List.filter (dated_on_or_before d) (transacoes db1)
  = List.filter (dated_on_or_before d) (transacoes db2).

Lemma same_filter (p : Transacao.t -> bool) :
  (forall t, p t = true -> dated_on_or_before d t = true) ->
  List.filter p (transacoes db1) = List.filter p (transacoes db2).
Proof.
  intros H.
  rewrite (filter_through p (dated_on_or_before d) (transacoes db1) H).
  rewrite (filter_through p (dated_on_or_before d) (transacoes db2) H).
  rewrite history. reflexivity.
Qed.

Lemma same_entradas sku : entradas db1 d sku = entradas db2 d sku.
Proof.
  unfold entradas. apply same_filter.
  intros t H. apply andb_true_iff in H as [_ H]. apply entrada_dated, H.
Qed.

Lemma same_saidas sku : saidas db1 d sku = saidas db2 d sku.
Proof.
  unfold saidas. apply same_filter.
  intros t H. apply andb_true_iff in H as [_ H]. apply saida_dated, H.
Qed.

Lemma same_snapshot item : snapshot db1 d item = snapshot db2 d item.
Proof.
  unfold snapshot, custo_medio, estoque_atual, valor_estoque_atual.
  rewrite !same_entradas, !same_saidas. reflexivity.
Qed.

Lemma same_listed hs item : listed db1 d hs item = listed db2 d hs item.
Proof.
  unfold listed, quantidade.
  rewrite (same_filter (entradas__data_entrada__lte d) (entrada_dated d)).
  rewrite (same_filter (saidas__data_saida__lte d) (saida_dated d)).
  reflexivity.
Qed.

Lemma same_items_query query_params :
  items_query db1 query_params = items_query db2 query_params.
Proof. unfold items_query. rewrite registry. reflexivity. Qed.

Lemma same_results query_params :
  results db1 d query_params = results db2 d query_params.
Proof.
  unfold results. rewrite same_items_query.
  induction (items_query db2 query_params) as [|item l IH]; [reflexivity|].
  cbn [List.filter]. rewrite same_listed.
  destruct (listed db2 d _ item); cbn [map]; rewrite ?same_snapshot, IH; reflexivity.
Qed.
End SameHistory.

(** X15: a valuation is a point in time: two databases with the same registry
    and the same transactions dated on or before the reference date give
    the same response and the same reads, whatever was recorded with a
    later date. *)
Theorem later_transactions_ignored db1 db2 now query_params d :
  always_up db1 -> always_up db2 ->
  asOfDate now query_params = Some d ->
  items db1 = items db2 ->
  List.filter (dated_on_or_before d) (transacoes db1)
  = List.filter (dated_on_or_before d) (transacoes db2) ->
  run (list_ db1 now query_params) = run (list_ db2 now query_params).
Proof.
  intros Hup1 Hup2 Hd Hitems Hhist.
  rewrite (list_trace db1 now query_params d Hup1 Hd).
  rewrite (list_trace db2 now query_params d Hup2 Hd).
  rewrite (same_results db1 db2 d Hitems Hhist), (same_items_query db1 db2 Hitems).
  reflexivity.
Qed.

Lemma later_transactions_ignored_witness :
  run (list_ db (jan 20) (as_of "2024-01-20"))
  = run (list_ db_later (jan 20) (as_of "2024-01-20")).
Proof.
  apply (later_transactions_ignored db db_later (jan 20) (as_of "2024-01-20") (jan 20)).
  - intros n. reflexivity.
  - intros n. reflexivity.
  - reflexivity.
  - reflexivity.
  - reflexivity.
Defined.

(** X16: an item of the registry without a transaction dated on or before the
    reference date is listed with quantity, average cost and total cost
    0 and without a last entry cost, and is left out under [hasStock]. *)
Theorem item_without_transactions db now query_params d item :
  always_up db ->
  asOfDate now query_params = Some d ->
  In item (items db) ->
  candidate query_params item ->
  (forall t, In t (transacoes db) ->
             Transacao.cod_sku t = Item.cod_sku item ->
             dated_on_or_before d t = false) ->
  exists count results tr,
    run (list_ db now query_params) = (Returned (Response200 count results), tr)
    /\ (flag query_params "hasStock" = false ->
        In (ItemData (Item.cod_sku item) (Item.descricao_item item) 0
                     (Item.unid_medida item) 0 0 (Item.active item) None) results)
    /\ (flag query_params "hasStock" = true ->
        ~ exists s, In s results /\ describes s item).
Proof.
  intros Hup Hd Hin Hc Hnone.
  eexists _, _, _. split; [exact (list_trace db now query_params d Hup Hd)|].
  assert (He : entradas db d (Item.cod_sku item) = []).
  { unfold entradas. apply filter_none. intros t Ht.
    destruct (String.eqb_spec (Transacao.cod_sku t) (Item.cod_sku item)) as [E|]; [|reflexivity].
    destruct (entradas__data_entrada__lte d t) eqn:El; [|reflexivity].
    pose proof (Hnone t Ht E) as Hn. rewrite (entrada_dated d t El) in Hn. discriminate Hn. }
  assert (Hs : saidas db d (Item.cod_sku item) = []).
  { unfold saidas. apply filter_none. intros t Ht.
    destruct (String.eqb_spec (Transacao.cod_sku t) (Item.cod_sku item)) as [E|]; [|reflexivity].
    destruct (saidas__data_saida__lte d t) eqn:El; [|reflexivity].
    pose proof (Hnone t Ht E) as Hn. rewrite (saida_dated d t El) in Hn. discriminate Hn. }
  assert (Hsnap : snapshot db d item
                  = ItemData (Item.cod_sku item) (Item.descricao_item item) 0
                             (Item.unid_medida item) 0 0 (Item.active item) None).
  { unfold snapshot, custo_medio, estoque_atual, valor_estoque_atual.
    rewrite He, Hs. reflexivity. }
  split.
  - intros Hflag. rewrite <- Hsnap. apply In_results. exists item.
    split; [reflexivity|]. split; [exact Hin|]. split; [exact Hc | congruence].
  - intros Hflag Hex.
    apply (Claims.listed_candidates db d query_params item Hin) in Hex as [_ Hq].
    specialize (Hq Hflag). rewrite <- estoque_atual_spec in Hq.
    unfold estoque_atual in Hq. rewrite He, Hs in Hq. discriminate Hq.
Qed.

Lemma item_without_transactions_witness :
  exists count results tr,
    run (list_ db (jan 2) (as_of "2024-01-02")) = (Returned (Response200 count results), tr)
    /\ (flag (as_of "2024-01-02") "hasStock" = false ->
        In (ItemData (Item.cod_sku B002) (Item.descricao_item B002) 0
                     (Item.unid_medida B002) 0 0 (Item.active B002) None) results)
    /\ (flag (as_of "2024-01-02") "hasStock" = true ->
        ~ exists s, In s results /\ describes s B002).
Proof.
  apply (item_without_transactions db (jan 2) (as_of "2024-01-02") (jan 2) B002).
  - intros n. reflexivity.
  - reflexivity.
  - right. left. reflexivity.
  - split; [apply contains_empty|]. split; [apply contains_empty | discriminate].
  - intros t [<- | [<- | [<- | [<- | []]]]]; intros H; try discriminate H; reflexivity.
Defined.

(** X17: [hasStock] and [active] are switched on by the exact text [true]
    only: a request with any other value of one of them is answered as
    the request without that parameter. *)
Theorem flags_need_exact_text db now (query_params : gmap string string) key v :
  key = "hasStock" \/ key = "active" ->
  v <> "true" ->
  forall tr,
    list_ db now (<[key := v]> query_params) tr
    = list_ db now (delete key query_params) tr.
Proof.
  intros Hkey Hv tr.
  assert (Hoff : String.eqb v "true" = false)
    by (destruct (String.eqb_spec v "true"); [contradiction | reflexivity]).
  unfold list_.
  destruct Hkey as [-> | ->];
    rewrite !lookup_insert_eq, !lookup_delete_eq;
    rewrite !lookup_insert_ne, !lookup_delete_ne by discriminate;
    cbn [default from_option id]; rewrite Hoff; reflexivity.
Qed.

Lemma flags_need_exact_text_witness :
  run (list_ db (jan 20) (<["hasStock" := "1"]> (as_of "2024-01-20")))
  = run (list_ db (jan 20) (delete "hasStock" (as_of "2024-01-20"))).
Proof.
  apply (flags_need_exact_text db (jan 20) (as_of "2024-01-20") "hasStock" "1").
  - left. reflexivity.
  - discriminate.
Defined.

End EngineFacts.


Module TransactionFormFacts.
Import Effect Http UseTable UseTransactionForm TransactionForm MoreExamples.
#[local] Open Scope Q_scope.

Lemma getAverageCost_run srv sku tr :
  let first := ApiGet ("/api/v1/itens/" +:+ sku +:+ "/custo-medio/") [] in
  getAverageCost srv sku tr
  = match custo_medio srv sku (List.length tr) with
    | Returned (Some (Some c)) => (Returned c, tr ++ [first])
    | _ =>
        (Returned match stock_costs srv None sku (S (List.length tr)) with
                  | Returned (r :: _) => Http.unitCost r
                  | _ => 0
                  end,
         tr ++ [first; GetStockCosts None sku])
    end.
Proof.
  cbv zeta. unfold getAverageCost, try_catch, mbind, M_bind, perform, mret, M_ret.
  assert (Hlen : List.length
                   (tr ++ [ApiGet ("/api/v1/itens/" +:+ sku +:+ "/custo-medio/") []])
                 = S (List.length tr)) by (rewrite length_app; simpl; lia).
  destruct (custo_medio srv sku (List.length tr)) as [[[c|]|]|e];
    try reflexivity; rewrite Hlen, <- app_assoc; cbn [app];
    destruct (stock_costs srv None sku (S (List.length tr))) as [[|r rest]|e'];
    reflexivity.
Qed.

(** X18: [getAverageCost] always returns a number: it sends one request when
    the item endpoint answers with [custoMedio], and a second one to the
    costs listing otherwise; it returns 0 when that one fails or lists
    nothing. *)
Theorem average_cost_always_returns srv sku tr :
  let first := ApiGet ("/api/v1/itens/" +:+ sku +:+ "/custo-medio/") [] in
  let second := GetStockCosts None sku in
  exists cost new,
    getAverageCost srv sku tr = (Returned cost, tr ++ new)
    /\ (new = [first] \/ new = [first; second])
    /\ (forall c, custo_medio srv sku (List.length tr) = Returned (Some (Some c)) ->
                  cost = c /\ new = [first])
    /\ ((forall c, custo_medio srv sku (List.length tr) <> Returned (Some (Some c))) ->
        new = [first; second]
        /\ (forall r rest,
               stock_costs srv None sku (S (List.length tr)) = Returned (r :: rest) ->
               cost = Http.unitCost r)
        /\ ((forall r rest,
                stock_costs srv None sku (S (List.length tr)) <> Returned (r :: rest)) ->
            cost = 0)).
Proof.
  cbv zeta. rewrite getAverageCost_run. cbv zeta.
  destruct (custo_medio srv sku (List.length tr)) as [[[c|]|]|e] eqn:E.
  - exists c, [ApiGet ("/api/v1/itens/" +:+ sku +:+ "/custo-medio/") []].
    split; [reflexivity|]. split; [left; reflexivity|]. split.
    + intros c' H. injection H as <-. split; reflexivity.
    + intros H. destruct (H c eq_refl).
  - eexists _, _. split; [reflexivity|]. split; [right; reflexivity|]. split.
    + intros c' H. discriminate H.
    + intros _. split; [reflexivity|]. split.
      * intros r rest ->. reflexivity.
      * intros H. destruct (stock_costs srv None sku _) as [[|r rest]|e'];
          [reflexivity | destruct (H r rest eq_refl) | reflexivity].
  - eexists _, _. split; [reflexivity|]. split; [right; reflexivity|]. split.
    + intros c' H. discriminate H.
    + intros _. split; [reflexivity|]. split.
      * intros r rest ->. reflexivity.
      * intros H. destruct (stock_costs srv None sku _) as [[|r rest]|e'];
          [reflexivity | destruct (H r rest eq_refl) | reflexivity].
  - eexists _, _. split; [reflexivity|]. split; [right; reflexivity|]. split.
    + intros c' H. discriminate H.
    + intros _. split; [reflexivity|]. split.
      * intros r rest ->. reflexivity.
      * intros H. destruct (stock_costs srv None sku _) as [[|r rest]|e'];
          [reflexivity | destruct (H r rest eq_refl) | reflexivity].
Qed.

Lemma getLastEntryCost_run srv today sku tr :
  getLastEntryCost srv today sku tr
  = (Returned match stock_costs srv (Some today) sku (List.length tr) with
              | Returned (r :: _) => lastEntryCost r
              | _ => Some 0
              end,
     tr ++ [GetStockCosts (Some today) sku]).
Proof.
  unfold getLastEntryCost, try_catch, mbind, M_bind, perform, mret, M_ret.
  destruct (stock_costs srv (Some today) sku (List.length tr)) as [[|r rest]|e];
    reflexivity.
Qed.

(** X19: [getLastEntryCost] sends exactly one request, dated today, and always
    returns: the [lastEntryCost] of the first row, [null] included, and 0
    when the request fails or lists nothing. *)
Theorem last_entry_cost_always_returns srv today sku tr :
  exists cost,
    getLastEntryCost srv today sku tr
    = (Returned cost, tr ++ [GetStockCosts (Some today) sku])
    /\ (forall r rest,
           stock_costs srv (Some today) sku (List.length tr) = Returned (r :: rest) ->
           cost = lastEntryCost r)
    /\ ((forall r rest,
            stock_costs srv (Some today) sku (List.length tr) <> Returned (r :: rest)) ->
        cost = Some 0).
Proof.
  rewrite getLastEntryCost_run. eexists. split; [reflexivity|]. split.
  - intros r rest ->. reflexivity.
  - intros H. destruct (stock_costs srv (Some today) sku _) as [[|r rest]|e];
      [reflexivity | destruct (H r rest eq_refl) | reflexivity].
Qed.

Lemma set_unitCost_same form value :
  set_unitCost (set_unitCost form value) (TransactionForm.unitCost form) = form.
Proof. destruct form. reflexivity. Qed.

Lemma set_unitCost_id form : set_unitCost form (TransactionForm.unitCost form) = form.
Proof. destruct form. reflexivity. Qed.

Lemma positive_spec cost : positive cost = true <-> exists c, cost = Some c /\ 0 < c.
Proof.
  unfold positive. destruct cost as [c|].
  - rewrite negb_true_iff. split.
    + intros H. exists c. split; [reflexivity|].
      apply Qnot_le_lt. intros Hle. apply Qle_bool_iff in Hle. congruence.
    + intros (c' & [= <-] & Hpos). destruct (Qle_bool c 0) eqn:E; [|reflexivity].
      apply Qle_bool_iff in E. exfalso. eapply Qlt_not_le; eassumption.
  - split; [discriminate | intros (c & H & _); discriminate H].
Qed.

(** X20: [updateCostForProduct] never fails and changes at most [unitCost].
    Without a SKU or in edit mode it sends nothing and changes nothing.
    For an exit it stores what [getAverageCost] returned, after the
    requests of that call.  For an entry it sends the one request of
    [getLastEntryCost] and stores what that call returned when it is a
    number greater than 0; for 0, a negative number or [null] it leaves
    the form as it was. *)
Theorem update_cost_for_product srv today isEditMode form tr :
  exists form' new,
    updateCostForProduct srv today isEditMode form tr = (Returned form', tr ++ new)
    /\ set_unitCost form' (TransactionForm.unitCost form) = form
    /\ (sku form = "" \/ isEditMode = true -> form' = form /\ new = [])
    /\ (sku form <> "" -> isEditMode = false ->
        if ensureBooleanValue (isEntry form)
        then exists cost,
            getLastEntryCost srv today (sku form) tr = (Returned cost, tr ++ new)
            /\ new = [GetStockCosts (Some today) (sku form)]
            /\ ((exists c, cost = Some c /\ 0 < c) -> form' = set_unitCost form cost)
            /\ (~ (exists c, cost = Some c /\ 0 < c) -> form' = form)
        else exists cost,
            getAverageCost srv (sku form) tr = (Returned cost, tr ++ new)
            /\ form' = set_unitCost form (Some cost)).
Proof.
  unfold updateCostForProduct.
  destruct (String.eqb_spec (sku form) "") as [Hsku | Hsku]; cbn [orb].
  { exists form, []. rewrite app_nil_r. split; [reflexivity|].
    split; [apply set_unitCost_id|]. split; [auto | contradiction]. }
  destruct isEditMode.
  { exists form, []. rewrite app_nil_r. split; [reflexivity|].
    split; [apply set_unitCost_id|]. split; [auto | discriminate]. }
  destruct (ensureBooleanValue (isEntry form)); cbn [negb].
  - unfold mbind, M_bind. rewrite getLastEntryCost_run.
    destruct (positive _) eqn:Epos.
    + eexists _, _. split; [reflexivity|]. split; [apply set_unitCost_same|].
      split; [intros [H | H]; [contradiction | discriminate]|].
      intros _ _. eexists. split; [reflexivity|]. split; [reflexivity|].
      split; [reflexivity|].
      intros Hno. destruct Hno. apply positive_spec, Epos.
    + eexists _, _. split; [reflexivity|]. split; [apply set_unitCost_id|].
      split; [intros [H | H]; [contradiction | discriminate]|].
      intros _ _. eexists. split; [reflexivity|]. split; [reflexivity|].
      split; [|reflexivity].
      intros Hpos. apply positive_spec in Hpos. congruence.
  - unfold mbind, M_bind. rewrite getAverageCost_run. cbv zeta.
    destruct (custo_medio srv (sku form) (List.length tr)) as [[[c|]|]|e];
      (eexists _, _; split; [reflexivity|]; split; [apply set_unitCost_same|];
       split; [intros [H | H]; [contradiction | discriminate]|];
       intros _ _; eexists; split; reflexivity).
Qed.

(** X21: the two buttons of the form: with a SKU, [updateUnitCostForOutput]
    stores the average cost and [suggestLastCost] stores what
    [getLastEntryCost] returned, a [null] included; without a SKU they
    send nothing and change nothing.  Neither fails and neither changes
    another field. *)
Theorem cost_buttons srv today form tr :
  (exists form' new,
      updateUnitCostForOutput srv form tr = (Returned form', tr ++ new)
      /\ set_unitCost form' (TransactionForm.unitCost form) = form
      /\ (sku form = "" -> form' = form /\ new = [])
      /\ (sku form <> "" ->
          exists c, getAverageCost srv (sku form) tr = (Returned c, tr ++ new)
                    /\ form' = set_unitCost form (Some c)))
  /\ (exists form',
         suggestLastCost srv today form tr
         = (Returned form',
            tr ++ if String.eqb (sku form) "" then []
                  else [GetStockCosts (Some today) (sku form)])
         /\ set_unitCost form' (TransactionForm.unitCost form) = form
         /\ (sku form = "" -> form' = form)
         /\ (sku form <> "" ->
             forall r rest,
               stock_costs srv (Some today) (sku form) (List.length tr)
               = Returned (r :: rest) ->
               TransactionForm.unitCost form' = lastEntryCost r)).
Proof.
  unfold updateUnitCostForOutput, suggestLastCost.
  destruct (String.eqb_spec (sku form) "") as [Hsku | Hsku]; cbn [negb]; split.
  - exists form, []. rewrite app_nil_r. split; [reflexivity|].
    split; [apply set_unitCost_id|]. split; [auto | contradiction].
  - exists form. rewrite app_nil_r. split; [reflexivity|].
    split; [apply set_unitCost_id|]. split; [auto | contradiction].
  - unfold mbind, M_bind. rewrite getAverageCost_run. cbv zeta.
    destruct (custo_medio srv (sku form) (List.length tr)) as [[[c|]|]|e];
      (eexists _, _; split; [reflexivity|]; split; [apply set_unitCost_same|];
       split; [contradiction|]; intros _; eexists; split; reflexivity).
  - unfold mbind, M_bind. rewrite getLastEntryCost_run.
    eexists. split; [reflexivity|]. split; [apply set_unitCost_same|].
    split; [contradiction|]. intros _ r rest ->. reflexivity.
Qed.

(** A costs listing whose row carries no last entry cost: the suggestion
    of [updateCostForProduct] keeps the cost typed in, the button of
    [suggestLastCost] replaces it by [null]. *)
Example entry_without_last_cost :
  fst (run (updateCostForProduct fallback "2024-01-20" false entry_form))
  = Returned entry_form
  /\ fst (run (suggestLastCost fallback "2024-01-20" entry_form))
     = Returned (set_unitCost entry_form None).
Proof. split; reflexivity. Qed.

Lemma lower_char_idempotent c : Js.lower_char (Js.lower_char c) = Js.lower_char c.
Proof. destruct c as [[] [] [] [] [] [] [] []]; reflexivity. Qed.

Lemma toLowerCase_idempotent s : Js.toLowerCase (Js.toLowerCase s) = Js.toLowerCase s.
Proof.
  induction s as [|c s IH]; [reflexivity|].
  cbn [Js.toLowerCase]. rewrite lower_char_idempotent, IH. reflexivity.
Qed.

(** X22: on a text, [ensureBooleanValue] ignores the letter case and answers
    true exactly for the text [true] and for the texts that contain
    [entrada]: the comparison with [entrada] adds nothing to the test
    [includes]. *)
Theorem ensureBooleanValue_text s :
  (ensureBooleanValue (JString s) = true
   <-> Js.toLowerCase s = "true" \/ Spec.occurs_in "entrada" (Js.toLowerCase s))
  /\ ensureBooleanValue (JString (Js.toLowerCase s)) = ensureBooleanValue (JString s).
Proof.
  split.
  - unfold ensureBooleanValue. cbv zeta.
    rewrite !orb_true_iff, String.eqb_eq, String.eqb_eq, JsFacts.includes_spec.
    split.
    + intros [[H | H] | H]; [left; exact H | right | right; exact H].
      rewrite H. exists "", "". reflexivity.
    + intros [H | H]; [left; left; exact H | right; exact H].
  - unfold ensureBooleanValue. rewrite toLowerCase_idempotent. reflexivity.
Qed.

End TransactionFormFacts.


Module TableFacts.
Import Js UseTable UseTableSort TableOrder Examples MoreExamples.
Import AsciiText SortedTable CaseFacts.

(** *** The order of texts *)

Lemma ascii_compare_N a b : Ascii.compare a b = N.compare (N_of_ascii a) (N_of_ascii b).
Proof. reflexivity. Qed.

Lemma ascii_compare_eq a b : Ascii.compare a b = Eq -> a = b.
Proof. apply Ascii.compare_eq_iff. Qed.

Lemma ascii_compare_refl a : Ascii.compare a a = Eq.
Proof. rewrite ascii_compare_N. apply N.compare_refl. Qed.

Lemma string_compare_refl s : String.compare s s = Eq.
Proof.
  induction s as [|c s IH]; [reflexivity|].
  cbn [String.compare]. rewrite ascii_compare_refl. exact IH.
Qed.

Lemma ltb_irrefl s : String.ltb s s = false.
Proof. unfold String.ltb. rewrite string_compare_refl. reflexivity. Qed.

Lemma ltb_asym a b : String.ltb a b = true -> String.ltb b a = false.
Proof.
  unfold String.ltb. rewrite (String.compare_antisym b a).
  destruct (String.compare a b); simpl; congruence.
Qed.

(** [a <= b] and [b <= c] give [a <= c], where [x <= y] is [not (y < x)]. *)
Lemma not_lt_trans a b c :
  String.ltb b a = false -> String.ltb c b = false -> String.ltb c a = false.
Proof.
  unfold String.ltb.
  rewrite (String.compare_antisym b a), (String.compare_antisym c b),
    (String.compare_antisym c a).
  revert b c. induction a as [|x a IH]; intros [|y b] [|z c]; cbn [String.compare CompOpp];
    try congruence.
  rewrite !ascii_compare_N.
  destruct (N.compare_spec (N_of_ascii x) (N_of_ascii y)) as [Exy | Lxy | Gxy];
    destruct (N.compare_spec (N_of_ascii y) (N_of_ascii z)) as [Eyz | Lyz | Gyz];
    cbn [CompOpp]; try congruence.
  - rewrite Exy, Eyz, N.compare_refl. apply IH.
  - rewrite Exy. intros _ _. rewrite (proj2 (N.compare_lt_iff _ _) Lyz). reflexivity.
  - rewrite <- Eyz. intros _ _. rewrite (proj2 (N.compare_lt_iff _ _) Lxy). reflexivity.
  - intros _ _.
    rewrite (proj2 (N.compare_lt_iff _ _) (N.lt_trans _ _ _ Lxy Lyz)). reflexivity.
Qed.

(** *** Sorting *)

Section Sort.
Context {A : Type} (compare : A -> A -> Z).

Lemma sort_insert_Permutation x l : Permutation (sort_insert compare x l) (x :: l).
Proof.
  induction l as [|y l IH]; cbn [sort_insert]; [reflexivity|].
  destruct (compare x y <=? 0)%Z; [reflexivity|].
  rewrite IH. apply perm_swap.
Qed.

Lemma sort_Permutation l : Permutation (sort compare l) l.
Proof.
  induction l as [|x l IH]; [reflexivity|].
  cbn [sort foldr]. fold (sort compare l). rewrite sort_insert_Permutation, IH. reflexivity.
Qed.

Variable R : A -> A -> Prop.
Hypothesis R_compare : forall a b, (compare a b <= 0)%Z <-> R a b.
Hypothesis R_total : forall a b, R a b \/ R b a.
Hypothesis R_trans : forall a b c, R a b -> R b c -> R a c.

Lemma sort_insert_sorted x l :
  StronglySorted R l -> StronglySorted R (sort_insert compare x l).
Proof.
  induction 1 as [|y l Hl IH Hy]; cbn [sort_insert].
  - constructor; constructor.
  - destruct (Z.leb_spec (compare x y) 0) as [Hle | Hgt].
    + apply R_compare in Hle. constructor; [constructor; assumption|].
      constructor; [exact Hle|].
      eapply Forall_impl; [exact Hy|]. intros z Hz. eapply R_trans; eassumption.
    + assert (Hyx : R y x).
      { destruct (R_total x y) as [H | H]; [apply R_compare in H; lia | exact H]. }
      constructor; [exact IH|].
      eapply Permutation_Forall; [symmetry; apply sort_insert_Permutation|].
      constructor; assumption.
Qed.

Lemma sort_sorted l : StronglySorted R (sort compare l).
Proof.
  induction l as [|x l IH]; [constructor|].
  cbn [sort foldr]. apply sort_insert_sorted, IH.
Qed.
End Sort.

Lemma compareValues_in_order order k a b :
  (compareValues (prop a k) (prop b k) order <= 0)%Z <-> in_order order k a b.
Proof.
  unfold compareValues, in_order. cbv zeta.
  destruct (String.ltb (normalize (prop a k)) (normalize (prop b k))) eqn:Eab.
  - pose proof (ltb_asym _ _ Eab) as Eba. destruct order; [|split; [lia | discriminate]].
    split; [intros _; exact Eba | lia].
  - destruct (String.ltb (normalize (prop b k)) (normalize (prop a k))) eqn:Eba;
      destruct order; split; try lia; try discriminate; reflexivity.
Qed.

Lemma in_order_total order k a b : in_order order k a b \/ in_order order k b a.
Proof.
  unfold in_order.
  destruct (String.ltb (normalize (prop a k)) (normalize (prop b k))) eqn:Eab.
  - pose proof (ltb_asym _ _ Eab). destruct order; auto.
  - destruct order; auto.
Qed.

Lemma in_order_trans order k a b c :
  in_order order k a b -> in_order order k b c -> in_order order k a c.
Proof.
  unfold in_order. destruct order; intros H1 H2.
  - eapply not_lt_trans; eassumption.
  - eapply not_lt_trans; eassumption.
Qed.

Lemma applySort_permutation st columns data :
  Permutation (applySort st columns data) data.
Proof.
  unfold applySort.
  destruct (sortKey st) as [k|]; [|reflexivity].
  destruct (String.eqb k ""); [reflexivity|].
  destruct (find_column columns k) as [column|]; [|reflexivity].
  destruct (default false (sortable column)); [|reflexivity].
  apply sort_Permutation.
Qed.

(** X23: [applySort] rearranges its rows, it neither adds nor drops one; and
    it returns them as they are when no key is set, when the key names
    no column, or when the column is not sortable. *)
Theorem applySort_rearranges st columns data :
  Permutation (applySort st columns data) data
  /\ (sortKey st = None \/ sortKey st = Some "" -> applySort st columns data = data)
  /\ (forall k, sortKey st = Some k ->
                match find_column columns k with
                | Some column => sortable column <> Some true
                | None => True
                end ->
                applySort st columns data = data).
Proof.
  split; [|split].
  - apply applySort_permutation.
  - unfold applySort. intros [-> | ->]; reflexivity.
  - unfold applySort. intros k -> Hcol.
    destruct (String.eqb k ""); [reflexivity|].
    destruct (find_column columns k) as [column|]; [|reflexivity].
    destruct (sortable column) as [[|]|]; [contradiction Hcol| |]; reflexivity.
Qed.

(** *** The order of the dictionary *)

Lemma compare_lower_char x y :
  Ascii.compare (lower_char x) (lower_char y)
  = Nat.compare (letter_code x) (letter_code y).
Proof.
  rewrite <- !nat_of_lower_char. unfold Ascii.compare, nat_of_ascii.
  apply N2Nat.inj_compare.
Qed.

Lemma compare_toLowerCase x y :
  String.compare (toLowerCase x) (toLowerCase y) <> Gt <-> text_le x y.
Proof.
  revert y. induction x as [|c x IH]; intros [|e y]; cbn [toLowerCase String.compare].
  - split; [constructor | discriminate].
  - split; [constructor | discriminate].
  - split; [congruence | inversion 1].
  - rewrite compare_lower_char.
    destruct (Nat.compare_spec (letter_code c) (letter_code e)) as [E | L | G].
    + rewrite IH. split; [apply le_rest, E|].
      inversion 1; subst; [lia | assumption].
    + split; [intros _; apply le_first, L | discriminate].
    + split; [congruence|]. inversion 1; subst; lia.
Qed.

Lemma ltb_toLowerCase x y :
  String.ltb (toLowerCase y) (toLowerCase x) = false <-> text_le x y.
Proof.
  rewrite <- compare_toLowerCase. unfold String.ltb.
  rewrite (String.compare_antisym (toLowerCase y) (toLowerCase x)).
  destruct (String.compare (toLowerCase x) (toLowerCase y)); cbn [CompOpp];
    split; congruence.
Qed.

Lemma normalize_shown v : normalize v = toLowerCase (shown v).
Proof. destruct v; reflexivity. Qed.

Lemma in_order_may_precede order k a b :
  in_order order k a b <-> may_precede order k a b.
Proof.
  unfold in_order, may_precede. rewrite !normalize_shown.
  destruct order; apply ltb_toLowerCase.
Qed.

Lemma StronglySorted_iff {A} (R R' : A -> A -> Prop) l :
  (forall a b, R a b <-> R' a b) -> StronglySorted R l -> StronglySorted R' l.
Proof.
  intros H. induction 1 as [|a l _ IH Ha]; constructor; [exact IH|].
  eapply Forall_impl; [exact Ha|]. intros b. apply H.
Qed.



(** The rows of the example, sorted by SKU in descending order. *)
Example sorted_by_sku :
  map (fun row => prop row "codSku") (applySort by_sku [sku_column] table_rows)
  = [JString "B002"; JString "A001"].
Proof. vm_compute. reflexivity. Qed.

(** Capital letters sort with the small ones: [banana] stands between
    [Abacaxi] and [Caju], where the order of the character codes alone
    would put it last. *)
Example capitals_sort_with_small_letters :
  map (fun row => prop row "codSku")
      (applySort (MkState (Some "codSku") asc ∅) [sku_column]
                 [ {[ "codSku" := JString "Caju" ]};
                   {[ "codSku" := JString "banana" ]};
                   {[ "codSku" := JString "Abacaxi" ]} ])
  = [JString "Abacaxi"; JString "banana"; JString "Caju"].
Proof. vm_compute. reflexivity. Qed.

(** *** Filters *)

Lemma forallb_Permutation {A} (p : A -> bool) l l' :
  Permutation l l' -> forallb p l = forallb p l'.
Proof.
  induction 1 as [|x l l' _ IH|x y l|l l' l'' _ IH1 _ IH2]; cbn [forallb].
  - reflexivity.
  - rewrite IH. reflexivity.
  - destruct (p x), (p y); reflexivity.
  - congruence.
Qed.

Lemma filter_filter {A} (p q : A -> bool) l :
  List.filter p (List.filter q l) = List.filter (fun x => p x && q x) l.
Proof.
  induction l as [|x l IH]; simpl; [reflexivity|].
  destruct (q x); simpl; [destruct (p x); simpl; congruence|].
  rewrite andb_false_r. exact IH.
Qed.

Lemma applyFilters_insert field value (filters : gmap string string) data :
  applyFilters (<[field := value]> filters) data
  = List.filter (fun item => matchesFilter item (field, value))
                (applyFilters (delete field filters) data).
Proof.
  unfold applyFilters. rewrite filter_filter. apply List.filter_ext. intros item.
  rewrite <- (insert_delete_eq filters).
  rewrite (forallb_Permutation _ _ _
             (map_to_list_insert (delete field filters) field value
                                 (lookup_delete_eq filters field))).
  reflexivity.
Qed.

(** X25: setting a filter narrows the table: the rows shown are the rows that
    the other filters keep and that match the new one.  A filter set to
    the empty text is no filter, and setting the same filter twice shows
    what setting it once shows. *)
Theorem setFilter_narrows field value st data :
  applyFilters (filters (setFilter field value st)) data
  = List.filter (fun item => matchesFilter item (field, value))
                (applyFilters (delete field (filters st)) data)
  /\ applyFilters (filters (setFilter field "" st)) data
     = applyFilters (delete field (filters st)) data
  /\ setFilter field value (setFilter field value st) = setFilter field value st
  /\ sublist (applyFilters (filters (setFilter field value st)) data) data.
Proof.
  unfold setFilter. cbn [filters sortKey sortOrder]. split; [|split; [|split]].
  - apply applyFilters_insert.
  - rewrite applyFilters_insert.
    induction (applyFilters _ data) as [|x l IH]; [reflexivity|].
    change (List.filter (fun item => matchesFilter item (field, "")) (x :: l))
      with (x :: List.filter (fun item => matchesFilter item (field, "")) l).
    rewrite IH. reflexivity.
  - rewrite insert_insert_eq. reflexivity.
  - unfold applyFilters. induction data as [|x l IH]; cbn [List.filter]; [constructor|].
    destruct (forallb _ _); [apply sublist_skip | apply sublist_cons]; exact IH.
Qed.

(** *** The state of the table *)

Lemma setSort_current k order fs :
  setSort k (MkState (Some k) order fs)
  = MkState (Some k) (match order with asc => desc | desc => asc end) fs.
Proof. unfold setSort. cbn [sortKey]. rewrite bool_decide_eq_true_2; reflexivity. Qed.

Lemma setSort_other k st :
  sortKey st <> Some k -> setSort k st = MkState (Some k) asc (filters st).
Proof. intros H. unfold setSort. rewrite bool_decide_eq_false_2; [reflexivity | exact H]. Qed.

(** X26: clicking a column header: the column becomes the sort key and the
    filters stay; the first click on a new column sorts ascending, a
    second click reverses the order, and a third click gives the state
    of the first. *)
Theorem setSort_cycle k st :
  sortKey (setSort k st) = Some k
  /\ filters (setSort k st) = filters st
  /\ (sortKey st <> Some k -> sortOrder (setSort k st) = asc)
  /\ sortOrder (setSort k (setSort k st)) <> sortOrder (setSort k st)
  /\ setSort k (setSort k (setSort k st)) = setSort k st.
Proof.
  destruct st as [key order fs].
  destruct (decide (key = Some k)) as [-> | Hk].
  - rewrite !setSort_current. cbn [sortKey sortOrder filters].
    destruct order; repeat split; try discriminate; contradiction.
  - rewrite (setSort_other k (MkState key order fs) Hk), !setSort_current.
    cbn [sortKey sortOrder filters]. repeat split; discriminate.
Qed.

(** X27: the table shows a rearrangement of the rows that pass the
    filters: no row is added, and no more rows than the data has. *)
Theorem filteredAndSorted_rows st columns rows :
  Permutation (filteredAndSorted st columns rows) (applyFilters (filters st) rows)
  /\ (List.length (filteredAndSorted st columns rows) <= List.length rows)%nat
  /\ forall row, In row (filteredAndSorted st columns rows) ->
                 In row rows
                 /\ forallb (matchesFilter row) (map_to_list (filters st)) = true.
Proof.
  assert (Hperm : Permutation (filteredAndSorted st columns rows)
                              (applyFilters (filters st) rows)).
  { unfold filteredAndSorted. apply applySort_permutation. }
  split; [exact Hperm|]. split.
  - rewrite (Permutation_length Hperm). unfold applyFilters. apply List.filter_length_le.
  - intros row Hrow. apply (Permutation_in _ Hperm) in Hrow.
    unfold applyFilters in Hrow. apply filter_In in Hrow. exact Hrow.
Qed.

End TableFacts.

(** ** The order of the rows *)

Module RowOrder.
Import Py Spec Effect Orm StockCostViewSet Valuation ValuationRun ValuationFacts Reads.
Import EngineFacts Examples OrderExamples Keys.
#[local] Open Scope Q_scope.

(** *** Sums do not depend on the order of the rows *)

Lemma Qplus_swap x a b : x + a + b = x + b + a.
Proof.
  destruct x as [nx dx], a as [na da], b as [nb db]. unfold Qplus. cbn [Qnum Qden].
  f_equal; [rewrite !Pos2Z.inj_mul; ring | lia].
Qed.

Lemma Qplus_0_l_eq x : 0 + x = x.
Proof.
  destruct x as [nx dx]. unfold Qplus. cbn [Qnum Qden].
  f_equal. lia.
Qed.

Lemma fold_left_Qplus_Permutation l l' x :
  Permutation l l' -> fold_left Qplus l x = fold_left Qplus l' x.
Proof.
  intros H. revert x.
  induction H as [|a l l' _ IH|a b l|l l' l'' _ IH1 _ IH2]; intros x; cbn [fold_left].
  - reflexivity.
  - apply IH.
  - rewrite Qplus_swap. reflexivity.
  - rewrite IH1. apply IH2.
Qed.

Lemma Sum_fold_left l :
  Sum l = match l with [] => None | _ :: _ => Some (fold_left Qplus l 0) end.
Proof. destruct l as [|x l]; [reflexivity|]. cbn [Sum fold_left]. rewrite Qplus_0_l_eq. reflexivity. Qed.

Lemma Sum_Permutation l l' : Permutation l l' -> Sum l = Sum l'.
Proof.
  intros H. rewrite !Sum_fold_left.
  destruct l as [|x l], l' as [|y l'].
  - reflexivity.
  - apply Permutation_nil in H. discriminate H.
  - symmetry in H. apply Permutation_nil in H. discriminate H.
  - rewrite (fold_left_Qplus_Permutation _ _ 0 H). reflexivity.
Qed.

Lemma List_filter_Permutation {A} (p : A -> bool) l l' :
  Permutation l l' -> Permutation (List.filter p l) (List.filter p l').
Proof.
  induction 1 as [|a l l' _ IH|a b l|l l' l'' _ IH1 _ IH2]; cbn [List.filter].
  - reflexivity.
  - destruct (p a); [constructor|]; exact IH.
  - destruct (p a), (p b); try reflexivity. apply perm_swap.
  - etransitivity; eassumption.
Qed.

(** *** The row with the largest key *)

Lemma first_Permutation l l' :
  (forall t u, In t l -> In u l ->
               Transacao.id_transacao t = Transacao.id_transacao u -> t = u) ->
  Permutation l l' ->
  first (order_by_desc_id l) = first (order_by_desc_id l').
Proof.
  intros Hkeys Hperm.
  pose proof (first_order_by_desc_id l) as H1.
  pose proof (first_order_by_desc_id l') as H2.
  destruct (first (order_by_desc_id l)) as [t|], (first (order_by_desc_id l')) as [t'|].
  - destruct H1 as [Ht Hmax], H2 as [Ht' Hmax'].
    assert (Ht'l : In t' l) by (eapply Permutation_in; [symmetry; exact Hperm | exact Ht']).
    f_equal. apply Hkeys; auto.
    apply Z.le_antisymm.
    + apply Hmax'. eapply Permutation_in; eassumption.
    + apply Hmax, Ht'l.
  - subst l'. destruct H1 as [Ht _]. symmetry in Hperm. apply Permutation_nil in Hperm.
    subst l. destruct Ht.
  - subst l. apply Permutation_nil in Hperm. subst l'.
    destruct H2 as [[] _].
  - reflexivity.
Qed.

(** *** The snapshots *)

Section SameTables.
Variables (db1 db2 : database) (d : date).
Hypothesis registry : Permutation (items db1) (items db2).
Hypothesis ledger : Permutation (transacoes db1) (transacoes db2).
Hypothesis keys : keyed db1.

Lemma entradas_Permutation sku : Permutation (entradas db1 d sku) (entradas db2 d sku).
Proof. apply List_filter_Permutation, ledger. Qed.

Lemma saidas_Permutation sku : Permutation (saidas db1 d sku) (saidas db2 d sku).
Proof. apply List_filter_Permutation, ledger. Qed.

Lemma estoque_atual_order sku : estoque_atual db1 d sku = estoque_atual db2 d sku.
Proof.
  unfold estoque_atual.
  rewrite (Sum_Permutation _ _ (Permutation_map _ (entradas_Permutation sku))).
  rewrite (Sum_Permutation _ _ (Permutation_map _ (saidas_Permutation sku))).
  reflexivity.
Qed.

Lemma valor_estoque_atual_order sku :
  valor_estoque_atual db1 d sku = valor_estoque_atual db2 d sku.
Proof.
  unfold valor_estoque_atual.
  rewrite (Sum_Permutation _ _ (Permutation_map _ (entradas_Permutation sku))).
  rewrite (Sum_Permutation _ _ (Permutation_map _ (saidas_Permutation sku))).
  reflexivity.
Qed.

Lemma snapshot_order item : snapshot db1 d item = snapshot db2 d item.
Proof.
  unfold snapshot, custo_medio.
  rewrite !estoque_atual_order, !valor_estoque_atual_order.
  rewrite (first_Permutation (entradas db1 d (Item.cod_sku item))
             (entradas db2 d (Item.cod_sku item))).
  - reflexivity.
  - intros t u Ht Hu. apply filter_In in Ht as [Ht Hst], Hu as [Hu Hsu].
    apply andb_prop in Hst as [Hst _], Hsu as [Hsu _].
    apply String.eqb_eq in Hst, Hsu. apply keys; congruence.
  - apply entradas_Permutation.
Qed.

Lemma listed_order hs item : listed db1 d hs item = listed db2 d hs item.
Proof.
  unfold listed. f_equal. f_equal.
  rewrite quantidade_estoque_atual, estoque_atual_order, <- quantidade_estoque_atual.
  reflexivity.
Qed.

Lemma items_query_order query_params :
  Permutation (items_query db1 query_params) (items_query db2 query_params).
Proof.
  unfold items_query. cbv zeta.
  repeat match goal with
         | |- Permutation (if ?c then _ else _) (if ?c then _ else _) => destruct c
         | |- Permutation (List.filter _ _) (List.filter _ _) =>
             apply List_filter_Permutation
         end; exact registry.
Qed.

Lemma results_map query_params :
  results db2 d query_params
  = map (snapshot db1 d)
        (List.filter (listed db1 d (has_stock query_params)) (items_query db2 query_params)).
Proof.
  unfold results.
  rewrite (List.filter_ext _ _ (fun item => eq_sym (listed_order (has_stock query_params) item))).
  apply map_ext. intros item. symmetry. apply snapshot_order.
Qed.

Lemma results_order query_params :
  Permutation (results db1 d query_params) (results db2 d query_params).
Proof.
  rewrite results_map. unfold results.
  apply Permutation_map, List_filter_Permutation, items_query_order.
Qed.

Lemma results_same_order query_params :
  items db1 = items db2 ->
  results db1 d query_params = results db2 d query_params
  /\ items_query db1 query_params = items_query db2 query_params.
Proof.
  intros Hitems.
  assert (Hq : items_query db1 query_params = items_query db2 query_params)
    by (unfold items_query; rewrite Hitems; reflexivity).
  split; [|exact Hq]. rewrite results_map, <- Hq. reflexivity.
Qed.
End SameTables.

(** The response and the reads of a call made after the reads [tr]. *)
Lemma list_trace_from db now query_params d tr :
  always_up db ->
  asOfDate now query_params = Some d ->
  list_ db now query_params tr
  = (Returned (Response200 (List.length (results db d query_params))
                           (results db d query_params)),
     tr ++ SelectItems :: grouped_reads (items_query db query_params)
        ++ flat_map item_reads (results db d query_params)).
Proof.
  intros Hup Hd. unfold list_. rewrite (asOfDate_inv _ _ _ Hd).
  unfold mbind at 1, M_bind at 1. rewrite execute_up by assumption.
  fold (items_query db query_params). fold (has_stock query_params).
  unfold mbind, M_bind.
  edestruct (for_each_trace db d (has_stock query_params) (items_query db query_params))
    as (qe' & qs' & E); [exact Hup | | | rewrite E].
  - split; [reflexivity | left; reflexivity].
  - split; [reflexivity | left; reflexivity].
  - cbn [result app]. unfold results, grouped_reads, pending. cbn.
    rewrite <- !app_assoc. cbn [app].
    destruct (items_query db query_params); reflexivity.
Qed.

(** *** C7 *)




End RowOrder.
